(** * helm-schema: the schema package (pkg/schema/schema.go)

    A shallow embedding of the annotation-driven schema synthesis engine:
    the union-typed fields, the [Schema] node with its JSON encoding and
    validator, the required-property normalizer, the comment-annotation
    scanner and the recursive value-tree transformer. *)

From Stdlib Require Import String Ascii List Bool Arith ZArith Lia Permutation.
Import ListNotations.
Open Scope string_scope.
Open Scope list_scope.

Set Implicit Arguments.
Set Warnings "-register-all".

(** ** Constants of the package *)

Definition SchemaPrefix : string := "# @schema".
Definition CommentPrefix : string := "#".
Definition CustomAnnotationPrefix : string := "x-".

Definition nullTag : string := "!!null".
Definition boolTag : string := "!!bool".
Definition strTag : string := "!!str".
Definition intTag : string := "!!int".
Definition floatTag : string := "!!float".
Definition timestampTag : string := "!!timestamp".
Definition arrayTag : string := "!!seq".
Definition mapTag : string := "!!map".

(** ** Go slices, strings and errors *)

(** A Go slice is [None] when nil and [Some l] otherwise: the package tests
    some of its slices against nil. *)
Definition slice (A : Type) : Type := option (list A).

Definition elems {A : Type} (s : slice A) : list A :=
  match s with
  | Some l => l
  | None => []
  end.

(** [append(s, x)]: the result is never nil. *)
Definition append {A : Type} (s : slice A) (x : A) : slice A :=
  Some (elems s ++ [x]).

Definition len {A : Type} (s : slice A) : nat := length (elems s).

(** [Index] returns the index of the first occurrence of [v], or -1. *)
Fixpoint Index (s : list string) (v : string) : Z :=
  match s with
  | [] => (-1)%Z
  | x :: rest =>
      if String.eqb v x then 0%Z
      else let i := Index rest v in
           if (i <? 0)%Z then (-1)%Z else (i + 1)%Z
  end.

Definition Contains (s : list string) (v : string) : bool :=
  (Index s v >=? 0)%Z.

(** [strings.HasPrefix s p]. *)
Definition HasPrefix (s p : string) : bool := String.prefix p s.

(** [strings.TrimPrefix s p]. *)
Definition TrimPrefix (s p : string) : string :=
  if HasPrefix s p
  then substring (String.length p) (String.length s - String.length p) s
  else s.

(** [strings.Join l sep]. *)
Definition Join (l : list string) (sep : string) : string := String.concat sep l.

(** The error kinds of the package. [Fatal] marks the places where the
    code ends the process ([log.Fatal]); [Panic] a run-time panic. *)
Inductive error : Type :=
| TypeMismatch (msg : string)
| SchemaInconsistency (msg : string)
| MalformedAnnotation (msg : string)
| UnsupportedTag (tag : string)
| UnsupportedValue
| ExternalError (msg : string).

Inductive outcome (A : Type) : Type :=
| Done (a : A)
| Fail (e : error)
| Fatal (e : error)
| Panic.
Arguments Done {A} a.
Arguments Fail {A} e.
Arguments Fatal {A} e.
Arguments Panic {A}.

Definition bind {A B : Type} (m : outcome A) (k : A -> outcome B) : outcome B :=
  match m with
  | Done a => k a
  | Fail e => Fail e
  | Fatal e => Fatal e
  | Panic => Panic
  end.

Notation "x <- m ;; k" := (bind m (fun x => k))
  (at level 61, m at next level, right associativity).

(** [orFatal m]: the call site hands an error of [m] to [log.Fatal]. *)
Definition orFatal {A : Type} (m : outcome A) : outcome A :=
  match m with
  | Fail e => Fatal e
  | other => other
  end.

(** ** Generic values

    The values an [interface{}] holds after decoding, and the JSON
    documents the encoder writes.  A float64 is kept as its 64 bits; an
    object is the list of its members. *)

Inductive float64 : Type := Float64 (bits : Z).

(** NaN and the infinities have all exponent bits set. *)
Definition float64_finite (f : float64) : bool :=
  match f with
  | Float64 bits => negb (Z.land (Z.shiftr bits 52) 2047 =? 2047)%Z
  end.

Inductive json : Type :=
| JNull
| JBool (b : bool)
| JInt (n : Z)
| JFloat (f : float64)
| JString (s : string)
| JArray (l : list json)
| JObject (members : list (string * json)).

(** Member lookup, and the assignment [data[key] = value] of a Go map. *)
Fixpoint jlookup (key : string) (members : list (string * json)) : option json :=
  match members with
  | [] => None
  | (k, v) :: rest => if String.eqb k key then Some v else jlookup key rest
  end.

Fixpoint jset (key : string) (value : json) (members : list (string * json))
  : list (string * json) :=
  match members with
  | [] => [(key, value)]
  | (k, v) :: rest =>
      if String.eqb k key then (k, value) :: rest
      else (k, v) :: jset key value rest
  end.

Definition jdelete (key : string) (members : list (string * json)) : list (string * json) :=
  filter (fun kv => negb (String.eqb (fst kv) key)) members.

(** [encoding/json] refuses NaN and the infinities. *)
Fixpoint json_ok (j : json) : bool :=
  match j with
  | JFloat f => float64_finite f
  | JArray l => forallb json_ok l
  | JObject members => forallb (fun kv => json_ok (snd kv)) members
  | _ => true
  end.

(** ** yaml.Node *)

Inductive NodeKind : Type :=
| DocumentNode | SequenceNode | MappingNode | ScalarNode | AliasNode.

Definition NodeKind_eqb (a b : NodeKind) : bool :=
  match a, b with
  | DocumentNode, DocumentNode | SequenceNode, SequenceNode
  | MappingNode, MappingNode | ScalarNode, ScalarNode
  | AliasNode, AliasNode => true
  | _, _ => false
  end.

(** The fields of [yaml.Node] the package reads.  [Tag] is the resolved
    short tag the parser leaves on a node, so [ShortTag] returns it. *)
Inductive Node : Type := mkNode {
  Kind : NodeKind;
  Tag : string;
  Value : string;
  HeadComment : string;
  Content : list Node;
  Alias : option Node
}.

Definition ShortTag (n : Node) : string := Tag n.

(** [Node.Decode] into a [string]: a scalar gives its text, a null scalar
    leaves the zero value, a collection is a type error. *)
Definition Node_Decode_string (n : Node) : outcome string :=
  match Kind n with
  | ScalarNode =>
      if String.eqb (ShortTag n) nullTag then Done "" else Done (Value n)
  | _ => Fail (TypeMismatch "cannot unmarshal into string")
  end.

(** [Node.Decode] into a [bool]; the package calls it on nodes tagged
    [!!bool] only, whose text is one of the six spellings below. *)
Definition Node_Decode_bool (n : Node) : outcome bool :=
  match Kind n with
  | ScalarNode =>
      if String.eqb (ShortTag n) boolTag then
        if existsb (String.eqb (Value n)) ["true"; "True"; "TRUE"] then Done true
        else if existsb (String.eqb (Value n)) ["false"; "False"; "FALSE"] then Done false
        else Fail (TypeMismatch "cannot unmarshal into bool")
      else Fail (TypeMismatch "cannot unmarshal into bool")
  | _ => Fail (TypeMismatch "cannot unmarshal into bool")
  end.

(** ** The union-typed fields *)

(** [encoding/json] decoding of one JSON value into a [[]string], a
    [bool] and a [string] variable: [null] is accepted and leaves the
    zero value; any other shape is an error. *)
Definition json_Unmarshal_string (value : json) : outcome string :=
  match value with
  | JString s => Done s
  | JNull => Done ""
  | _ => Fail (TypeMismatch "json: cannot unmarshal into string")
  end.

Fixpoint json_Unmarshal_elems (l : list json) : outcome (list string) :=
  match l with
  | [] => Done []
  | v :: rest =>
      s <- json_Unmarshal_string v ;;
      r <- json_Unmarshal_elems rest ;;
      Done (s :: r)
  end.

Definition json_Unmarshal_strings (value : json) : outcome (slice string) :=
  match value with
  | JNull => Done None
  | JArray l => r <- json_Unmarshal_elems l ;; Done (Some r)
  | _ => Fail (TypeMismatch "json: cannot unmarshal into []string")
  end.

Definition json_Unmarshal_bool (value : json) : outcome bool :=
  match value with
  | JBool b => Done b
  | JNull => Done false
  | _ => Fail (TypeMismatch "json: cannot unmarshal into bool")
  end.

(** [json.Marshal] of a [[]string]. *)
Definition json_Marshal_strings (s : slice string) : json :=
  match s with
  | None => JNull
  | Some l => JArray (map JString l)
  end.

Record BoolOrArrayOfString : Type := mkBoolOrArrayOfString {
  Strings : slice string;
  Bool : bool
}.

Definition NewBoolOrArrayOfString (arr : slice string) (b : bool) : BoolOrArrayOfString :=
  {| Strings := arr; Bool := b |}.

(** The zero value of the struct. *)
Definition BoolOrArrayOfString_zero : BoolOrArrayOfString :=
  {| Strings := None; Bool := false |}.

Module BoolOrArrayOfString_.

(** The receiver is updated in place; the result pairs its new value
    with the returned error. *)
Definition UnmarshalJSON (s : BoolOrArrayOfString) (value : json)
  : BoolOrArrayOfString * option error :=
  match json_Unmarshal_strings value with
  | Done multi => ({| Strings := multi; Bool := Bool s |}, None)
  | _ =>
      match json_Unmarshal_bool value with
      | Done single => ({| Strings := Strings s; Bool := single |}, None)
      | _ => (s, None)
      end
  end.

Definition MarshalJSON (s : BoolOrArrayOfString) : json :=
  match Strings s with
  | None => json_Marshal_strings (Some [])
  | Some _ => json_Marshal_strings (Strings s)
  end.

(** The loop over [value.Content]. *)
Fixpoint decodeContent (content : list Node) (multi : slice string)
  : outcome (slice string) :=
  match content with
  | [] => Done multi
  | v :: rest =>
      typeStr <- Node_Decode_string v ;;
      decodeContent rest (append multi typeStr)
  end.

Definition UnmarshalYAML (s : BoolOrArrayOfString) (value : Node)
  : BoolOrArrayOfString * option error :=
  if String.eqb (ShortTag value) arrayTag then
    match decodeContent (Content value) None with
    | Done multi => ({| Strings := multi; Bool := Bool s |}, None)
    | Fail e | Fatal e => (s, Some e)
    | Panic => (s, Some (ExternalError "panic"))
    end
  else if String.eqb (ShortTag value) boolTag then
    match Node_Decode_bool value with
    | Done single => ({| Strings := Strings s; Bool := single |}, None)
    | Fail e | Fatal e => (s, Some e)
    | Panic => (s, Some (ExternalError "panic"))
    end
  else
    (s, Some (TypeMismatch "could not unmarshal to slice of string or bool")).

End BoolOrArrayOfString_.

Definition StringOrArrayOfString : Type := slice string.

Module StringOrArrayOfString_.

Fixpoint decodeContent (content : list Node) (multi : slice string)
  : outcome (slice string) :=
  match content with
  | [] => Done multi
  | v :: rest =>
      if String.eqb (ShortTag v) nullTag then
        decodeContent rest (append multi "null")
      else
        typeStr <- Node_Decode_string v ;;
        decodeContent rest (append multi typeStr)
  end.

Definition UnmarshalYAML (s : StringOrArrayOfString) (value : Node)
  : StringOrArrayOfString * option error :=
  if String.eqb (ShortTag value) arrayTag then
    match decodeContent (Content value) None with
    | Done multi => (multi, None)
    | Fail e | Fatal e => (s, Some e)
    | Panic => (s, Some (ExternalError "panic"))
    end
  else
    match Node_Decode_string value with
    | Done single => (Some [single], None)
    | Fail e | Fatal e => (s, Some e)
    | Panic => (s, Some (ExternalError "panic"))
    end.

Definition UnmarshalJSON (s : StringOrArrayOfString) (value : json)
  : StringOrArrayOfString * option error :=
  match json_Unmarshal_strings value with
  | Done multi => (multi, None)
  | _ =>
      match json_Unmarshal_string value with
      | Done single => (Some [single], None)
      | _ => (s, None)
      end
  end.

Definition MarshalJSON (s : StringOrArrayOfString) : json :=
  match elems s with
  | [single] => JString single
  | _ => json_Marshal_strings s
  end.

Definition recognized (t : string) : bool :=
  String.eqb t "" || String.eqb t "object" || String.eqb t "string"
  || String.eqb t "integer" || String.eqb t "number" || String.eqb t "array"
  || String.eqb t "null" || String.eqb t "boolean".

Definition Validate (s : StringOrArrayOfString) : option error :=
  if forallb recognized (elems s) then None
  else Some (SchemaInconsistency "unsupported type").

Definition IsEmpty (s : StringOrArrayOfString) : bool :=
  existsb (fun t => String.eqb t "") (elems s) || (len s =? 0)%nat.

Definition Matches (s : StringOrArrayOfString) (typeString : string) : bool :=
  existsb (fun t => String.eqb t typeString) (elems s).

End StringOrArrayOfString_.

(** ** The Schema node *)

(** [SchemaOrBool] is [interface{}]: nil, the [*bool] the synthesizer
    stores, a [Schema] held by value, or whatever a decoder produced. *)
Inductive SchemaOrBool_ (S : Type) : Type :=
| SOB_nil
| SOB_boolptr (b : bool)
| SOB_schema (s : S)
| SOB_value (v : json).
Arguments SOB_nil {S}.
Arguments SOB_boolptr {S} b.
Arguments SOB_schema {S} s.
Arguments SOB_value {S} v.

(** The struct, field by field in declaration order.  [Type_] and
    [Schema_] are the fields [Type] and [Schema].  A pointer is an
    option, a map the list of its entries ([None] when nil); the
    combinator lists and [Examples] are never tested against nil.  A
    schema is a tree: the pointers in maps and lists are not nil and no
    node is reached twice. *)
Inductive Schema : Type := mkSchema {
  AdditionalProperties : SchemaOrBool_ Schema;
  Default : option json;
  Then : option Schema;
  PatternProperties : option (list (string * Schema));
  Properties : option (list (string * Schema));
  If : option Schema;
  Minimum : option Z;
  MultipleOf : option Z;
  ExclusiveMaximum : option Z;
  Items : option Schema;
  ExclusiveMinimum : option Z;
  Maximum : option Z;
  Else : option Schema;
  Pattern : string;
  Const : option json;
  Ref : string;
  Schema_ : string;
  Id : string;
  Format : string;
  Description : string;
  Title : string;
  Type_ : StringOrArrayOfString;
  AnyOf : list Schema;
  AllOf : list Schema;
  OneOf : list Schema;
  Not : option Schema;
  Examples : list string;
  Enum : slice string;
  HasData : bool;
  Deprecated : bool;
  ReadOnly : bool;
  WriteOnly : bool;
  Required : BoolOrArrayOfString;
  CustomAnnotations : list (string * json);
  MinLength : option Z;
  MaxLength : option Z;
  MinItems : option Z;
  MaxItems : option Z
}.

Definition SchemaOrBool : Type := SchemaOrBool_ Schema.

(** Assignments to single fields. *)
Definition set_AdditionalProperties (v : SchemaOrBool_ Schema) (s : Schema) : Schema :=
  mkSchema
    v (Default s) (Then s) (PatternProperties s) (Properties s) (If s)
    (Minimum s) (MultipleOf s) (ExclusiveMaximum s) (Items s)
    (ExclusiveMinimum s) (Maximum s) (Else s) (Pattern s) (Const s) (Ref s)
    (Schema_ s) (Id s) (Format s) (Description s) (Title s) (Type_ s)
    (AnyOf s) (AllOf s) (OneOf s) (Not s) (Examples s) (Enum s) (HasData s)
    (Deprecated s) (ReadOnly s) (WriteOnly s) (Required s)
    (CustomAnnotations s) (MinLength s) (MaxLength s) (MinItems s)
    (MaxItems s).

Definition set_Default (v : option json) (s : Schema) : Schema :=
  mkSchema
    (AdditionalProperties s) v (Then s) (PatternProperties s)
    (Properties s) (If s) (Minimum s) (MultipleOf s) (ExclusiveMaximum s)
    (Items s) (ExclusiveMinimum s) (Maximum s) (Else s) (Pattern s)
    (Const s) (Ref s) (Schema_ s) (Id s) (Format s) (Description s)
    (Title s) (Type_ s) (AnyOf s) (AllOf s) (OneOf s) (Not s) (Examples s)
    (Enum s) (HasData s) (Deprecated s) (ReadOnly s) (WriteOnly s)
    (Required s) (CustomAnnotations s) (MinLength s) (MaxLength s)
    (MinItems s) (MaxItems s).

Definition set_Properties (v : option (list (string * Schema))) (s : Schema) : Schema :=
  mkSchema
    (AdditionalProperties s) (Default s) (Then s) (PatternProperties s) v
    (If s) (Minimum s) (MultipleOf s) (ExclusiveMaximum s) (Items s)
    (ExclusiveMinimum s) (Maximum s) (Else s) (Pattern s) (Const s) (Ref s)
    (Schema_ s) (Id s) (Format s) (Description s) (Title s) (Type_ s)
    (AnyOf s) (AllOf s) (OneOf s) (Not s) (Examples s) (Enum s) (HasData s)
    (Deprecated s) (ReadOnly s) (WriteOnly s) (Required s)
    (CustomAnnotations s) (MinLength s) (MaxLength s) (MinItems s)
    (MaxItems s).

Definition set_Items (v : option Schema) (s : Schema) : Schema :=
  mkSchema
    (AdditionalProperties s) (Default s) (Then s) (PatternProperties s)
    (Properties s) (If s) (Minimum s) (MultipleOf s) (ExclusiveMaximum s) v
    (ExclusiveMinimum s) (Maximum s) (Else s) (Pattern s) (Const s) (Ref s)
    (Schema_ s) (Id s) (Format s) (Description s) (Title s) (Type_ s)
    (AnyOf s) (AllOf s) (OneOf s) (Not s) (Examples s) (Enum s) (HasData s)
    (Deprecated s) (ReadOnly s) (WriteOnly s) (Required s)
    (CustomAnnotations s) (MinLength s) (MaxLength s) (MinItems s)
    (MaxItems s).

Definition set_Ref (v : string) (s : Schema) : Schema :=
  mkSchema
    (AdditionalProperties s) (Default s) (Then s) (PatternProperties s)
    (Properties s) (If s) (Minimum s) (MultipleOf s) (ExclusiveMaximum s)
    (Items s) (ExclusiveMinimum s) (Maximum s) (Else s) (Pattern s)
    (Const s) v (Schema_ s) (Id s) (Format s) (Description s) (Title s)
    (Type_ s) (AnyOf s) (AllOf s) (OneOf s) (Not s) (Examples s) (Enum s)
    (HasData s) (Deprecated s) (ReadOnly s) (WriteOnly s) (Required s)
    (CustomAnnotations s) (MinLength s) (MaxLength s) (MinItems s)
    (MaxItems s).

Definition set_Schema_ (v : string) (s : Schema) : Schema :=
  mkSchema
    (AdditionalProperties s) (Default s) (Then s) (PatternProperties s)
    (Properties s) (If s) (Minimum s) (MultipleOf s) (ExclusiveMaximum s)
    (Items s) (ExclusiveMinimum s) (Maximum s) (Else s) (Pattern s)
    (Const s) (Ref s) v (Id s) (Format s) (Description s) (Title s)
    (Type_ s) (AnyOf s) (AllOf s) (OneOf s) (Not s) (Examples s) (Enum s)
    (HasData s) (Deprecated s) (ReadOnly s) (WriteOnly s) (Required s)
    (CustomAnnotations s) (MinLength s) (MaxLength s) (MinItems s)
    (MaxItems s).

Definition set_Description (v : string) (s : Schema) : Schema :=
  mkSchema
    (AdditionalProperties s) (Default s) (Then s) (PatternProperties s)
    (Properties s) (If s) (Minimum s) (MultipleOf s) (ExclusiveMaximum s)
    (Items s) (ExclusiveMinimum s) (Maximum s) (Else s) (Pattern s)
    (Const s) (Ref s) (Schema_ s) (Id s) (Format s) v (Title s) (Type_ s)
    (AnyOf s) (AllOf s) (OneOf s) (Not s) (Examples s) (Enum s) (HasData s)
    (Deprecated s) (ReadOnly s) (WriteOnly s) (Required s)
    (CustomAnnotations s) (MinLength s) (MaxLength s) (MinItems s)
    (MaxItems s).

Definition set_Title (v : string) (s : Schema) : Schema :=
  mkSchema
    (AdditionalProperties s) (Default s) (Then s) (PatternProperties s)
    (Properties s) (If s) (Minimum s) (MultipleOf s) (ExclusiveMaximum s)
    (Items s) (ExclusiveMinimum s) (Maximum s) (Else s) (Pattern s)
    (Const s) (Ref s) (Schema_ s) (Id s) (Format s) (Description s) v
    (Type_ s) (AnyOf s) (AllOf s) (OneOf s) (Not s) (Examples s) (Enum s)
    (HasData s) (Deprecated s) (ReadOnly s) (WriteOnly s) (Required s)
    (CustomAnnotations s) (MinLength s) (MaxLength s) (MinItems s)
    (MaxItems s).

Definition set_Type_ (v : StringOrArrayOfString) (s : Schema) : Schema :=
  mkSchema
    (AdditionalProperties s) (Default s) (Then s) (PatternProperties s)
    (Properties s) (If s) (Minimum s) (MultipleOf s) (ExclusiveMaximum s)
    (Items s) (ExclusiveMinimum s) (Maximum s) (Else s) (Pattern s)
    (Const s) (Ref s) (Schema_ s) (Id s) (Format s) (Description s)
    (Title s) v (AnyOf s) (AllOf s) (OneOf s) (Not s) (Examples s) (Enum s)
    (HasData s) (Deprecated s) (ReadOnly s) (WriteOnly s) (Required s)
    (CustomAnnotations s) (MinLength s) (MaxLength s) (MinItems s)
    (MaxItems s).

Definition set_AnyOf (v : list Schema) (s : Schema) : Schema :=
  mkSchema
    (AdditionalProperties s) (Default s) (Then s) (PatternProperties s)
    (Properties s) (If s) (Minimum s) (MultipleOf s) (ExclusiveMaximum s)
    (Items s) (ExclusiveMinimum s) (Maximum s) (Else s) (Pattern s)
    (Const s) (Ref s) (Schema_ s) (Id s) (Format s) (Description s)
    (Title s) (Type_ s) v (AllOf s) (OneOf s) (Not s) (Examples s) (Enum s)
    (HasData s) (Deprecated s) (ReadOnly s) (WriteOnly s) (Required s)
    (CustomAnnotations s) (MinLength s) (MaxLength s) (MinItems s)
    (MaxItems s).

Definition set_HasData (v : bool) (s : Schema) : Schema :=
  mkSchema
    (AdditionalProperties s) (Default s) (Then s) (PatternProperties s)
    (Properties s) (If s) (Minimum s) (MultipleOf s) (ExclusiveMaximum s)
    (Items s) (ExclusiveMinimum s) (Maximum s) (Else s) (Pattern s)
    (Const s) (Ref s) (Schema_ s) (Id s) (Format s) (Description s)
    (Title s) (Type_ s) (AnyOf s) (AllOf s) (OneOf s) (Not s) (Examples s)
    (Enum s) v (Deprecated s) (ReadOnly s) (WriteOnly s) (Required s)
    (CustomAnnotations s) (MinLength s) (MaxLength s) (MinItems s)
    (MaxItems s).

Definition set_Required (v : BoolOrArrayOfString) (s : Schema) : Schema :=
  mkSchema
    (AdditionalProperties s) (Default s) (Then s) (PatternProperties s)
    (Properties s) (If s) (Minimum s) (MultipleOf s) (ExclusiveMaximum s)
    (Items s) (ExclusiveMinimum s) (Maximum s) (Else s) (Pattern s)
    (Const s) (Ref s) (Schema_ s) (Id s) (Format s) (Description s)
    (Title s) (Type_ s) (AnyOf s) (AllOf s) (OneOf s) (Not s) (Examples s)
    (Enum s) (HasData s) (Deprecated s) (ReadOnly s) (WriteOnly s) v
    (CustomAnnotations s) (MinLength s) (MaxLength s) (MinItems s)
    (MaxItems s).

Definition set_MinLength (v : option Z) (s : Schema) : Schema :=
  mkSchema
    (AdditionalProperties s) (Default s) (Then s) (PatternProperties s)
    (Properties s) (If s) (Minimum s) (MultipleOf s) (ExclusiveMaximum s)
    (Items s) (ExclusiveMinimum s) (Maximum s) (Else s) (Pattern s)
    (Const s) (Ref s) (Schema_ s) (Id s) (Format s) (Description s)
    (Title s) (Type_ s) (AnyOf s) (AllOf s) (OneOf s) (Not s) (Examples s)
    (Enum s) (HasData s) (Deprecated s) (ReadOnly s) (WriteOnly s)
    (Required s) (CustomAnnotations s) v (MaxLength s) (MinItems s)
    (MaxItems s).

(** The zero value [Schema{}]. *)
Definition Schema_zero : Schema :=
  {| AdditionalProperties := SOB_nil;
     Default := None;
     Then := None;
     PatternProperties := None;
     Properties := None;
     If := None;
     Minimum := None;
     MultipleOf := None;
     ExclusiveMaximum := None;
     Items := None;
     ExclusiveMinimum := None;
     Maximum := None;
     Else := None;
     Pattern := "";
     Const := None;
     Ref := "";
     Schema_ := "";
     Id := "";
     Format := "";
     Description := "";
     Title := "";
     Type_ := None;
     AnyOf := [];
     AllOf := [];
     OneOf := [];
     Not := None;
     Examples := [];
     Enum := None;
     HasData := false;
     Deprecated := false;
     ReadOnly := false;
     WriteOnly := false;
     Required := BoolOrArrayOfString_zero;
     CustomAnnotations := [];
     MinLength := None;
     MaxLength := None;
     MinItems := None;
     MaxItems := None |}.

Definition NewSchema (schemaType : string) : Schema :=
  if String.eqb schemaType "" then Schema_zero
  else set_Required (NewBoolOrArrayOfString (Some []) false)
         (set_Type_ (Some [schemaType]) Schema_zero).

Definition Set_ (s : Schema) : Schema := set_HasData true s.

(** ** JSON encoding *)

(** A struct member tagged [omitempty]: left out when [v] is [None]. *)
Definition member (name : string) (v : option json) : list (string * json) :=
  match v with
  | Some j => [(name, j)]
  | None => []
  end.

Definition omitString (s : string) : option json :=
  if String.eqb s "" then None else Some (JString s).

Definition omitBool (b : bool) : option json :=
  if b then Some (JBool true) else None.

Definition omitInt (p : option Z) : option json := option_map JInt p.

Definition omitList (l : list json) : option json :=
  match l with
  | [] => None
  | _ => Some (JArray l)
  end.

Definition omitMap (m : list (string * json)) : option json :=
  match m with
  | [] => None
  | _ => Some (JObject m)
  end.

(** The second half of [Schema.MarshalJSON]: the extension entries are
    assigned into the decoded map, and the key of the extension map
    itself is deleted. *)
Definition inlineCustomAnnotations (custom data : list (string * json))
  : list (string * json) :=
  jdelete "CustomAnnotations"
    (fold_left (fun d kv => jset (fst kv) (snd kv) d) custom data).

(** [encodeFields addr s] is the struct encoding [encoding/json] gives
    the declared fields of [s].  The two union types have their
    [MarshalJSON] on the pointer receiver, so it is used only when the
    struct is addressable ([addr]): it is when reached through a pointer,
    and it is not for a [Schema] held by value in [AdditionalProperties].
    Child nodes behind pointers are encoded by [Schema.MarshalJSON]. *)
Fixpoint encodeFields (addr : bool) (s : Schema) {struct s} : list (string * json) :=
  let marshal := fun c : Schema =>
    JObject (inlineCustomAnnotations (CustomAnnotations c) (encodeFields true c)) in
  let marshalMap := fun m : option (list (string * Schema)) =>
    match m with
    | Some l => omitMap (map (fun kv => (fst kv, marshal (snd kv))) l)
    | None => None
    end in
  member "additionalProperties"
    match AdditionalProperties s with
    | SOB_nil => None
    | SOB_boolptr b => Some (JBool b)
    | SOB_schema sub => Some (JObject (encodeFields false sub))
    | SOB_value v => Some v
    end
  ++ member "default" (Default s)
  ++ member "then" (option_map marshal (Then s))
  ++ member "patternProperties" (marshalMap (PatternProperties s))
  ++ member "properties" (marshalMap (Properties s))
  ++ member "if" (option_map marshal (If s))
  ++ member "minimum" (omitInt (Minimum s))
  ++ member "multipleOf" (omitInt (MultipleOf s))
  ++ member "exclusiveMaximum" (omitInt (ExclusiveMaximum s))
  ++ member "items" (option_map marshal (Items s))
  ++ member "exclusiveMinimum" (omitInt (ExclusiveMinimum s))
  ++ member "maximum" (omitInt (Maximum s))
  ++ member "else" (option_map marshal (Else s))
  ++ member "pattern" (omitString (Pattern s))
  ++ member "const" (Const s)
  ++ member "$ref" (omitString (Ref s))
  ++ member "$schema" (omitString (Schema_ s))
  ++ member "$id" (omitString (Id s))
  ++ member "format" (omitString (Format s))
  ++ member "description" (omitString (Description s))
  ++ member "title" (omitString (Title s))
  ++ member "type"
       match elems (Type_ s) with
       | [] => None
       | _ => Some (if addr then StringOrArrayOfString_.MarshalJSON (Type_ s)
                    else json_Marshal_strings (Type_ s))
       end
  ++ member "anyOf" (omitList (map marshal (AnyOf s)))
  ++ member "allOf" (omitList (map marshal (AllOf s)))
  ++ member "oneOf" (omitList (map marshal (OneOf s)))
  ++ member "not" (option_map marshal (Not s))
  ++ member "examples" (omitList (map JString (Examples s)))
  ++ member "enum" (omitList (map JString (elems (Enum s))))
  ++ member "deprecated" (omitBool (Deprecated s))
  ++ member "readOnly" (omitBool (ReadOnly s))
  ++ member "writeOnly" (omitBool (WriteOnly s))
  ++ member "required"
       (Some (if addr then BoolOrArrayOfString_.MarshalJSON (Required s)
              else JObject [("Strings", json_Marshal_strings (Strings (Required s)));
                            ("Bool", JBool (Bool (Required s)))]))
  ++ member "CustomAnnotations" (omitMap (CustomAnnotations s))
  ++ member "minLength" (omitInt (MinLength s))
  ++ member "maxLength" (omitInt (MaxLength s))
  ++ member "minItems" (omitInt (MinItems s))
  ++ member "maxItems" (omitInt (MaxItems s)).

(** [Schema.MarshalJSON]: the declared fields through the alias type,
    then the extension entries inlined.  The decoded map is kept as the
    member list; the order of members and the float64 rounding of
    numbers in the intermediate map are not part of the model. *)
Definition MarshalJSON (s : Schema) : json :=
  JObject (inlineCustomAnnotations (CustomAnnotations s) (encodeFields true s)).

(** [Schema.ToJson]; the indentation is not part of the model. *)
Definition ToJson (s : Schema) : outcome json :=
  let res := MarshalJSON s in
  if json_ok res then Done res else Fail UnsupportedValue.

(** ** Validation *)

Definition isSome {A : Type} (o : option A) : bool :=
  match o with
  | Some _ => true
  | None => false
  end.

Definition supportedFormats : list string :=
  ["date-time"; "time"; "date"; "duration"; "email"; "idn-email";
   "hostname"; "idn-hostname"; "ipv4"; "ipv6"; "uuid"; "uri";
   "uri-reference"; "iri"; "iri-reference"; "uri-template";
   "json-pointer"; "relative-json-pointer"; "regex"].

(** [if cond { return err }] followed by the rest of the function. *)
Notation "'reject' cond 'with' msg ;;; rest" :=
  (if cond then Some (SchemaInconsistency msg) else rest)
  (at level 10, cond at level 99, msg at level 0, rest at level 200).

(** [*a > *b], false unless both pointers are set. *)
Definition bothGt (a b : option Z) : bool :=
  match a, b with
  | Some x, Some y => (x >? y)%Z
  | _, _ => false
  end.

(** The checks [Validate] makes itself, from the type names on;
    [itemsError] is what the nested call [s.Items.Validate()] returned
    (nil when there are no items). *)
Definition invariantChecks (itemsError : option error) (s : Schema) : option error :=
  let type := Type_ s in
  let typed := negb (StringOrArrayOfString_.IsEmpty type) in
  let notType := fun t => negb (StringOrArrayOfString_.Matches type t) in
  let notNumeric := typed && notType "number" && notType "integer" in
  match StringOrArrayOfString_.Validate type with
  | Some e => Some e
  | None =>
  reject negb (String.eqb (Pattern s) "") && typed && notType "string"
    with "cant use pattern if type is not string" ;;;
  reject negb (String.eqb (Format s) "") && typed && notType "string"
    with "cant use format if type is not string" ;;;
  reject bothGt (MinLength s) (MaxLength s)
    with "cant use MinLength > MaxLength" ;;;
  reject negb (String.eqb (Format s) "") && negb (String.eqb (Pattern s) "")
    with "cant use format and pattern option at the same time" ;;;
  match itemsError with
  | Some e => Some e
  | None =>
  reject isSome (Items s) && typed && notType "array"
    with "cant use items if type is not array" ;;;
  reject (isSome (MinItems s) || isSome (MaxItems s)) && typed && notType "array"
    with "cant use minItems or maxItems if type is not array" ;;;
  reject bothGt (MinItems s) (MaxItems s)
    with "minItems cant be greater than maxItems" ;;;
  reject isSome (Const s) && typed
    with "if your are using const, you can't use type" ;;;
  reject isSome (Enum s) && typed
    with "if your are using enum, you can't use type" ;;;
  reject negb (String.eqb (Format s) "")
         && negb (existsb (String.eqb (Format s)) supportedFormats)
    with "the format is not supported" ;;;
  reject isSome (Minimum s) && notNumeric
    with "if you use minimum, you cant use this type" ;;;
  reject isSome (Maximum s) && notNumeric
    with "if you use maximum, you cant use this type" ;;;
  reject isSome (ExclusiveMinimum s) && notNumeric
    with "if you use exclusiveMinimum, you cant use this type" ;;;
  reject isSome (ExclusiveMaximum s) && notNumeric
    with "if you use exclusiveMaximum, you cant use this type" ;;;
  reject isSome (MultipleOf s) && notNumeric
    with "if you use multiple, you cant use this type" ;;;
  reject match MultipleOf s with Some m => (m <=? 0)%Z | None => false end
    with "multiple option must be greater than 0" ;;;
  reject isSome (Minimum s) && isSome (ExclusiveMinimum s)
    with "you cant set minimum and exclusiveMinimum" ;;;
  reject isSome (Maximum s) && isSome (ExclusiveMaximum s)
    with "you cant set minimum and exclusiveMaximum" ;;;
  None
  end end.

Section Validator.

(** [Compiler.AddResource] of the external JSON-Schema compiler, called
    on a fresh compiler with the encoded node: an error or nil. *)
Variable AddResource : json -> option error.

Fixpoint Validate (s : Schema) {struct s} : option error :=
  match ToJson s with
  | Fail e | Fatal e => Some e
  | Panic => Some (ExternalError "panic")
  | Done jsonStr =>
      match AddResource jsonStr with
      | Some e => Some e
      | None =>
          invariantChecks
            match Items s with
            | Some items => Validate items
            | None => None
            end
            s
      end
  end.

End Validator.

(** ** The required-property normalizer *)

(** One turn of the loop over [schema.Properties], after the recursive
    call on the property: its name is appended to the parent's list when
    its boolean flag is set and the name is not there yet. *)
Definition addRequired (required : BoolOrArrayOfString) (prop : string * Schema)
  : BoolOrArrayOfString :=
  if Bool (Required (snd prop)) && negb (Contains (elems (Strings required)) (fst prop))
  then {| Strings := append (Strings required) (fst prop); Bool := Bool required |}
  else required.

(** The type assertion [schema.AdditionalProperties.(Schema)] copies the
    struct out of the interface and the function is run on the copy:
    what it writes through the copy's pointers and maps (the child
    nodes) is shared with the stored value, what it assigns to the
    copy's own fields ([Required.Strings], [Type]) is not. *)
Definition copyBack (stored fixedCopy : Schema) : Schema :=
  set_Required (Required stored) (set_Type_ (Type_ stored) fixedCopy).

(** [FixRequiredProperties] updates the node in place and always
    returns nil; the result here is the updated node.  The list of
    properties stands for the map in the order the loop visits it. *)
Fixpoint FixRequiredProperties (schema : Schema) {struct schema} : Schema :=
  let properties :=
    match Properties schema with
    | Some props => Some (map (fun kv => (fst kv, FixRequiredProperties (snd kv))) props)
    | None => None
    end in
  let required :=
    match properties with
    | Some props => fold_left addRequired props (Required schema)
    | None => Required schema
    end in
  let type :=
    match properties with
    | Some _ =>
        if negb (Contains (elems (Type_ schema)) "object")
        then Some ["object"] else Type_ schema
    | None => Type_ schema
    end in
  mkSchema
    match AdditionalProperties schema with
    | SOB_schema subSchema =>
        SOB_schema (copyBack subSchema (FixRequiredProperties subSchema))
    | other => other
    end
    (Default schema)
    (option_map FixRequiredProperties (Then schema))
    (PatternProperties schema)
    properties
    (option_map FixRequiredProperties (If schema))
    (Minimum schema) (MultipleOf schema) (ExclusiveMaximum schema)
    (option_map FixRequiredProperties (Items schema))
    (ExclusiveMinimum schema) (Maximum schema)
    (option_map FixRequiredProperties (Else schema))
    (Pattern schema) (Const schema) (Ref schema) (Schema_ schema) (Id schema)
    (Format schema) (Description schema) (Title schema)
    type
    (map FixRequiredProperties (AnyOf schema))
    (map FixRequiredProperties (AllOf schema))
    (map FixRequiredProperties (OneOf schema))
    (option_map FixRequiredProperties (Not schema))
    (Examples schema) (Enum schema) (HasData schema) (Deprecated schema)
    (ReadOnly schema) (WriteOnly schema)
    required
    (CustomAnnotations schema) (MinLength schema) (MaxLength schema)
    (MinItems schema) (MaxItems schema).

(** ** The annotation parser *)

Definition LF : ascii := "010"%char.
Definition CR : ascii := "013"%char.

(** [dropCR]: one trailing carriage return is not part of a line. *)
Fixpoint dropCR (s : string) : string :=
  match s with
  | EmptyString => EmptyString
  | String c EmptyString => if Ascii.eqb c CR then EmptyString else s
  | String c rest => String c (dropCR rest)
  end.

(** The tokens of a [bufio.Scanner] with the default line splitter:
    lines end at a line feed, a last line without one counts when it is
    not empty.  [line] is the part of the current line already read.
    Lines are taken to fit the scanner's buffer. *)
Fixpoint scanLines (data : string) (line : string) : list string :=
  match data with
  | EmptyString => if String.eqb line "" then [] else [dropCR line]
  | String c rest =>
      if Ascii.eqb c LF then dropCR line :: scanLines rest ""
      else scanLines rest (line ++ String c "")
  end.

(** The local variables of the scanning loop; [hasData] is the field
    [result.HasData]. *)
Record scanState : Type := mkScanState {
  description : list string;
  rawSchema : list string;
  insideSchemaBlock : bool;
  hasData : bool
}.

Definition scanStart : scanState :=
  {| description := []; rawSchema := []; insideSchemaBlock := false; hasData := false |}.

(** The body of the loop, for one line. *)
Definition scanLine (st : scanState) (line : string) : scanState :=
  if HasPrefix line SchemaPrefix then
    {| description := description st; rawSchema := rawSchema st;
       insideSchemaBlock := negb (insideSchemaBlock st); hasData := hasData st |}
  else if insideSchemaBlock st then
    let content := TrimPrefix line CommentPrefix in
    {| description := description st;
       rawSchema := rawSchema st ++ [TrimPrefix (TrimPrefix content CommentPrefix) " "];
       insideSchemaBlock := insideSchemaBlock st; hasData := true |}
  else
    {| description := description st
         ++ [TrimPrefix (TrimPrefix line CommentPrefix) " "];
       rawSchema := rawSchema st;
       insideSchemaBlock := insideSchemaBlock st; hasData := hasData st |}.

Definition scanComment (comment : string) : scanState :=
  fold_left scanLine (scanLines comment "") scanStart.

Definition NL : string := String LF "".

(** [strings.Split s sep] for a separator of one character; [part] is
    the part of the current piece already read. *)
Fixpoint splitAt (sep : ascii) (s : string) (part : string) : list string :=
  match s with
  | EmptyString => [part]
  | String c rest =>
      if Ascii.eqb c sep then part :: splitAt sep rest ""
      else splitAt sep rest (part ++ String c "")
  end.

Definition Split (s : string) (sep : ascii) : list string := splitAt sep s "".

Definition typeFromTag (tag : string) : outcome (list string) :=
  if String.eqb tag nullTag then Done ["null"]
  else if String.eqb tag boolTag then Done ["boolean"]
  else if String.eqb tag strTag then Done ["string"]
  else if String.eqb tag intTag then Done ["integer"]
  else if String.eqb tag floatTag then Done ["number"]
  else if String.eqb tag timestampTag then Done ["string"]
  else if String.eqb tag arrayTag then Done ["array"]
  else if String.eqb tag mapTag then Done ["object"]
  else Fail (UnsupportedTag tag).

Definition helmDocsTypeToSchemaType (helmDocsType : string) : outcome string :=
  if String.eqb helmDocsType "int" then Done "integer"
  else if String.eqb helmDocsType "bool" then Done "boolean"
  else if String.eqb helmDocsType "float" then Done "number"
  else if String.eqb helmDocsType "list" then Done "array"
  else if String.eqb helmDocsType "map" then Done "object"
  else if String.eqb helmDocsType "string" || String.eqb helmDocsType "object"
  then Done helmDocsType
  else Fail (ExternalError "cant translate helm-docs type to helm-schema type").

Module helm.
(** What [helm.ParseComment] of helm-docs returns, as far as read. *)
Record ChartValueDescription : Type := {
  Description : string;
  Default : string;
  ValueType : string
}.
End helm.

Module Skip.
Record SkipAutoGenerationConfig : Type := {
  Title : bool;
  Description : bool;
  Required : bool;
  Default : bool;
  AdditionalProperties : bool
}.
End Skip.

(** [schema.Properties[key] = value], on a map that was made if nil. *)
Fixpoint assign {A : Type} (key : string) (value : A) (m : list (string * A))
  : list (string * A) :=
  match m with
  | [] => [(key, value)]
  | (k, v) :: rest =>
      if String.eqb k key then (k, value) :: rest
      else (k, v) :: assign key value rest
  end.

Definition setProperty (key : string) (value : Schema) (schema : Schema) : Schema :=
  set_Properties
    (Some (assign key value match Properties schema with Some m => m | None => [] end))
    schema.

(** ** Synthesis *)

Section Synthesis.

(** The collaborators outside the package: the YAML decoder driving
    the decoding of an annotation block into a [Schema] that already
    exists, the JSON decoders, the compiled regular expressions, the
    helm-docs comment parser, the file system, the pointer evaluator
    and two number parsers of the standard library. *)
Variable yaml_Unmarshal : string -> Schema -> outcome Schema.
Variable json_Unmarshal : string -> outcome json.
Variable json_Unmarshal_Schema : json -> outcome Schema.
Variable AddResource : json -> option error.
Variable leadingCommentsRemover : string -> string.
Variable helmDocsTagsRemover : string -> string.
Variable prefixRemover : string -> string.
Variable helm_ParseComment : list string -> helm.ChartValueDescription.
Variable relativeTo : string -> string -> string.
Variable fileExists : string -> bool.
Variable readFile : string -> outcome string.
Variable jsonpointer_Get : json -> string -> outcome json.
Variable Atoi : string -> option Z.
Variable ParseFloat : string -> option float64.

(** The arguments [YamlToSchema] hands down unchanged. *)
Variable valuesPath : string.
Variable keepFullComment : bool.
Variable helmDocsCompatibilityMode : bool.
Variable dontRemoveHelmDocsPrefix : bool.
Variable skipAutoGeneration : Skip.SkipAutoGenerationConfig.

(** Modelled from the spec: [util.IsRelativeFile], whose file is not
    among the sources.  The file-path part is resolved relative to the
    directory containing the value-tree file ([relativeTo]); if that
    path does not exist the call returns an error. *)
Definition IsRelativeFile (root relPath : string) : outcome string :=
  let foundPath := relativeTo root relPath in
  if fileExists foundPath then Done foundPath
  else Fail (ExternalError "file does not exist").

Definition GetSchemaFromComment (comment : string) : outcome (Schema * string) :=
  let st := scanComment comment in
  let result := if hasData st then Set_ Schema_zero else Schema_zero in
  if insideSchemaBlock st then
    Fail (MalformedAnnotation "unclosed schema block found in comment")
  else
    result <- yaml_Unmarshal (Join (rawSchema st) NL) result ;;
    Done (result, Join (description st) NL).

Definition castNodeValueByType (rawValue : string) (fieldType : StringOrArrayOfString)
  : json :=
  let fix each (types : list string) : json :=
    match types with
    | [] => JString rawValue
    | t :: rest =>
        if String.eqb t "boolean" then
          if String.eqb rawValue "true" then JBool true
          else if String.eqb rawValue "false" then JBool false
          else each rest
        else if String.eqb t "integer" then
          match Atoi rawValue with
          | Some v => JInt v
          | None => each rest
          end
        else if String.eqb t "number" then
          match ParseFloat rawValue with
          | Some v => JFloat v
          | None => each rest
          end
        else each rest
    end in
  each (elems fieldType).

(** The compatibility block: what helm-docs found in the comment
    overrides the annotation. *)
Definition applyHelmDocs (keyNode : Node) (keyNodeSchema : Schema) : Schema :=
  let helmDocsValue := helm_ParseComment (Split (HeadComment keyNode) LF) in
  let s1 :=
    if negb (String.eqb (helm.Default helmDocsValue) "")
    then set_Default (Some (JString (helm.Default helmDocsValue))) (Set_ keyNodeSchema)
    else keyNodeSchema in
  let s2 :=
    if negb (String.eqb (helm.Description helmDocsValue) "")
    then set_Description (helm.Description helmDocsValue) (Set_ s1)
    else s1 in
  if negb (String.eqb (helm.ValueType helmDocsValue) "") then
    match helmDocsTypeToSchemaType (helm.ValueType helmDocsValue) with
    | Done helmDocsType => set_Type_ (Some [helmDocsType]) (Set_ s2)
    | _ => s2
    end
  else s2.

(** The block [if keyNodeSchema.Ref != ""]. *)
Definition resolveRef (keyNodeSchema : Schema) : outcome Schema :=
  if negb (String.eqb (Ref keyNodeSchema) "") then
    if HasPrefix (Ref keyNodeSchema) "#" then Done keyNodeSchema
    else
      let refParts := Split (Ref keyNodeSchema) "#"%char in
      match IsRelativeFile valuesPath (hd "" refParts) with
      | Done relFilePath =>
          byteValue <- orFatal (readFile relFilePath) ;;
          relSchema <-
            match refParts with
            | _ :: pointer :: _ =>
                let obj := match json_Unmarshal byteValue with
                           | Done o => o
                           | _ => JNull
                           end in
                jsonPointerResultRaw <- orFatal (jsonpointer_Get obj pointer) ;;
                (if json_ok jsonPointerResultRaw
                 then orFatal (json_Unmarshal_Schema jsonPointerResultRaw)
                 else Fatal UnsupportedValue)
            | _ =>
                orFatal (doc <- json_Unmarshal byteValue ;; json_Unmarshal_Schema doc)
            end ;;
          Done (set_HasData true relSchema)
      | _ => Done keyNodeSchema
      end
  else Done keyNodeSchema.

(** The block [if keyNodeSchema.HasData ... else ...]. *)
Definition validateOrInfer (valueNode : Node) (keyNodeSchema : Schema)
  : outcome Schema :=
  if HasData keyNodeSchema then
    match Validate AddResource keyNodeSchema with
    | Some e => Fatal e
    | None => Done keyNodeSchema
    end
  else
    nodeType <- orFatal (typeFromTag (Tag valueNode)) ;;
    Done (set_Type_ (Some nodeType) keyNodeSchema).

(** "Add key to required array of parent". *)
Definition addToParent (keyNode : Node) (keyNodeSchema : Schema)
           (parentRequiredProperties : slice string) : slice string :=
  if Bool (Required keyNodeSchema)
     || ((len (Strings (Required keyNodeSchema)) =? 0)%nat
         && negb (Skip.Required skipAutoGeneration)
         && negb (HasData keyNodeSchema))
  then
    if negb (Contains (elems parentRequiredProperties) (Value keyNode))
    then append parentRequiredProperties (Value keyNode)
    else parentRequiredProperties
  else parentRequiredProperties.

(** The defaults for additionalProperties, title, description and
    default, in this order. *)
Definition fillDefaults (keyNode valueNode : Node) (description : string)
           (keyNodeSchema : Schema) : Schema :=
  let s1 :=
    if negb (Skip.AdditionalProperties skipAutoGeneration)
       && NodeKind_eqb (Kind valueNode) MappingNode
       && (negb (HasData keyNodeSchema)
           || match AdditionalProperties keyNodeSchema with
              | SOB_nil => true
              | _ => false
              end)
    then set_AdditionalProperties (SOB_boolptr false) keyNodeSchema
    else keyNodeSchema in
  let s2 :=
    if String.eqb (Title s1) "" && negb (Skip.Title skipAutoGeneration)
    then set_Title (Value keyNode) s1 else s1 in
  let s3 :=
    if String.eqb (Description s2) "" && negb (Skip.Description skipAutoGeneration)
    then set_Description description s2 else s2 in
  if negb (Skip.Default skipAutoGeneration) && negb (isSome (Default s3))
     && NodeKind_eqb (Kind valueNode) ScalarNode
  then set_Default (Some (castNodeValueByType (Value valueNode) (Type_ s3))) s3
  else s3.

(** What a recursive call gives: the schema it returns and the final
    contents of the list behind [parentRequiredProperties]. *)
Definition synthesis : Type := slice string -> outcome (Schema * slice string).

Definition setStrings (strings : slice string) (s : Schema) : Schema :=
  set_Required {| Strings := strings; Bool := Bool (Required s) |} s.

(** The loop over the elements of a sequence; each element comes with
    the recursive call on it. *)
Fixpoint synthItems (items : list (Node * synthesis)) (seqSchema : Schema)
  : outcome Schema :=
  match items with
  | [] => Done seqSchema
  | (itemNode, synthItem) :: rest =>
      if NodeKind_eqb (Kind itemNode) ScalarNode then
        itemNodeType <- orFatal (typeFromTag (Tag itemNode)) ;;
        match itemNodeType with
        | t :: _ =>
            synthItems rest (set_AnyOf (AnyOf seqSchema ++ [NewSchema t]) seqSchema)
        | [] => Panic
        end
      else
        r <- synthItem (Some []) ;;
        let itemSchema := fst r in
        let itemRequiredProperties := snd r in
        let itemSchema :=
          setStrings (fold_left append (elems itemRequiredProperties)
                                (Strings (Required itemSchema))) itemSchema in
        let itemSchema :=
          if negb (Skip.AdditionalProperties skipAutoGeneration)
             && NodeKind_eqb (Kind itemNode) MappingNode
             && (negb (HasData itemSchema)
                 || match AdditionalProperties itemSchema with
                    | SOB_nil => true
                    | _ => false
                    end)
          then set_AdditionalProperties (SOB_boolptr false) itemSchema
          else itemSchema in
        synthItems rest (set_AnyOf (AnyOf seqSchema ++ [itemSchema]) seqSchema)
  end.

(** The last part of the block [if keyNodeSchema.Ref == ""]: the
    properties of a nested mapping, or the items of a sequence. *)
Definition descend (valueNode : Node) (synthValue : synthesis)
           (items : list (Node * synthesis)) (keyNodeSchema : Schema)
  : outcome Schema :=
  if NodeKind_eqb (Kind valueNode) MappingNode && negb (isSome (Properties keyNodeSchema))
  then
    r <- synthValue (Strings (Required keyNodeSchema)) ;;
    Done (set_Properties (Properties (fst r)) (setStrings (snd r) keyNodeSchema))
  else if NodeKind_eqb (Kind valueNode) SequenceNode && negb (isSome (Items keyNodeSchema))
  then
    seqSchema <- synthItems items (NewSchema "") ;;
    Done (FixRequiredProperties (set_Items (Some seqSchema) keyNodeSchema))
  else Done keyNodeSchema.

(** The comment the annotation parser is given for a key. *)
Definition commentOf (keyNode : Node) : string :=
  if negb keepFullComment then leadingCommentsRemover (HeadComment keyNode)
  else HeadComment keyNode.

(** The body of the loop over the entries of a mapping, after the
    alias of the value was followed.  The state is the schema under
    construction and the list behind [parentRequiredProperties]. *)
Definition mappingEntry (keyNode valueNode : Node) (synthValue : synthesis)
           (items : list (Node * synthesis)) (st : Schema * slice string)
  : outcome (Schema * slice string) :=
  let schema := fst st in
  let parentRequiredProperties := snd st in
  parsed <- orFatal (GetSchemaFromComment (commentOf keyNode)) ;;
  let keyNodeSchema :=
    if helmDocsCompatibilityMode then applyHelmDocs keyNode (fst parsed)
    else fst parsed in
  let description :=
    if negb dontRemoveHelmDocsPrefix
    then prefixRemover (helmDocsTagsRemover (snd parsed))
    else snd parsed in
  keyNodeSchema <- resolveRef keyNodeSchema ;;
  keyNodeSchema <- validateOrInfer valueNode keyNodeSchema ;;
  if String.eqb (Ref keyNodeSchema) "" then
    let parentRequiredProperties :=
      addToParent keyNode keyNodeSchema parentRequiredProperties in
    keyNodeSchema <-
      descend valueNode synthValue items
              (fillDefaults keyNode valueNode description keyNodeSchema) ;;
    Done (setProperty (Value keyNode) keyNodeSchema schema, parentRequiredProperties)
  else
    Done (setProperty (Value keyNode) keyNodeSchema schema, parentRequiredProperties).

Fixpoint YamlToSchema (node : Node) (parentRequiredProperties : slice string)
         {struct node} : outcome (Schema * slice string) :=
  let schema := NewSchema "object" in
  match Kind node with
  | DocumentNode =>
      match Content node with
      | [child] =>
          r <- YamlToSchema child (Strings (Required schema)) ;;
          let schema :=
            set_Properties (Properties (fst r))
              (setStrings (snd r)
                 (set_Schema_ "http://json-schema.org/draft-07/schema#" schema)) in
          Done (if negb (Skip.AdditionalProperties skipAutoGeneration)
                then set_AdditionalProperties (SOB_boolptr false) schema
                else schema,
                parentRequiredProperties)
      | _ => Fatal (ExternalError "Strange yaml document found")
      end
  | MappingNode =>
      (fix entries (content : list Node) (st : Schema * slice string)
         {struct content} : outcome (Schema * slice string) :=
         match content with
         | [] => Done st
         | [_] => Panic
         | keyNode :: valueNode :: rest =>
             let entry := fun target : Node =>
               st <- mappingEntry keyNode target (YamlToSchema target)
                       (map (fun item => (item, YamlToSchema item)) (Content target))
                       st ;;
               entries rest st in
             match Kind valueNode with
             | AliasNode =>
                 match Alias valueNode with
                 | Some target => entry target
                 | None => Panic
                 end
             | _ => entry valueNode
             end
         end) (Content node) (schema, parentRequiredProperties)
  | _ => Done (schema, parentRequiredProperties)
  end.

(** The node the value of an entry stands for: an alias is followed. *)
Definition aliasTarget (valueNode : Node) : option Node :=
  match Kind valueNode with
  | AliasNode => Alias valueNode
  | _ => Some valueNode
  end.

(** The loop of the mapping case on its own, from any state. *)
Fixpoint mappingEntries (content : list Node) (st : Schema * slice string)
         {struct content} : outcome (Schema * slice string) :=
  match content with
  | [] => Done st
  | [_] => Panic
  | keyNode :: valueNode :: rest =>
      let entry := fun target : Node =>
        st <- mappingEntry keyNode target (YamlToSchema target)
                (map (fun item => (item, YamlToSchema item)) (Content target))
                st ;;
        mappingEntries rest st in
      match Kind valueNode with
      | AliasNode =>
          match Alias valueNode with
          | Some target => entry target
          | None => Panic
          end
      | _ => entry valueNode
      end
  end.

(** The recursive calls an entry is given. *)
Definition itemsOf (target : Node) : list (Node * synthesis) :=
  map (fun item => (item, YamlToSchema item)) (Content target).

(** The annotation of a key as it stands before the reference is
    resolved: parsed, and overridden by helm-docs in compatibility mode. *)
Definition annotationOf (keyNode : Node) : outcome Schema :=
  parsed <- GetSchemaFromComment (commentOf keyNode) ;;
  Done (if helmDocsCompatibilityMode
        then applyHelmDocs keyNode (fst parsed)
        else fst parsed).

End Synthesis.

(** ** The rest of the package *)

Definition set_CustomAnnotations (v : list (string * json)) (s : Schema) : Schema :=
  mkSchema
    (AdditionalProperties s) (Default s) (Then s) (PatternProperties s)
    (Properties s) (If s) (Minimum s) (MultipleOf s) (ExclusiveMaximum s)
    (Items s) (ExclusiveMinimum s) (Maximum s) (Else s) (Pattern s)
    (Const s) (Ref s) (Schema_ s) (Id s) (Format s) (Description s)
    (Title s) (Type_ s) (AnyOf s) (AllOf s) (OneOf s) (Not s) (Examples s)
    (Enum s) (HasData s) (Deprecated s) (ReadOnly s) (WriteOnly s)
    (Required s) v (MinLength s) (MaxLength s) (MinItems s) (MaxItems s).

(** [getJsonKeys]: the [json] tag of every field of the struct, as
    written, in declaration order. *)
Definition getJsonKeys : list string :=
  [
   "additionalProperties,omitempty"; "default,omitempty"; "then,omitempty";
   "patternProperties,omitempty"; "properties,omitempty"; "if,omitempty";
   "minimum,omitempty"; "multipleOf,omitempty";
   "exclusiveMaximum,omitempty"; "items,omitempty";
   "exclusiveMinimum,omitempty"; "maximum,omitempty"; "else,omitempty";
   "pattern,omitempty"; "const,omitempty"; "$ref,omitempty";
   "$schema,omitempty"; "$id,omitempty"; "format,omitempty";
   "description,omitempty"; "title,omitempty"; "type,omitempty";
   "anyOf,omitempty"; "allOf,omitempty"; "oneOf,omitempty";
   "not,omitempty"; "examples,omitempty"; "enum,omitempty"; "-";
   "deprecated,omitempty"; "readOnly,omitempty"; "writeOnly,omitempty";
   "required,omitempty"; ",omitempty"; "minLength,omitempty";
   "maxLength,omitempty"; "minItems,omitempty"; "maxItems,omitempty"
  ].

Section Decoding.

(** The YAML library: [node.Decode] into the alias of the struct, which
    fills the declared fields of a copy of the receiver, and
    [valueNode.Decode] into an [interface{}]. *)
Variable Node_Decode_fields : Node -> Schema -> outcome Schema.
Variable Node_Decode_any : Node -> outcome json.

(** The loop of [Schema.UnmarshalYAML] over the keys of the node; it
    stops before a last key that has no value. *)
Fixpoint captureCustomAnnotations (content : list Node)
         (custom : list (string * json)) {struct content}
  : outcome (list (string * json)) :=
  match content with
  | keyNode :: valueNode :: rest =>
      let key := Value keyNode in
      if Contains getJsonKeys key then captureCustomAnnotations rest custom
      else if negb (HasPrefix key CustomAnnotationPrefix)
      then captureCustomAnnotations rest custom
      else
        value <- Node_Decode_any valueNode ;;
        captureCustomAnnotations rest (jset key value custom)
  | _ => Done custom
  end.

(** [Schema.UnmarshalYAML]: the receiver is replaced only when nothing
    failed. *)
Definition Schema_UnmarshalYAML (s : Schema) (node : Node) : Schema * option error :=
  match Node_Decode_fields node s with
  | Done alias =>
      match captureCustomAnnotations (Content node) [] with
      | Done custom => (set_CustomAnnotations custom alias, None)
      | Fail e | Fatal e => (s, Some e)
      | Panic => (s, Some (ExternalError "panic"))
      end
  | Fail e | Fatal e => (s, Some e)
  | Panic => (s, Some (ExternalError "panic"))
  end.

End Decoding.

(** [DisableRequiredProperties]: the node is updated in place; the
    result is the updated node.  [AdditionalProperties] and
    [PatternProperties] are not visited. *)
Fixpoint DisableRequiredProperties (s : Schema) {struct s} : Schema :=
  mkSchema
    (AdditionalProperties s)
    (Default s)
    (option_map DisableRequiredProperties (Then s))
    (PatternProperties s)
    match Properties s with
    | Some props =>
        Some (map (fun kv => (fst kv, DisableRequiredProperties (snd kv))) props)
    | None => None
    end
    (option_map DisableRequiredProperties (If s))
    (Minimum s) (MultipleOf s) (ExclusiveMaximum s)
    (option_map DisableRequiredProperties (Items s))
    (ExclusiveMinimum s) (Maximum s)
    (option_map DisableRequiredProperties (Else s))
    (Pattern s) (Const s) (Ref s) (Schema_ s) (Id s)
    (Format s) (Description s) (Title s)
    (Type_ s)
    (map DisableRequiredProperties (AnyOf s))
    (map DisableRequiredProperties (AllOf s))
    (map DisableRequiredProperties (OneOf s))
    (option_map DisableRequiredProperties (Not s))
    (Examples s) (Enum s) (HasData s) (Deprecated s)
    (ReadOnly s) (WriteOnly s)
    (NewBoolOrArrayOfString (Some []) false)
    (CustomAnnotations s) (MinLength s) (MaxLength s)
    (MinItems s) (MaxItems s).

Definition possibleSkipFields : list string :=
  ["title"; "description"; "required"; "default"; "additionalProperties"].

(** One turn of the loop of [NewSkipAutoGenerationConfig]: the state is
    [config] and [invalidFlags]. *)
Definition skipField (st : Skip.SkipAutoGenerationConfig * slice string)
           (fieldName : string) : Skip.SkipAutoGenerationConfig * slice string :=
  let config := fst st in
  let invalidFlags :=
    if negb (Contains possibleSkipFields fieldName)
    then append (snd st) fieldName else snd st in
  ({| Skip.Title :=
        if String.eqb fieldName "title" then true else Skip.Title config;
      Skip.Description :=
        if String.eqb fieldName "description" then true else Skip.Description config;
      Skip.Required :=
        if String.eqb fieldName "required" then true else Skip.Required config;
      Skip.Default :=
        if String.eqb fieldName "default" then true else Skip.Default config;
      Skip.AdditionalProperties :=
        if String.eqb fieldName "additionalProperties" then true
        else Skip.AdditionalProperties config |},
   invalidFlags).

Definition NewSkipAutoGenerationConfig (flag : list string)
  : outcome Skip.SkipAutoGenerationConfig :=
  let st :=
    fold_left skipField flag
      ({| Skip.Title := false; Skip.Description := false; Skip.Required := false;
          Skip.Default := false; Skip.AdditionalProperties := false |}, None) in
  if negb (len (snd st) =? 0)%nat then
    Fail (ExternalError
            (String.append "unsupported field names '"
               (String.append (Join (elems (snd st)) "', '")
                              "' for skipping auto-generation")))
  else Done (fst st).

(** * Vocabulary of the statements *)

(** The string a list element of a type annotation stands for. *)
Definition elementName (v : Node) : string :=
  if String.eqb (ShortTag v) nullTag then "null" else Value v.

Definition sequenceOf (content : list Node) : Node :=
  {| Kind := SequenceNode; Tag := arrayTag; Value := ""; HeadComment := "";
     Content := content; Alias := None |}.

Definition scalarOf (tag value : string) : Node :=
  {| Kind := ScalarNode; Tag := tag; Value := value; HeadComment := "";
     Content := []; Alias := None |}.

(** The names in a required list, none when the slice is nil. *)
Definition requiredNames (s : Schema) : list string := elems (Strings (Required s)).

(** The lines that begin with the delimiter. *)
Definition delimiters (lines : list string) : list string :=
  filter (fun line => HasPrefix line SchemaPrefix) lines.

(** A node with an unknown type name, which the checks of [Validate]
    refuse, and an external call that refuses every document. *)
Definition unknownTypeNode : Schema :=
  Set_ (set_Type_ (Some ["bogus"]) Schema_zero).

Definition refusing (_ : json) : option error :=
  Some (SchemaInconsistency "meta-schema violation").

(** [Compiler.AddResource] as the jsonschema library has it: the
    document is decoded and stored under its URL, and nothing is checked
    beyond its being JSON, which the encoded form of a node is; checking
    a document against a meta-schema is done when it is compiled, and
    [Validate] does not compile: the call that would, [CompileString],
    stands commented out in it. *)
Definition loadsOnly (_ : json) : option error := None.

(** A node of type string with one property. *)
Definition stringWithProperty : Schema :=
  Set_ (set_Properties (Some [("a", Schema_zero)])
          (set_Type_ (Some ["string"]) Schema_zero)).

(** A rule of the draft-07 meta-schema: the bounds on lengths and on
    numbers of items are non-negative integers. *)
Definition nonNegativeBounds (doc : json) : bool :=
  match doc with
  | JObject members =>
      forallb (fun name =>
                 match jlookup name members with
                 | Some (JInt n) => (0 <=? n)%Z
                 | Some _ => false
                 | None => true
                 end)
              ["minLength"; "maxLength"; "minItems"; "maxItems"]
  | _ => true
  end.

(** A node whose only fault is a negative [minLength]. *)
Definition negativeMinLength : Schema :=
  Set_ (set_MinLength (Some (-1)%Z) Schema_zero).

(** The parts of a normalized node that differ from the node. *)
Definition fixedAdditionalProperties (schema : Schema) : SchemaOrBool :=
  match AdditionalProperties schema with
  | SOB_schema subSchema =>
      SOB_schema (copyBack subSchema (FixRequiredProperties subSchema))
  | other => other
  end.

Definition fixedProperties (schema : Schema) : option (list (string * Schema)) :=
  match Properties schema with
  | Some props => Some (map (fun kv => (fst kv, FixRequiredProperties (snd kv))) props)
  | None => None
  end.

Definition fixedRequired (schema : Schema) : BoolOrArrayOfString :=
  match fixedProperties schema with
  | Some props => fold_left addRequired props (Required schema)
  | None => Required schema
  end.

Definition fixedType (schema : Schema) : StringOrArrayOfString :=
  match Properties schema with
  | Some _ =>
      if negb (Contains (elems (Type_ schema)) "object")
      then Some ["object"] else Type_ schema
  | None => Type_ schema
  end.

(** The nodes the normalizer visits from a node. *)
Definition ofOption {A : Type} (o : option A) : list A :=
  match o with
  | Some a => [a]
  | None => []
  end.

Definition children (s : Schema) : list Schema :=
  match AdditionalProperties s with SOB_schema sub => [sub] | _ => [] end
  ++ ofOption (Then s)
  ++ match Properties s with Some props => map snd props | None => [] end
  ++ ofOption (If s) ++ ofOption (Items s) ++ ofOption (Else s)
  ++ AnyOf s ++ AllOf s ++ OneOf s ++ ofOption (Not s).

Fixpoint Schema_size (s : Schema) {struct s} : nat :=
  let ofOpt := fun o : option Schema =>
    match o with Some c => Schema_size c | None => 0 end in
  S (match AdditionalProperties s with SOB_schema sub => Schema_size sub | _ => 0 end
     + ofOpt (Then s)
     + match Properties s with
       | Some props => list_sum (map (fun kv => Schema_size (snd kv)) props)
       | None => 0
       end
     + ofOpt (If s) + ofOpt (Items s) + ofOpt (Else s)
     + list_sum (map Schema_size (AnyOf s))
     + list_sum (map Schema_size (AllOf s))
     + list_sum (map Schema_size (OneOf s))
     + ofOpt (Not s)).

(** A node with one property that carries the boolean flag. *)
Definition flaggedProperty : Schema :=
  set_Required {| Strings := None; Bool := true |} Schema_zero.

Definition withFlaggedProperty : Schema :=
  set_Properties (Some [("a", flaggedProperty)]) Schema_zero.

(** How often a name is in a list of names. *)
Definition occurrences (x : string) (names : slice string) : nat :=
  count_occ string_dec (elems names) x.

(** A list of names grows by names it did not have. *)
Definition grownFrom (before after : slice string) : Prop :=
  forall x, occurrences x before <= occurrences x after
            /\ occurrences x after <= Nat.max 1 (occurrences x before).

(** Collaborators for a sample run: a decoder that answers as the real
    one does on the three annotations used below, and a file system
    without files. *)
Definition sampleDecoder (text : string) (s : Schema) : outcome Schema :=
  if String.eqb text "required: true" then
    Done (set_Required {| Strings := Strings (Required s); Bool := true |} s)
  else if String.eqb text "required: [k]" then
    Done (set_Required {| Strings := Some ["k"]; Bool := Bool (Required s) |} s)
  else if String.eqb text "$ref: other.json#/definitions/foo" then
    Done (set_Ref "other.json#/definitions/foo" s)
  else if String.eqb text "" then Done s
  else Fail (MalformedAnnotation "not a schema").

Definition noHelmDocs (_ : list string) : helm.ChartValueDescription :=
  {| helm.Description := ""; helm.Default := ""; helm.ValueType := "" |}.

Definition skipNothing : Skip.SkipAutoGenerationConfig :=
  {| Skip.Title := false; Skip.Description := false; Skip.Required := false;
     Skip.Default := false; Skip.AdditionalProperties := false |}.

Definition annotated (key : string) (annotation : string) : Node :=
  {| Kind := ScalarNode; Tag := strTag; Value := key;
     HeadComment := Join ["# @schema"; String.append "# " annotation; "# @schema"] NL;
     Content := []; Alias := None |}.

Definition mappingOf (content : list Node) : Node :=
  {| Kind := MappingNode; Tag := mapTag; Value := ""; HeadComment := "";
     Content := content; Alias := None |}.

Definition commented (key : string) (comment : string) : Node :=
  {| Kind := ScalarNode; Tag := strTag; Value := key; HeadComment := comment;
     Content := []; Alias := None |}.

Definition documentOf (root : Node) : Node :=
  {| Kind := DocumentNode; Tag := ""; Value := ""; HeadComment := "";
     Content := [root]; Alias := None |}.

(** The property of a node under a name. *)
Definition propertyOf (name : string) (s : Schema) : option Schema :=
  match Properties s with
  | Some props => option_map snd (find (fun kv => String.eqb (fst kv) name) props)
  | None => None
  end.

Definition sampleAtoi (s : string) : option Z :=
  if String.eqb s "1" then Some 1%Z else None.

(** [YamlToSchema] with the sample collaborators, the full comment kept,
    no helm-docs handling and nothing skipped. *)
Definition sampleSynthesis : Node -> synthesis :=
  YamlToSchema
    sampleDecoder (fun _ => Fail UnsupportedValue) (fun _ => Fail UnsupportedValue)
    loadsOnly (fun c => c) (fun c => c) (fun c => c) noHelmDocs
    (fun _ rel => rel) (fun _ => false) (fun _ => Fail UnsupportedValue)
    (fun _ _ => Fail UnsupportedValue) sampleAtoi (fun _ => None)
    "values.yaml" true false true skipNothing.

Definition flaggedKey : Node := annotated "k" "required: true".
Definition referringKey : Node := annotated "k" "$ref: other.json#/definitions/foo".

(** The text a scalar decodes to as a string: nothing for a null. *)
Definition scalarText (v : Node) : string :=
  if String.eqb (ShortTag v) nullTag then "" else Value v.

(** The names the type validator knows. *)
Definition recognizedTypes : list string :=
  [""; "object"; "string"; "integer"; "number"; "array"; "null"; "boolean"].

(** The tags the inference table knows. *)
Definition supportedTags : list string :=
  [nullTag; boolTag; strTag; intTag; floatTag; timestampTag; arrayTag; mapTag].

(** The message of [NewSkipAutoGenerationConfig] for a list of names. *)
Definition unsupportedFieldNames (names : list string) : error :=
  ExternalError
    (String.append "unsupported field names '"
       (String.append (Join names "', '") "' for skipping auto-generation")).

(** The nodes [DisableRequiredProperties] goes to from a node, in the
    order of its statements, and the nodes it reaches. *)
Definition disableVisits (s : Schema) : list Schema :=
  match Properties s with Some props => map snd props | None => [] end
  ++ ofOption (Items s) ++ AnyOf s ++ OneOf s ++ AllOf s
  ++ ofOption (If s) ++ ofOption (Else s) ++ ofOption (Then s)
  ++ ofOption (Not s).

Inductive reachedFrom (s : Schema) : Schema -> Prop :=
| reached_here : reachedFrom s s
| reached_below (c n : Schema) :
    In c (disableVisits s) -> reachedFrom c n -> reachedFrom s n.

(** The required list [DisableRequiredProperties] leaves. *)
Definition nothingRequired : BoolOrArrayOfString :=
  NewBoolOrArrayOfString (Some []) false.

(** The nodes the nested calls of [Validate] go through: the node and
    the items below it. *)
Inductive itemsChain (s : Schema) : Schema -> Prop :=
| chain_here : itemsChain s s
| chain_items (items n : Schema) :
    Items s = Some items -> itemsChain items n -> itemsChain s n.

(** A node has type names, none of them empty. *)
Definition typed (s : Schema) : Prop :=
  StringOrArrayOfString_.IsEmpty (Type_ s) = false.

Definition hasType (s : Schema) (t : string) : Prop :=
  StringOrArrayOfString_.Matches (Type_ s) t = true.

(** What the checks of [Validate] ask of one node. *)
Definition wellFormed (s : Schema) : Prop :=
  StringOrArrayOfString_.Validate (Type_ s) = None
  /\ (Pattern s <> "" -> typed s -> hasType s "string")
  /\ (Format s <> "" -> typed s -> hasType s "string")
  /\ (forall a b, MinLength s = Some a -> MaxLength s = Some b -> (a <= b)%Z)
  /\ (Format s = "" \/ Pattern s = "")
  /\ (Items s <> None -> typed s -> hasType s "array")
  /\ (MinItems s <> None \/ MaxItems s <> None -> typed s -> hasType s "array")
  /\ (forall a b, MinItems s = Some a -> MaxItems s = Some b -> (a <= b)%Z)
  /\ (Const s <> None -> ~ typed s)
  /\ (Enum s <> None -> ~ typed s)
  /\ (Format s = "" \/ In (Format s) supportedFormats)
  /\ (Minimum s <> None \/ Maximum s <> None \/ ExclusiveMinimum s <> None
      \/ ExclusiveMaximum s <> None \/ MultipleOf s <> None ->
      typed s -> hasType s "number" \/ hasType s "integer")
  /\ (forall m, MultipleOf s = Some m -> (0 < m)%Z)
  /\ (Minimum s = None \/ ExclusiveMinimum s = None)
  /\ (Maximum s = None \/ ExclusiveMaximum s = None).

(** The encoding of a node exists and the external compiler loads it. *)
Definition accepted (AddResource : json -> option error) (s : Schema) : Prop :=
  exists jsonStr, ToJson s = Done jsonStr /\ AddResource jsonStr = None.

(** What is kept of a comment line: the comment prefix and one space
    after it are taken off. *)
Definition stripComment (line : string) : string :=
  TrimPrefix (TrimPrefix line CommentPrefix) " ".

(** The keys of a mapping node with their values, as the loops over
    [Content] take them: a last key without a value is not one. *)
Fixpoint pairsOf (content : list Node) : list (Node * Node) :=
  match content with
  | keyNode :: valueNode :: rest => (keyNode, valueNode) :: pairsOf rest
  | _ => []
  end.

(** The names of the properties of a node, in the order of the map. *)
Definition propertyNames (s : Schema) : list string :=
  match Properties s with
  | Some props => map fst props
  | None => []
  end.







(** * Properties *)

(** ** Slices and membership *)

Lemma Index_nonneg_iff (s : list string) (v : string) :
  (0 <= Index s v)%Z <-> In v s.
Proof.
  induction s as [|x rest IH]; simpl.
  - split; [lia | tauto].
  - destruct (String.eqb_spec v x) as [->|Hne].
    + split; [auto | lia].
    + destruct (Z.ltb_spec (Index rest v) 0) as [Hlt|Hge].
      * split; [lia | intros [Heq|Hin]; [congruence | apply IH in Hin; lia]].
      * split; [intros _; right; apply IH; lia | lia].
Qed.

Lemma Contains_true_iff (s : list string) (v : string) :
  Contains s v = true <-> In v s.
Proof.
  unfold Contains. rewrite Z.geb_le. apply Index_nonneg_iff.
Qed.

Lemma Contains_false_iff (s : list string) (v : string) :
  Contains s v = false <-> ~ In v s.
Proof.
  rewrite <- Contains_true_iff. destruct (Contains s v); split; congruence.
Qed.

Lemma elems_append {A : Type} (s : slice A) (x : A) :
  elems (append s x) = elems s ++ [x].
Proof. reflexivity. Qed.

(** ** The union types: decoding and encoding *)

Lemma decodeContent_scalars (content : list Node) (multi : slice string) :
  Forall (fun v => Kind v = ScalarNode) content ->
  StringOrArrayOfString_.decodeContent content multi =
  Done (match content with
        | [] => multi
        | _ => Some (elems multi ++ map elementName content)
        end).
Proof.
  intros Hall. revert multi.
  induction Hall as [|v rest Hv Hrest IH]; intros multi; [reflexivity|].
  cbn [StringOrArrayOfString_.decodeContent map].
  assert (Hgo : forall name,
             StringOrArrayOfString_.decodeContent rest (append multi name) =
             Done (Some (elems multi ++ name :: map elementName rest))).
  { intros name. rewrite IH. destruct rest; cbn [map elems append].
    - reflexivity.
    - now rewrite <- app_assoc. }
  unfold elementName at 1.
  destruct (String.eqb (ShortTag v) nullTag) eqn:Hnull.
  - apply Hgo.
  - unfold Node_Decode_string. rewrite Hv, Hnull. cbn [bind]. apply Hgo.
Qed.

(** C8. Decoding a YAML list of type names and encoding the result gives
    the bare scalar when the list has exactly one element and the list
    form when it has two or more; a null-tagged element is decoded as
    the string "null"; a single scalar name comes back as that scalar. *)
Theorem type_list_decode_then_encode :
  forall (content : list Node) (previous : StringOrArrayOfString),
    Forall (fun v => Kind v = ScalarNode) content ->
    content <> [] ->
    let names := map elementName content in
    let decoded := StringOrArrayOfString_.UnmarshalYAML previous (sequenceOf content) in
    decoded = (Some names, None)
    /\ (forall i v, nth_error content i = Some v -> ShortTag v = nullTag ->
          nth_error (elems (fst decoded)) i = Some "null")
    /\ (forall single, names = [single] ->
          StringOrArrayOfString_.MarshalJSON (fst decoded) = JString single)
    /\ (2 <= length names ->
          StringOrArrayOfString_.MarshalJSON (fst decoded) = JArray (map JString names))
    /\ (forall name,
          StringOrArrayOfString_.MarshalJSON
            (fst (StringOrArrayOfString_.UnmarshalYAML previous (scalarOf strTag name)))
          = JString name).
Proof.
  intros content previous Hscalars Hne names decoded.
  assert (Hdec : decoded = (Some names, None)).
  { unfold decoded, StringOrArrayOfString_.UnmarshalYAML.
    cbn [sequenceOf ShortTag Tag Content]. rewrite String.eqb_refl.
    rewrite (decodeContent_scalars None Hscalars).
    destruct content; [contradiction | reflexivity]. }
  split; [exact Hdec|]. rewrite Hdec. cbn [fst].
  split; [| split; [| split]].
  - intros i v Hi Hnull. cbn [elems]. unfold names.
    rewrite nth_error_map, Hi. cbn [option_map]. unfold elementName.
    now rewrite Hnull.
  - intros single Hsingle. unfold StringOrArrayOfString_.MarshalJSON.
    cbn [elems]. now rewrite Hsingle.
  - intros Hlen. unfold StringOrArrayOfString_.MarshalJSON. cbn [elems].
    destruct names as [|a [|b rest]]; cbn [length] in Hlen; try lia.
    reflexivity.
  - intros name. reflexivity.
Qed.

Lemma type_list_decode_then_encode_witness :
  let content := [scalarOf strTag "string"; scalarOf nullTag "null"] in
  StringOrArrayOfString_.MarshalJSON
    (fst (StringOrArrayOfString_.UnmarshalYAML None (sequenceOf content)))
  = JArray [JString "string"; JString "null"].
Proof.
  intros content.
  assert (Hs : Forall (fun v => Kind v = ScalarNode) content)
    by (repeat constructor).
  assert (Hne : content <> []) by discriminate.
  destruct (type_list_decode_then_encode None Hs Hne) as (_ & _ & _ & Hlist & _).
  apply Hlist. cbn. lia.
Defined.

(** The JSON path decodes what the encoder wrote: a bare name or a list
    of names come back as the same list. *)
Lemma type_list_json_roundtrip (names : list string) (previous : StringOrArrayOfString) :
  names <> [] ->
  StringOrArrayOfString_.UnmarshalJSON previous
    (StringOrArrayOfString_.MarshalJSON (Some names))
  = (Some names, None).
Proof.
  intros Hne. unfold StringOrArrayOfString_.MarshalJSON. cbn [elems].
  assert (Hlist : StringOrArrayOfString_.UnmarshalJSON previous
                    (json_Marshal_strings (Some names)) = (Some names, None)).
  { unfold StringOrArrayOfString_.UnmarshalJSON, json_Marshal_strings,
      json_Unmarshal_strings.
    assert (Helems : json_Unmarshal_elems (map JString names) = Done names).
    { clear Hne. induction names as [|n rest IH]; [reflexivity|].
      cbn [map json_Unmarshal_elems json_Unmarshal_string bind]. now rewrite IH. }
    now rewrite Helems. }
  destruct names as [|single [|second rest]]; [contradiction | reflexivity | exact Hlist].
Qed.

(** The YAML path of the boolean-or-list field rejects a node that is
    neither a sequence nor a boolean. *)
Lemma BoolOrArrayOfString_UnmarshalYAML_mismatch (s : BoolOrArrayOfString) (value : Node) :
  ShortTag value <> arrayTag -> ShortTag value <> boolTag ->
  exists msg, BoolOrArrayOfString_.UnmarshalYAML s value = (s, Some (TypeMismatch msg)).
Proof.
  intros Hseq Hbool. unfold BoolOrArrayOfString_.UnmarshalYAML.
  apply String.eqb_neq in Hseq. apply String.eqb_neq in Hbool.
  rewrite Hseq, Hbool. eauto.
Qed.

(** The YAML path of the type field rejects a collection that is not a
    sequence. *)
Lemma StringOrArrayOfString_UnmarshalYAML_mismatch (s : StringOrArrayOfString) (value : Node) :
  ShortTag value <> arrayTag -> Kind value <> ScalarNode ->
  exists msg, StringOrArrayOfString_.UnmarshalYAML s value = (s, Some (TypeMismatch msg)).
Proof.
  intros Hseq Hkind. unfold StringOrArrayOfString_.UnmarshalYAML.
  apply String.eqb_neq in Hseq. rewrite Hseq. unfold Node_Decode_string.
  destruct (Kind value); try contradiction; eauto.
Qed.

(** C6, on the code: the JSON path of both union types answers a value
    of neither accepted shape (a number) with a nil error and an
    unchanged receiver. *)
Theorem UnmarshalJSON_mismatch_is_silent :
  forall (required : BoolOrArrayOfString) (type : StringOrArrayOfString) (n : Z),
    BoolOrArrayOfString_.UnmarshalJSON required (JInt n) = (required, None)
    /\ StringOrArrayOfString_.UnmarshalJSON type (JInt n) = (type, None).
Proof. intros required type n. split; reflexivity. Qed.

(** ** Encoding of the required field *)


Lemma jlookup_jset_other (key k : string) (v : json) (members : list (string * json)) :
  k <> key -> jlookup key (jset k v members) = jlookup key members.
Proof.
  intros Hne. induction members as [|[k' v'] rest IH]; cbn [jset jlookup].
  - apply String.eqb_neq in Hne. now rewrite Hne.
  - destruct (String.eqb_spec k' k) as [->|Hk]; cbn [jlookup].
    + apply String.eqb_neq in Hne. now rewrite Hne.
    + now rewrite IH.
Qed.

Lemma jlookup_jdelete_other (key k : string) (members : list (string * json)) :
  k <> key -> jlookup key (jdelete k members) = jlookup key members.
Proof.
  intros Hne. unfold jdelete.
  induction members as [|[k' v'] rest IH]; cbn [filter jlookup fst]; [reflexivity|].
  destruct (String.eqb_spec k' k) as [->|Hk]; cbn [negb jlookup].
  - apply String.eqb_neq in Hne. now rewrite Hne.
  - now rewrite IH.
Qed.

Lemma jlookup_inline (key : string) (custom data : list (string * json)) :
  key <> "CustomAnnotations" ->
  jlookup key custom = None ->
  jlookup key (inlineCustomAnnotations custom data) = jlookup key data.
Proof.
  intros Hkey Hnone. unfold inlineCustomAnnotations.
  rewrite jlookup_jdelete_other by congruence.
  revert data. induction custom as [|[k v] rest IH]; intros data; [reflexivity|].
  cbn [fold_left fst snd]. cbn [jlookup] in Hnone.
  destruct (String.eqb_spec k key) as [->|Hk]; [discriminate|].
  rewrite IH by assumption. now apply jlookup_jset_other.
Qed.

Lemma BoolOrArrayOfString_MarshalJSON_list (r : BoolOrArrayOfString) :
  BoolOrArrayOfString_.MarshalJSON r = JArray (map JString (elems (Strings r))).
Proof. destruct r as [[l|] b]; reflexivity. Qed.

















(** ** The annotation scanner *)

Lemma scanLine_flag (st : scanState) (line : string) :
  insideSchemaBlock (scanLine st line) =
  xorb (insideSchemaBlock st) (HasPrefix line SchemaPrefix).
Proof.
  unfold scanLine. destruct (HasPrefix line SchemaPrefix), (insideSchemaBlock st);
    reflexivity.
Qed.

Lemma scan_flag (lines : list string) (st : scanState) :
  insideSchemaBlock (fold_left scanLine lines st) =
  xorb (insideSchemaBlock st) (Nat.odd (length (delimiters lines))).
Proof.
  revert st. induction lines as [|line rest IH]; intros st; cbn [fold_left].
  - now rewrite xorb_false_r.
  - rewrite IH, scanLine_flag. unfold delimiters. cbn [filter].
    fold (delimiters rest).
    destruct (HasPrefix line SchemaPrefix); cbn [length].
    + rewrite Nat.odd_succ, <- Nat.negb_odd.
      destruct (insideSchemaBlock st), (Nat.odd (length (delimiters rest))); reflexivity.
    + now rewrite xorb_false_r.
Qed.

(** C7, as the code has it: the flag is toggled exactly by the lines that
    begin with the delimiter, whatever follows it on the line; over a
    whole comment the block is open after an odd number of such lines;
    a line that does not begin with the delimiter leaves the flag alone
    and, outside a block, is added to the description with the comment
    prefix and one space removed. *)
Theorem delimiter_prefix_toggles_block :
  forall (st : scanState) (line : string) (lines : list string),
    (insideSchemaBlock (scanLine st line) = negb (insideSchemaBlock st)
     <-> HasPrefix line SchemaPrefix = true)
    /\ insideSchemaBlock (fold_left scanLine lines st)
       = xorb (insideSchemaBlock st) (Nat.odd (length (delimiters lines)))
    /\ (HasPrefix line SchemaPrefix = false -> insideSchemaBlock st = false ->
        scanLine st line =
        {| description := description st
             ++ [TrimPrefix (TrimPrefix line CommentPrefix) " "];
           rawSchema := rawSchema st;
           insideSchemaBlock := false;
           hasData := hasData st |}).
Proof.
  intros st line lines. split; [| split].
  - rewrite scanLine_flag.
    destruct (insideSchemaBlock st), (HasPrefix line SchemaPrefix);
      cbn; split; congruence.
  - apply scan_flag.
  - intros Hline Hflag. unfold scanLine. now rewrite Hline, Hflag.
Qed.

Lemma delimiter_prefix_toggles_block_witness :
  scanLine scanStart "# some text" =
  {| description := ["some text"]; rawSchema := [];
     insideSchemaBlock := false; hasData := false |}.
Proof.
  destruct (delimiter_prefix_toggles_block scanStart "# some text" []) as (_ & _ & H).
  exact (H eq_refl eq_refl).
Defined.

(** A line that extends the delimiter is not equal to it, and opens a
    block all the same: nothing of it reaches the description, and the
    comment ends inside an unclosed block. *)
Lemma extended_delimiter_opens_block :
  "# @schema-begin" <> SchemaPrefix
  /\ insideSchemaBlock (scanLine scanStart "# @schema-begin")
     = negb (insideSchemaBlock scanStart)
  /\ scanComment "# @schema-begin" =
     {| description := []; rawSchema := [];
        insideSchemaBlock := true; hasData := false |}.
Proof. split; [discriminate | split; reflexivity]. Qed.

(** ** The validator *)

Lemma Validate_eq (AddResource : json -> option error) (s : Schema) :
  Validate AddResource s =
  match ToJson s with
  | Fail e | Fatal e => Some e
  | Panic => Some (ExternalError "panic")
  | Done jsonStr =>
      match AddResource jsonStr with
      | Some e => Some e
      | None =>
          invariantChecks
            match Items s with
            | Some items => Validate AddResource items
            | None => None
            end
            s
      end
  end.
Proof. destruct s; reflexivity. Qed.

(** C2, as the code has it.  The encoded form of a node is handed to
    the external compiler before any check of [Validate]'s own: an error
    of that call is what [Validate] returns, whichever of its own checks
    the node would fail, and when the call returns nil the verdict is
    that of its own checks. *)
Theorem Validate_external_call_first :
  forall (AddResource : json -> option error) (s : Schema) (jsonStr : json),
    ToJson s = Done jsonStr ->
    (forall e, AddResource jsonStr = Some e -> Validate AddResource s = Some e)
    /\ (AddResource jsonStr = None ->
        Validate AddResource s =
        invariantChecks
          match Items s with
          | Some items => Validate AddResource items
          | None => None
          end
          s).
Proof.
  intros AddResource s jsonStr Hjson. rewrite Validate_eq, Hjson.
  split; [intros e Hadd | intros Hadd]; now rewrite Hadd.
Qed.

Lemma Validate_external_call_first_witness :
  invariantChecks None unknownTypeNode = Some (SchemaInconsistency "unsupported type")
  /\ Validate refusing unknownTypeNode = Some (SchemaInconsistency "meta-schema violation")
  /\ Validate loadsOnly unknownTypeNode = Some (SchemaInconsistency "unsupported type").
Proof.
  split; [reflexivity|]. split.
  - exact (proj1 (@Validate_external_call_first refusing unknownTypeNode _ eq_refl)
                 _ eq_refl).
  - exact (proj2 (@Validate_external_call_first loadsOnly unknownTypeNode _ eq_refl)
                 eq_refl).
Defined.

(** A node that breaks the meta-schema and none of the rules [Validate]
    checks itself passes [Validate]: the encoded form is loaded, not
    compiled. *)
Lemma Validate_passes_meta_schema_violation :
  ToJson negativeMinLength
  = Done (JObject [("required", JArray []); ("minLength", JInt (-1))])
  /\ nonNegativeBounds (JObject [("required", JArray []); ("minLength", JInt (-1))])
     = false
  /\ invariantChecks None negativeMinLength = None
  /\ Validate loadsOnly negativeMinLength = None.
Proof. repeat split. Qed.

(** [Validate] lets a node with properties and a type other than
    "object" pass. *)
Lemma Validate_accepts_properties_without_object :
  Properties stringWithProperty = Some [("a", Schema_zero)]
  /\ StringOrArrayOfString_.Matches (Type_ stringWithProperty) "object" = false
  /\ Validate loadsOnly stringWithProperty = None.
Proof. repeat split. Qed.

(** ** The required-property normalizer *)

Lemma FixRequiredProperties_eq (schema : Schema) :
  FixRequiredProperties schema =
  mkSchema
    (fixedAdditionalProperties schema)
    (Default schema)
    (option_map FixRequiredProperties (Then schema))
    (PatternProperties schema)
    (fixedProperties schema)
    (option_map FixRequiredProperties (If schema))
    (Minimum schema) (MultipleOf schema) (ExclusiveMaximum schema)
    (option_map FixRequiredProperties (Items schema))
    (ExclusiveMinimum schema) (Maximum schema)
    (option_map FixRequiredProperties (Else schema))
    (Pattern schema) (Const schema) (Ref schema) (Schema_ schema) (Id schema)
    (Format schema) (Description schema) (Title schema)
    (fixedType schema)
    (map FixRequiredProperties (AnyOf schema))
    (map FixRequiredProperties (AllOf schema))
    (map FixRequiredProperties (OneOf schema))
    (option_map FixRequiredProperties (Not schema))
    (Examples schema) (Enum schema) (HasData schema) (Deprecated schema)
    (ReadOnly schema) (WriteOnly schema)
    (fixedRequired schema)
    (CustomAnnotations schema) (MinLength schema) (MaxLength schema)
    (MinItems schema) (MaxItems schema).
Proof.
  destruct schema as [ap df th pp props]; destruct props; reflexivity.
Qed.

Lemma addRequired_Bool (r : BoolOrArrayOfString) (prop : string * Schema) :
  Bool (addRequired r prop) = Bool r.
Proof. unfold addRequired. now destruct (_ && _). Qed.

Lemma fold_addRequired_Bool (props : list (string * Schema)) (r : BoolOrArrayOfString) :
  Bool (fold_left addRequired props r) = Bool r.
Proof.
  revert r. induction props as [|p rest IH]; intros r; cbn [fold_left];
    [reflexivity | now rewrite IH, addRequired_Bool].
Qed.

Lemma fixedRequired_Bool (schema : Schema) :
  Bool (fixedRequired schema) = Bool (Required schema).
Proof.
  unfold fixedRequired. destruct (fixedProperties schema);
    [apply fold_addRequired_Bool | reflexivity].
Qed.

Lemma FixRequiredProperties_Bool (schema : Schema) :
  Bool (Required (FixRequiredProperties schema)) = Bool (Required schema).
Proof. rewrite FixRequiredProperties_eq. apply fixedRequired_Bool. Qed.

(** The names of a required list only grow. *)
Lemma addRequired_keeps (r : BoolOrArrayOfString) (prop : string * Schema) (x : string) :
  In x (elems (Strings r)) -> In x (elems (Strings (addRequired r prop))).
Proof.
  intros Hin. unfold addRequired. destruct (_ && _); [|assumption].
  cbn [Strings]. rewrite elems_append. apply in_or_app. now left.
Qed.

Lemma fold_addRequired_keeps (props : list (string * Schema)) (r : BoolOrArrayOfString) (x : string) :
  In x (elems (Strings r)) -> In x (elems (Strings (fold_left addRequired props r))).
Proof.
  revert r. induction props as [|p rest IH]; intros r Hin; cbn [fold_left];
    [assumption | apply IH, addRequired_keeps, Hin].
Qed.

Lemma addRequired_adds (r : BoolOrArrayOfString) (prop : string * Schema) :
  Bool (Required (snd prop)) = true ->
  In (fst prop) (elems (Strings (addRequired r prop))).
Proof.
  intros Hbool. unfold addRequired. rewrite Hbool. cbn [andb].
  destruct (Contains (elems (Strings r)) (fst prop)) eqn:Hc; cbn [negb].
  - now apply Contains_true_iff.
  - cbn [Strings]. rewrite elems_append. apply in_or_app. right. now left.
Qed.

(** After the loop every flagged property is in the list. *)
Lemma fold_addRequired_adds (props : list (string * Schema)) (r : BoolOrArrayOfString) :
  Forall (fun prop => Bool (Required (snd prop)) = true ->
                      In (fst prop) (elems (Strings (fold_left addRequired props r))))
         props.
Proof.
  revert r. induction props as [|p rest IH]; intros r; constructor.
  - intros Hbool. cbn [fold_left]. apply fold_addRequired_keeps.
    now apply addRequired_adds.
  - cbn [fold_left]. apply IH.
Qed.

(** A list that has every flagged property is left as it is. *)
Lemma fold_addRequired_fixed (props : list (string * Schema)) (r : BoolOrArrayOfString) :
  Forall (fun prop => Bool (Required (snd prop)) = true ->
                      In (fst prop) (elems (Strings r))) props ->
  fold_left addRequired props r = r.
Proof.
  induction 1 as [|p rest Hp Hrest IH]; cbn [fold_left]; [reflexivity|].
  assert (Hsame : addRequired r p = r).
  { unfold addRequired. destruct (Bool (Required (snd p))); [|reflexivity].
    cbn [andb]. specialize (Hp eq_refl). apply Contains_true_iff in Hp.
    now rewrite Hp. }
  now rewrite Hsame.
Qed.

Lemma fold_addRequired_idempotent (props : list (string * Schema)) (r : BoolOrArrayOfString) :
  fold_left addRequired props (fold_left addRequired props r)
  = fold_left addRequired props r.
Proof. apply fold_addRequired_fixed, fold_addRequired_adds. Qed.

(** The map of properties is visited in no fixed order: whatever order
    a second run takes, it finds the required list complete. *)
Lemma second_run_in_any_order (s : Schema) (props visited : list (string * Schema)) :
  Properties (FixRequiredProperties s) = Some props ->
  Permutation props visited ->
  fold_left addRequired visited (Required (FixRequiredProperties s))
  = Required (FixRequiredProperties s).
Proof.
  rewrite FixRequiredProperties_eq.
  cbn [Properties Required]. unfold fixedRequired. intros Hprops Hperm.
  rewrite Hprops. apply fold_addRequired_fixed.
  apply (Permutation_Forall Hperm), fold_addRequired_adds.
Qed.

Lemma fixedType_has_object (schema : Schema) :
  isSome (Properties schema) = true ->
  Contains (elems (fixedType schema)) "object" = true.
Proof.
  unfold fixedType. destruct (Properties schema); [intros _ | discriminate].
  destruct (Contains (elems (Type_ schema)) "object") eqn:Hc; cbn [negb];
    [assumption | reflexivity].
Qed.

Lemma Schema_size_children (s : Schema) :
  Schema_size s = S (list_sum (map Schema_size (children s))).
Proof.
  destruct s as [ap df th pp props i mi mu ema it emi ma el pa co re sc id fo de ti
                 ty any all one no ex en hd dp ro wo rq cu mil mal mii mai].
  unfold children. cbn [Schema_size AdditionalProperties Then Properties If Items
                        Else AnyOf AllOf OneOf Not].
  rewrite !map_app, !list_sum_app. f_equal.
  assert (Hopt : forall o : option Schema,
             match o with Some c => Schema_size c | None => 0 end
             = list_sum (map Schema_size (ofOption o))).
  { intros [c|]; cbn; lia. }
  rewrite <- !Hopt.
  assert (Hap : match ap with SOB_schema sub => Schema_size sub | _ => 0 end
                = list_sum (map Schema_size
                                match ap with SOB_schema sub => [sub] | _ => [] end)).
  { destruct ap; cbn; lia. }
  assert (Hprops : match props with
                   | Some l => list_sum (map (fun kv => Schema_size (snd kv)) l)
                   | None => 0
                   end
                   = list_sum (map Schema_size
                                   match props with Some l => map snd l | None => [] end)).
  { destruct props as [l|]; [|reflexivity]. now rewrite map_map. }
  rewrite <- Hap, <- Hprops. rewrite !Nat.add_assoc. reflexivity.
Qed.

Lemma list_sum_member (sizes : Schema -> nat) (l : list Schema) (c : Schema) :
  In c l -> sizes c <= list_sum (map sizes l).
Proof.
  induction l as [|x rest IH]; cbn [In map list_sum fold_right]; [tauto|].
  fold (list_sum (map sizes rest)).
  intros [->|Hin]; [lia | specialize (IH Hin); lia].
Qed.

(** Induction over the nodes the normalizer visits. *)
Lemma Schema_induction (P : Schema -> Prop) :
  (forall s, (forall c, In c (children s) -> P c) -> P s) ->
  forall s, P s.
Proof.
  intros Hstep s.
  assert (Hall : forall n t, Schema_size t < n -> P t).
  { induction n as [|n IH]; intros t Hlt; [lia|].
    apply Hstep. intros c Hin. apply IH.
    rewrite (Schema_size_children t) in Hlt.
    pose proof (list_sum_member Schema_size _ _ Hin). lia. }
  exact (Hall (S (Schema_size s)) s (Nat.lt_succ_diag_r _)).
Qed.

(** Reads the fields off a node that is given by its constructor or by
    assignments to a node. *)
Ltac read_fields :=
  cbn [copyBack set_Required set_Type_ set_Properties
       AdditionalProperties Default Then PatternProperties Properties If
       Minimum MultipleOf ExclusiveMaximum Items ExclusiveMinimum Maximum
       Else Pattern Const Ref Schema_ Id Format Description Title Type_
       AnyOf AllOf OneOf Not Examples Enum HasData Deprecated ReadOnly
       WriteOnly Required CustomAnnotations MinLength MaxLength MinItems
       MaxItems].

(** Rewrites one application of the normalizer into the node it builds
    and reads the fields off it. *)
Ltac normalizer_fields t :=
  rewrite (FixRequiredProperties_eq t); read_fields.

Lemma in_children_AdditionalProperties (s sub : Schema) :
  AdditionalProperties s = SOB_schema sub -> In sub (children s).
Proof. intros H. unfold children. rewrite H. now left. Qed.

Lemma in_children_option (s c : Schema) :
  Then s = Some c \/ If s = Some c \/ Items s = Some c \/ Else s = Some c
  \/ Not s = Some c ->
  In c (children s).
Proof.
  unfold children. rewrite !in_app_iff.
  intros [H|[H|[H|[H|H]]]]; rewrite H; cbn [ofOption In]; tauto.
Qed.

Lemma in_children_list (s c : Schema) :
  In c (AnyOf s) \/ In c (AllOf s) \/ In c (OneOf s) -> In c (children s).
Proof. unfold children. rewrite !in_app_iff. tauto. Qed.

Lemma in_children_Properties (s : Schema) (props : list (string * Schema)) (c : Schema) :
  Properties s = Some props -> In c (map snd props) -> In c (children s).
Proof.
  intros H Hin. unfold children. rewrite H, !in_app_iff. tauto.
Qed.

Section TwiceIsOnce.

(** A set of nodes on which a second run of the normalizer changes
    nothing. *)
Variable stable : Schema -> Prop.
Hypothesis stable_fixed :
  forall c, stable c -> FixRequiredProperties (FixRequiredProperties c) = FixRequiredProperties c.

Lemma option_twice (o : option Schema) :
  (forall c, o = Some c -> stable c) ->
  option_map FixRequiredProperties (option_map FixRequiredProperties o)
  = option_map FixRequiredProperties o.
Proof.
  destruct o as [c|]; intros H; cbn [option_map]; [|reflexivity].
  now rewrite stable_fixed by auto.
Qed.

Lemma list_twice (l : list Schema) :
  (forall c, In c l -> stable c) ->
  map FixRequiredProperties (map FixRequiredProperties l) = map FixRequiredProperties l.
Proof.
  intros H. rewrite map_map. apply map_ext_in. intros c Hin.
  apply stable_fixed. auto.
Qed.

Lemma properties_twice (props : list (string * Schema)) :
  (forall c, In c (map snd props) -> stable c) ->
  map (fun kv => (fst kv, FixRequiredProperties (snd kv)))
      (map (fun kv => (fst kv, FixRequiredProperties (snd kv))) props)
  = map (fun kv => (fst kv, FixRequiredProperties (snd kv))) props.
Proof.
  intros H. rewrite map_map. apply map_ext_in. intros kv Hin. cbn [fst snd].
  rewrite stable_fixed; [reflexivity|]. apply H. now apply in_map.
Qed.

End TwiceIsOnce.

(** Two nodes with the same fields are the same node. *)
Lemma Schema_ext (s t : Schema) :
  AdditionalProperties s = AdditionalProperties t ->
  Default s = Default t ->
  Then s = Then t ->
  PatternProperties s = PatternProperties t ->
  Properties s = Properties t ->
  If s = If t ->
  Minimum s = Minimum t ->
  MultipleOf s = MultipleOf t ->
  ExclusiveMaximum s = ExclusiveMaximum t ->
  Items s = Items t ->
  ExclusiveMinimum s = ExclusiveMinimum t ->
  Maximum s = Maximum t ->
  Else s = Else t ->
  Pattern s = Pattern t ->
  Const s = Const t ->
  Ref s = Ref t ->
  Schema_ s = Schema_ t ->
  Id s = Id t ->
  Format s = Format t ->
  Description s = Description t ->
  Title s = Title t ->
  Type_ s = Type_ t ->
  AnyOf s = AnyOf t ->
  AllOf s = AllOf t ->
  OneOf s = OneOf t ->
  Not s = Not t ->
  Examples s = Examples t ->
  Enum s = Enum t ->
  HasData s = HasData t ->
  Deprecated s = Deprecated t ->
  ReadOnly s = ReadOnly t ->
  WriteOnly s = WriteOnly t ->
  Required s = Required t ->
  CustomAnnotations s = CustomAnnotations t ->
  MinLength s = MinLength t ->
  MaxLength s = MaxLength t ->
  MinItems s = MinItems t ->
  MaxItems s = MaxItems t ->
  s = t.
Proof.
  destruct s, t. cbn. intros. subst. reflexivity.
Qed.

(** Running the normalizer on the copy it made of a node held by value
    gives what the first run gave. *)
Lemma FixRequiredProperties_copyBack (sub : Schema) :
  FixRequiredProperties (FixRequiredProperties sub) = FixRequiredProperties sub ->
  FixRequiredProperties (copyBack sub (FixRequiredProperties sub))
  = FixRequiredProperties sub.
Proof.
  intros Hfixed.
  assert (Hprops : fixedProperties (FixRequiredProperties sub) = fixedProperties sub).
  { apply (f_equal Properties) in Hfixed. revert Hfixed.
    normalizer_fields (FixRequiredProperties sub).
    normalizer_fields sub. auto. }
  assert (Hfield : forall (A : Type) (field : Schema -> A),
             field (FixRequiredProperties (FixRequiredProperties sub))
             = field (FixRequiredProperties sub))
    by (intros A field; now rewrite Hfixed).
  apply Schema_ext;
    normalizer_fields (copyBack sub (FixRequiredProperties sub));
    try reflexivity.
  - generalize (Hfield _ AdditionalProperties).
    normalizer_fields (FixRequiredProperties sub). exact (fun H => H).
  - generalize (Hfield _ Then).
    normalizer_fields (FixRequiredProperties sub). exact (fun H => H).
  - generalize (Hfield _ Properties).
    normalizer_fields (FixRequiredProperties sub). exact (fun H => H).
  - generalize (Hfield _ If).
    normalizer_fields (FixRequiredProperties sub). exact (fun H => H).
  - generalize (Hfield _ Items).
    normalizer_fields (FixRequiredProperties sub). exact (fun H => H).
  - generalize (Hfield _ Else).
    normalizer_fields (FixRequiredProperties sub). exact (fun H => H).
  - normalizer_fields sub. unfold fixedType, fixedProperties.
    read_fields.
    now destruct (Properties sub).
  - generalize (Hfield _ AnyOf).
    normalizer_fields (FixRequiredProperties sub). exact (fun H => H).
  - generalize (Hfield _ AllOf).
    normalizer_fields (FixRequiredProperties sub). exact (fun H => H).
  - generalize (Hfield _ OneOf).
    normalizer_fields (FixRequiredProperties sub). exact (fun H => H).
  - generalize (Hfield _ Not).
    normalizer_fields (FixRequiredProperties sub). exact (fun H => H).
  - change (fixedRequired (copyBack sub (FixRequiredProperties sub)))
      with (match fixedProperties (FixRequiredProperties sub) with
            | Some props => fold_left addRequired props (Required sub)
            | None => Required sub
            end).
    rewrite Hprops. normalizer_fields sub. reflexivity.
Qed.

(** C4. The normalizer applied twice gives what it gives applied once. *)
Theorem FixRequiredProperties_idempotent :
  forall s : Schema,
    FixRequiredProperties (FixRequiredProperties s) = FixRequiredProperties s.
Proof.
  apply (Schema_induction
           (fun s => FixRequiredProperties (FixRequiredProperties s)
                     = FixRequiredProperties s)).
  intros s IH.
  set (stable := fun c => In c (children s)).
  assert (Hopt : forall o, (forall c, o = Some c -> stable c) ->
                 option_map FixRequiredProperties (option_map FixRequiredProperties o)
                 = option_map FixRequiredProperties o)
    by (apply option_twice; exact IH).
  assert (Hlist : forall l, (forall c, In c l -> stable c) ->
                  map FixRequiredProperties (map FixRequiredProperties l)
                  = map FixRequiredProperties l)
    by (apply list_twice; exact IH).
  assert (Hprops : fixedProperties (FixRequiredProperties s) = fixedProperties s).
  { normalizer_fields s. unfold fixedProperties. read_fields.
    destruct (Properties s) as [props|] eqn:Hp; [|reflexivity].
    f_equal. apply (properties_twice stable IH).
    intros c Hin. eapply in_children_Properties; eassumption. }
  apply Schema_ext; normalizer_fields (FixRequiredProperties s); try reflexivity.
  - normalizer_fields s. unfold fixedAdditionalProperties. read_fields.
    destruct (AdditionalProperties s) as [| |sub|] eqn:Hap; try reflexivity.
    rewrite FixRequiredProperties_copyBack
      by (apply IH; now apply in_children_AdditionalProperties).
    reflexivity.
  - normalizer_fields s. apply Hopt. intros c Hc. apply in_children_option. tauto.
  - rewrite Hprops. now normalizer_fields s.
  - normalizer_fields s. apply Hopt. intros c Hc. apply in_children_option. tauto.
  - normalizer_fields s. apply Hopt. intros c Hc. apply in_children_option. tauto.
  - normalizer_fields s. apply Hopt. intros c Hc. apply in_children_option. tauto.
  - unfold fixedType at 1. normalizer_fields s.
    destruct (fixedProperties s) eqn:Hp; [|reflexivity].
    rewrite fixedType_has_object; [reflexivity|].
    unfold fixedProperties in Hp. now destruct (Properties s).
  - normalizer_fields s. apply Hlist. intros c Hc. apply in_children_list. tauto.
  - normalizer_fields s. apply Hlist. intros c Hc. apply in_children_list. tauto.
  - normalizer_fields s. apply Hlist. intros c Hc. apply in_children_list. tauto.
  - normalizer_fields s. apply Hopt. intros c Hc. apply in_children_option. tauto.
  - unfold fixedRequired at 1. rewrite Hprops. normalizer_fields s.
    unfold fixedRequired.
    destruct (fixedProperties s); [apply fold_addRequired_idempotent | reflexivity].
Qed.

(** What the normalizer leaves in [AdditionalProperties]: the children
    of a node held by value are normalized, its own required list and
    type are not. *)
Lemma FixRequiredProperties_AdditionalProperties (s sub : Schema) :
  AdditionalProperties s = SOB_schema sub ->
  AdditionalProperties (FixRequiredProperties s)
  = SOB_schema (copyBack sub (FixRequiredProperties sub)).
Proof.
  intros Hap. normalizer_fields s. unfold fixedAdditionalProperties.
  now rewrite Hap.
Qed.

(** C5, on the code: for a node held by value in [AdditionalProperties]
    the name of a flagged property is not added to the required list of
    that node, and its type is not set, because the normalizer works on
    a copy; the same node under [Items] gets both.  A schema a decoder
    left in [AdditionalProperties] is a generic value, which the type
    assertion does not match: it is not visited at all. *)
Theorem additionalProperties_schema_not_folded :
  (forall s sub : Schema,
      AdditionalProperties
        (FixRequiredProperties (set_AdditionalProperties (SOB_schema sub) s))
      = SOB_schema (copyBack sub (FixRequiredProperties sub))
      /\ Required (copyBack sub (FixRequiredProperties sub)) = Required sub
      /\ Type_ (copyBack sub (FixRequiredProperties sub)) = Type_ sub)
  /\ (forall (s : Schema) (decoded : json),
        AdditionalProperties
          (FixRequiredProperties (set_AdditionalProperties (SOB_value decoded) s))
        = SOB_value decoded)
  /\ AdditionalProperties
       (FixRequiredProperties
          (set_AdditionalProperties (SOB_schema withFlaggedProperty) Schema_zero))
     = SOB_schema withFlaggedProperty
  /\ requiredNames withFlaggedProperty = []
  /\ option_map requiredNames
       (Items (FixRequiredProperties (set_Items (Some withFlaggedProperty) Schema_zero)))
     = Some ["a"].
Proof.
  split; [| split; [| repeat split]].
  - intros s sub. split; [| split; reflexivity].
    now apply FixRequiredProperties_AdditionalProperties.
  - intros s decoded. now normalizer_fields (set_AdditionalProperties (SOB_value decoded) s).
Qed.

(** C1, as the code has it.  The rule that a node with properties is of
    type object is kept by the normalizer, which overwrites the type
    when it lacks "object"; [Validate] has no check for it: once the
    encoded form passed the encoder and the compiler, the properties
    have no part in its verdict. *)
Theorem properties_type_rule_is_normalized_not_validated :
  forall (AddResource : json -> option error) (s : Schema)
         (props : option (list (string * Schema)))
         (encodedWith encodedWithout : json),
    (isSome (Properties s) = true ->
     Contains (elems (Type_ (FixRequiredProperties s))) "object" = true
     /\ (Contains (elems (Type_ s)) "object" = false ->
         Type_ (FixRequiredProperties s) = Some ["object"]))
    /\ (ToJson (set_Properties props s) = Done encodedWith ->
        AddResource encodedWith = None ->
        ToJson s = Done encodedWithout ->
        AddResource encodedWithout = None ->
        Validate AddResource (set_Properties props s) = Validate AddResource s).
Proof.
  intros AddResource s props encodedWith encodedWithout. split.
  - intros Hprops. normalizer_fields s. split.
    + now apply fixedType_has_object.
    + intros Hno. unfold fixedType. destruct (Properties s); [|discriminate].
      now rewrite Hno.
  - intros Hj1 Ha1 Hj2 Ha2.
    rewrite (Validate_eq AddResource (set_Properties props s)), Hj1, Ha1.
    rewrite (Validate_eq AddResource s), Hj2, Ha2.
    reflexivity.
Qed.

Lemma properties_type_rule_is_normalized_not_validated_witness :
  Type_ (FixRequiredProperties stringWithProperty) = Some ["object"]
  /\ Validate loadsOnly stringWithProperty
     = Validate loadsOnly (set_Properties None stringWithProperty).
Proof.
  pose proof (@properties_type_rule_is_normalized_not_validated
                loadsOnly (set_Properties None stringWithProperty)
                (Some [("a", Schema_zero)])
                (JObject [("properties", JObject [("a", JObject [("required", JArray [])])]);
                          ("type", JString "string"); ("required", JArray [])])
                (JObject [("type", JString "string"); ("required", JArray [])]))
    as [_ Hvalidate].
  pose proof (@properties_type_rule_is_normalized_not_validated
                loadsOnly stringWithProperty None JNull JNull) as [Htype _].
  split.
  - exact (proj2 (Htype eq_refl) eq_refl).
  - exact (Hvalidate eq_refl eq_refl eq_refl eq_refl).
Defined.

(** ** Synthesis of a mapping *)

Lemma bind_Done {A B : Type} (m : outcome A) (k : A -> outcome B) (b : B) :
  bind m k = Done b -> exists a, m = Done a /\ k a = Done b.
Proof. destruct m; cbn [bind]; intros H; try discriminate. eauto. Qed.

Lemma orFatal_Done {A : Type} (m : outcome A) (a : A) :
  orFatal m = Done a -> m = Done a.
Proof. now destruct m. Qed.

Lemma grownFrom_refl (names : slice string) : grownFrom names names.
Proof. intros x. lia. Qed.

Lemma grownFrom_trans (a b c : slice string) :
  grownFrom a b -> grownFrom b c -> grownFrom a c.
Proof. intros Hab Hbc x. specialize (Hab x). specialize (Hbc x). lia. Qed.

Lemma grownFrom_append (names : slice string) (x : string) :
  Contains (elems names) x = false -> grownFrom names (append names x).
Proof.
  intros Hc y. unfold occurrences. rewrite elems_append, count_occ_app.
  cbn [count_occ]. destruct (string_dec x y) as [->|Hne]; [|lia].
  apply Contains_false_iff in Hc.
  apply (count_occ_not_In string_dec) in Hc. lia.
Qed.


Lemma propertyOf_setProperty (name : string) (value s : Schema) :
  propertyOf name (setProperty name value s) = Some value.
Proof.
  unfold propertyOf, setProperty. cbn [set_Properties Properties].
  induction (match Properties s with Some m => m | None => [] end) as [|[k v] rest IH];
    cbn [assign find fst].
  - now rewrite String.eqb_refl.
  - destruct (String.eqb k name) eqn:Hk; cbn [find fst]; rewrite Hk; [reflexivity|].
    exact IH.
Qed.

Section SynthesisProperties.

Variable yaml_Unmarshal : string -> Schema -> outcome Schema.
Variable json_Unmarshal : string -> outcome json.
Variable json_Unmarshal_Schema : json -> outcome Schema.
Variable AddResource : json -> option error.
Variable leadingCommentsRemover : string -> string.
Variable helmDocsTagsRemover : string -> string.
Variable prefixRemover : string -> string.
Variable helm_ParseComment : list string -> helm.ChartValueDescription.
Variable relativeTo : string -> string -> string.
Variable fileExists : string -> bool.
Variable readFile : string -> outcome string.
Variable jsonpointer_Get : json -> string -> outcome json.
Variable Atoi : string -> option Z.
Variable ParseFloat : string -> option float64.
Variable valuesPath : string.
Variable keepFullComment : bool.
Variable helmDocsCompatibilityMode : bool.
Variable dontRemoveHelmDocsPrefix : bool.
Variable skipAutoGeneration : Skip.SkipAutoGenerationConfig.

Local Abbreviation synthesize :=
  (YamlToSchema yaml_Unmarshal json_Unmarshal json_Unmarshal_Schema AddResource
     leadingCommentsRemover helmDocsTagsRemover prefixRemover helm_ParseComment
     relativeTo fileExists readFile jsonpointer_Get Atoi ParseFloat valuesPath
     keepFullComment helmDocsCompatibilityMode dontRemoveHelmDocsPrefix
     skipAutoGeneration).

Local Abbreviation entries :=
  (mappingEntries yaml_Unmarshal json_Unmarshal json_Unmarshal_Schema AddResource
     leadingCommentsRemover helmDocsTagsRemover prefixRemover helm_ParseComment
     relativeTo fileExists readFile jsonpointer_Get Atoi ParseFloat valuesPath
     keepFullComment helmDocsCompatibilityMode dontRemoveHelmDocsPrefix
     skipAutoGeneration).

Local Abbreviation entry :=
  (mappingEntry yaml_Unmarshal json_Unmarshal json_Unmarshal_Schema AddResource
     leadingCommentsRemover helmDocsTagsRemover prefixRemover helm_ParseComment
     relativeTo fileExists readFile jsonpointer_Get Atoi ParseFloat valuesPath
     keepFullComment helmDocsCompatibilityMode dontRemoveHelmDocsPrefix
     skipAutoGeneration).

Local Abbreviation resolve :=
  (resolveRef json_Unmarshal json_Unmarshal_Schema relativeTo fileExists readFile
     jsonpointer_Get valuesPath).

Local Abbreviation parseComment := (GetSchemaFromComment yaml_Unmarshal).
Local Abbreviation comment := (commentOf leadingCommentsRemover keepFullComment).

Local Abbreviation annotation :=
  (annotationOf yaml_Unmarshal leadingCommentsRemover helm_ParseComment
     keepFullComment helmDocsCompatibilityMode).

Local Abbreviation itemCalls :=
  (itemsOf yaml_Unmarshal json_Unmarshal json_Unmarshal_Schema AddResource
     leadingCommentsRemover helmDocsTagsRemover prefixRemover helm_ParseComment
     relativeTo fileExists readFile jsonpointer_Get Atoi ParseFloat valuesPath
     keepFullComment helmDocsCompatibilityMode dontRemoveHelmDocsPrefix
     skipAutoGeneration).

Lemma YamlToSchema_mapping (node : Node) (parent : slice string) :
  Kind node = MappingNode ->
  synthesize node parent = entries (Content node) (NewSchema "object", parent).
Proof. destruct node as [kind tag value hc content al]. cbn. now intros ->. Qed.

Lemma mappingEntries_step (keyNode valueNode : Node) (rest : list Node)
      (st : Schema * slice string) :
  entries (keyNode :: valueNode :: rest) st =
  match aliasTarget valueNode with
  | Some target =>
      st' <- entry keyNode target (synthesize target) (itemCalls target) st ;;
      entries rest st'
  | None => Panic
  end.
Proof.
  cbn [mappingEntries]. unfold aliasTarget, itemsOf.
  destruct (Kind valueNode); reflexivity.
Qed.

Lemma mappingEntries_app (pre post : list Node) (st : Schema * slice string) :
  Nat.even (length pre) = true ->
  entries (pre ++ post) st = (st' <- entries pre st ;; entries post st').
Proof.
  remember (length pre) as n eqn:Hn. revert pre st Hn.
  induction n as [n IH] using lt_wf_ind. intros pre st Hn Heven.
  destruct pre as [|keyNode [|valueNode rest]].
  - reflexivity.
  - subst n. discriminate.
  - cbn [app]. rewrite !mappingEntries_step.
    destruct (aliasTarget valueNode) as [target|]; [|reflexivity].
    destruct (entry keyNode target _ _ st) as [st'| | |]; cbn [bind]; try reflexivity.
    subst n. cbn [length] in *. apply (IH (length rest)); [lia | reflexivity |].
    exact Heven.
Qed.



Lemma validateOrInfer_keeps (valueNode : Node) (s s' : Schema) :
  validateOrInfer AddResource valueNode s = Done s' ->
  Required s' = Required s /\ Ref s' = Ref s.
Proof.
  unfold validateOrInfer. destruct (HasData s).
  - destruct (Validate AddResource s); [discriminate|].
    intros [= <-]. split; reflexivity.
  - intros H. apply bind_Done in H as (nodeType & _ & [= <-]). split; reflexivity.
Qed.


(** A reference to a file that does not exist is left as it is. *)
Lemma resolveRef_missing_file (s : Schema) :
  HasPrefix (Ref s) "#" = false ->
  fileExists (relativeTo valuesPath (hd "" (Split (Ref s) "#"%char))) = false ->
  resolve s = Done s.
Proof.
  intros Hlocal Hmissing. unfold resolveRef, IsRelativeFile.
  rewrite Hlocal, Hmissing. now destruct (negb _).
Qed.

Lemma addToParent_grown (keyNode : Node) (s : Schema) (parent : slice string) :
  grownFrom parent (addToParent skipAutoGeneration keyNode s parent).
Proof.
  unfold addToParent. destruct (_ || _); [|apply grownFrom_refl].
  destruct (Contains (elems parent) (Value keyNode)) eqn:Hc; cbn [negb].
  - apply grownFrom_refl.
  - now apply grownFrom_append.
Qed.


(** What one entry does to the list of its parent. *)
Lemma mappingEntry_parent (keyNode target : Node) (synthValue : synthesis)
      (items : list (Node * synthesis)) (st st' : Schema * slice string) :
  entry keyNode target synthValue items st = Done st' ->
  exists ann resolved checked,
    annotation keyNode = Done ann
    /\ resolve ann = Done resolved
    /\ validateOrInfer AddResource target resolved = Done checked
    /\ snd st' = if String.eqb (Ref checked) ""
                 then addToParent skipAutoGeneration keyNode checked (snd st)
                 else snd st.
Proof.
  unfold mappingEntry, annotationOf. intros H.
  apply bind_Done in H as (parsed & Hparsed & H).
  apply orFatal_Done in Hparsed. rewrite Hparsed. cbn [bind].
  apply bind_Done in H as (resolved & Hresolved & H).
  apply bind_Done in H as (checked & Hchecked & H).
  exists (if helmDocsCompatibilityMode
          then applyHelmDocs helm_ParseComment keyNode (fst parsed)
          else fst parsed), resolved, checked.
  repeat split; try assumption.
  destruct (String.eqb (Ref checked) "").
  - apply bind_Done in H as (descended & _ & [= <-]). reflexivity.
  - now injection H as <-.
Qed.

Lemma mappingEntry_grown (keyNode target : Node) (synthValue : synthesis)
      (items : list (Node * synthesis)) (st st' : Schema * slice string) :
  entry keyNode target synthValue items st = Done st' ->
  grownFrom (snd st) (snd st').
Proof.
  intros H. apply mappingEntry_parent in H as (ann & resolved & checked & _ & _ & _ & ->).
  destruct (String.eqb (Ref checked) "");
    [apply addToParent_grown | apply grownFrom_refl].
Qed.

Lemma mappingEntries_grown (content : list Node) (st st' : Schema * slice string) :
  entries content st = Done st' -> grownFrom (snd st) (snd st').
Proof.
  remember (length content) as n eqn:Hn. revert content st Hn.
  induction n as [n IH] using lt_wf_ind. intros content st Hn H.
  destruct content as [|keyNode [|valueNode rest]].
  - injection H as <-. apply grownFrom_refl.
  - discriminate.
  - rewrite mappingEntries_step in H.
    destruct (aliasTarget valueNode) as [target|]; [|discriminate].
    apply bind_Done in H as (mid & Hentry & Hrest).
    apply grownFrom_trans with (snd mid).
    + eapply mappingEntry_grown; eassumption.
    + subst n. apply (IH (length rest)) with (content := rest); cbn [length]; auto.
Qed.


(** C3. A key whose annotation refers to a file that does not exist
    does not stop the synthesis: the reference is left as it is, the
    entry is completed with the schema of the key keeping its reference
    and no defaults, and the synthesis of the enclosing mapping goes on
    with the entries that follow.  The schema of the key has passed the
    validation every annotated key goes through. *)
Theorem missing_reference_file_is_not_fatal :
  forall (node keyNode valueNode target : Node) (pre post : list Node)
         (parent : slice string) (st : Schema * slice string)
         (ann checked : Schema),
    Kind node = MappingNode ->
    Content node = pre ++ keyNode :: valueNode :: post ->
    Nat.even (length pre) = true ->
    aliasTarget valueNode = Some target ->
    entries pre (NewSchema "object", parent) = Done st ->
    annotation keyNode = Done ann ->
    Ref ann <> "" ->
    HasPrefix (Ref ann) "#" = false ->
    fileExists (relativeTo valuesPath (hd "" (Split (Ref ann) "#"%char))) = false ->
    validateOrInfer AddResource target ann = Done checked ->
    resolve ann = Done ann
    /\ Ref checked = Ref ann
    /\ entry keyNode target (synthesize target) (itemCalls target) st
       = Done (setProperty (Value keyNode) checked (fst st), snd st)
    /\ propertyOf (Value keyNode) (setProperty (Value keyNode) checked (fst st))
       = Some checked
    /\ synthesize node parent
       = entries post (setProperty (Value keyNode) checked (fst st), snd st).
Proof.
  intros node keyNode valueNode target pre post parent st ann checked
         Hkind Hcontent Heven Htarget Hpre Hann Href Hlocal Hmissing Hchecked.
  pose proof (resolveRef_missing_file _ Hlocal Hmissing) as Hresolve.
  pose proof (validateOrInfer_keeps _ _ Hchecked) as [_ Hsame].
  assert (Hentry : entry keyNode target (synthesize target) (itemCalls target) st
                   = Done (setProperty (Value keyNode) checked (fst st), snd st)).
  { unfold annotationOf in Hann.
    apply bind_Done in Hann as (parsed & Hparsed & [= Hann]).
    unfold mappingEntry. rewrite Hparsed. cbn [orFatal bind]. rewrite Hann.
    rewrite Hresolve. cbn [bind]. rewrite Hchecked. cbn [bind].
    apply String.eqb_neq in Href. rewrite Hsame, Href. reflexivity. }
  repeat split; try assumption; try apply propertyOf_setProperty.
  rewrite YamlToSchema_mapping, Hcontent, mappingEntries_app, Hpre by assumption.
  cbn [bind]. rewrite mappingEntries_step, Htarget, Hentry. reflexivity.
Qed.

End SynthesisProperties.



Lemma missing_reference_file_is_not_fatal_witness :
  exists checked : Schema,
    Ref checked = "other.json#/definitions/foo"
    /\ YamlToSchema
         sampleDecoder (fun _ => Fail UnsupportedValue)
         (fun _ => Fail UnsupportedValue) loadsOnly
         (fun c => c) (fun c => c) (fun c => c) noHelmDocs
         (fun _ rel => rel) (fun _ => false) (fun _ => Fail UnsupportedValue)
         (fun _ _ => Fail UnsupportedValue) (fun _ => None) (fun _ => None)
         "values.yaml" true false true skipNothing
         (mappingOf [referringKey; scalarOf strTag "v"]) None
       = Done (setProperty "k" checked (NewSchema "object"), None).
Proof.
  eexists.
  refine (let H := @missing_reference_file_is_not_fatal
            sampleDecoder (fun _ => Fail UnsupportedValue)
            (fun _ => Fail UnsupportedValue) loadsOnly
            (fun c => c) (fun c => c) (fun c => c) noHelmDocs
            (fun _ rel => rel) (fun _ => false) (fun _ => Fail UnsupportedValue)
            (fun _ _ => Fail UnsupportedValue) (fun _ => None) (fun _ => None)
            "values.yaml" true false true skipNothing
            (mappingOf [referringKey; scalarOf strTag "v"])
            referringKey (scalarOf strTag "v") (scalarOf strTag "v") [] [] None
            (NewSchema "object", None) _ _
            eq_refl eq_refl eq_refl eq_refl eq_refl eq_refl _ eq_refl eq_refl eq_refl
          in conj (proj1 (proj2 H)) (proj2 (proj2 (proj2 (proj2 H))))).
  discriminate.
Defined.

(** ** Sample runs *)

(** The document [replicaCount: 1] under the comment "number of pods". *)
Example replicaCount_document :
  option_map (fun r => MarshalJSON (fst r))
    match sampleSynthesis
            (documentOf (mappingOf [commented "replicaCount" "# number of pods";
                                    scalarOf intTag "1"])) None with
    | Done r => Some r
    | _ => None
    end
  = Some
      (JObject
         [("additionalProperties", JBool false);
          ("properties",
           JObject
             [("replicaCount",
               JObject
                 [("default", JInt 1);
                  ("description", JString "number of pods");
                  ("title", JString "replicaCount");
                  ("type", JString "integer");
                  ("required", JArray [])])]);
          ("$schema", JString "http://json-schema.org/draft-07/schema#");
          ("type", JString "object");
          ("required", JArray [JString "replicaCount"])]).
Proof. reflexivity. Qed.

(** A sequence of a string, an integer and a mapping: one alternative
    for each element, the mapping with its own required list. *)
Example sequence_items :
  match sampleSynthesis
          (mappingOf [commented "tags" "";
                      sequenceOf [scalarOf strTag "a"; scalarOf intTag "1";
                                  mappingOf [commented "x" ""; scalarOf boolTag "true"]]])
          None with
  | Done r =>
      match propertyOf "tags" (fst r) with
      | Some tags =>
          option_map (fun items =>
                        map (fun alternative =>
                               (elems (Type_ alternative), requiredNames alternative))
                            (AnyOf items))
                     (Items tags)
      | None => None
      end
  | _ => None
  end
  = Some [(["string"], []); (["integer"], []); (["object"], ["x"])].
Proof. reflexivity. Qed.

(** A mapping under a key whose annotation lists "k" as required, with
    the key "k" carrying the boolean flag: "k" is listed once. *)
Example flag_and_literal_list :
  match sampleSynthesis
          (mappingOf [annotated "m" "required: [k]";
                      mappingOf [flaggedKey; scalarOf strTag "v"]])
          None with
  | Done r => option_map requiredNames (propertyOf "m" (fst r))
  | _ => None
  end
  = Some ["k"].
Proof. reflexivity. Qed.

(** * Further properties of the package *)

(** ** Searching a slice *)

Lemma Index_range (s : list string) (v : string) :
  (-1 <= Index s v < Z.of_nat (length s))%Z.
Proof.
  induction s as [|x rest IH]; cbn [Index length]; [lia|].
  destruct (String.eqb v x); [lia|].
  destruct (Z.ltb_spec (Index rest v) 0); lia.
Qed.

(** X1. [Index] returns -1 exactly when the value is absent, and
    otherwise the position of its first occurrence; [Contains] reports
    whether the value is present. *)
Theorem Index_first_occurrence :
  forall (s : list string) (v : string),
    (Index s v = (-1)%Z <-> ~ In v s)
    /\ (In v s ->
        exists i, Index s v = Z.of_nat i
                  /\ nth_error s i = Some v
                  /\ forall j, j < i -> nth_error s j <> Some v)
    /\ (Contains s v = true <-> In v s).
Proof.
  intros s v. split; [| split].
  - pose proof (Index_nonneg_iff s v). pose proof (Index_range s v). split.
    + intros Hm Hin. apply H in Hin. lia.
    + intros Hno. destruct (Z.eq_dec (Index s v) (-1)); [assumption|].
      exfalso. apply Hno, H. lia.
  - induction s as [|x rest IH]; [intros []|].
    intros Hin. cbn [Index].
    destruct (String.eqb_spec v x) as [->|Hne].
    + exists 0. repeat split. intros j Hj. lia.
    + destruct Hin as [Heq|Hin]; [congruence|].
      destruct (IH Hin) as (i & Hi & Hnth & Hfirst).
      rewrite Hi. destruct (Z.ltb_spec (Z.of_nat i) 0); [lia|].
      exists (S i). split; [lia|]. split; [exact Hnth|].
      intros [|j] Hj; cbn [nth_error]; [congruence | apply Hfirst; lia].
  - apply Contains_true_iff.
Qed.

Lemma Index_first_occurrence_witness :
  exists i, Index ["a"; "b"; "a"] "b" = Z.of_nat i
            /\ nth_error ["a"; "b"; "a"] i = Some "b"
            /\ forall j, j < i -> nth_error ["a"; "b"; "a"] j <> Some "b".
Proof.
  apply (proj1 (proj2 (Index_first_occurrence ["a"; "b"; "a"] "b"))).
  right. left. reflexivity.
Defined.

Lemma Contains_cons (x : string) (s : list string) (v : string) :
  Contains (x :: s) v = String.eqb v x || Contains s v.
Proof.
  unfold Contains. cbn [Index]. destruct (String.eqb v x); [reflexivity|].
  cbn [orb]. rewrite !Z.geb_leb.
  destruct (Z.ltb_spec (Index s v) 0) as [Hneg|Hpos].
  - transitivity false; [apply Z.leb_gt; lia | symmetry; apply Z.leb_gt; lia].
  - transitivity true; [apply Z.leb_le; lia | symmetry; apply Z.leb_le; lia].
Qed.

(** ** The union types *)

Lemma existsb_eqb_In (t : string) (l : list string) :
  existsb (fun x => String.eqb x t) l = true <-> In t l.
Proof.
  rewrite existsb_exists. split.
  - intros (x & Hin & Heq). apply String.eqb_eq in Heq. now subst.
  - intros Hin. exists t. split; [assumption | apply String.eqb_refl].
Qed.

(** X2. What the three predicates of a type list say: [Matches] is
    membership; a list counts as empty when it has no name or has the
    empty name among its names; [Validate] passes exactly when every
    name is one of the eight it knows. *)
Theorem type_list_predicates :
  forall (s : StringOrArrayOfString) (t : string),
    (StringOrArrayOfString_.Matches s t = true <-> In t (elems s))
    /\ (StringOrArrayOfString_.IsEmpty s = true <-> elems s = [] \/ In "" (elems s))
    /\ (StringOrArrayOfString_.Validate s = None <->
        forall name, In name (elems s) -> In name recognizedTypes).
Proof.
  intros s t. split; [| split].
  - apply existsb_eqb_In.
  - unfold StringOrArrayOfString_.IsEmpty, len. rewrite orb_true_iff, existsb_eqb_In.
    rewrite Nat.eqb_eq, length_zero_iff_nil. tauto.
  - unfold StringOrArrayOfString_.Validate.
    destruct (forallb StringOrArrayOfString_.recognized (elems s)) eqn:Hall.
    + split; [intros _ | reflexivity]. intros name Hin.
      rewrite forallb_forall in Hall. specialize (Hall name Hin).
      unfold StringOrArrayOfString_.recognized in Hall.
      repeat (apply orb_true_iff in Hall; destruct Hall as [Hall|Hall]);
        apply String.eqb_eq in Hall; subst; cbn; tauto.
    + split; [discriminate|]. intros Hknown. exfalso.
      assert (Htrue : forallb StringOrArrayOfString_.recognized (elems s) = true).
      { apply forallb_forall. intros name Hin. specialize (Hknown name Hin).
        cbn in Hknown.
        repeat (destruct Hknown as [<-|Hknown]; [reflexivity|]). contradiction. }
      congruence.
Qed.

Lemma json_Unmarshal_elems_strings (names : list string) :
  json_Unmarshal_elems (map JString names) = Done names.
Proof.
  induction names as [|n rest IH]; [reflexivity|].
  cbn [map json_Unmarshal_elems json_Unmarshal_string bind]. now rewrite IH.
Qed.

(** X3. Decoding what the encoder of the required field wrote gives the
    names back, as a list that is never nil; the boolean flag is not
    written, so the receiver keeps the flag it had. *)
Theorem required_json_round_trip :
  forall r previous : BoolOrArrayOfString,
    BoolOrArrayOfString_.UnmarshalJSON previous (BoolOrArrayOfString_.MarshalJSON r)
    = ({| Strings := Some (elems (Strings r)); Bool := Bool previous |}, None).
Proof.
  intros r previous. rewrite BoolOrArrayOfString_MarshalJSON_list.
  unfold BoolOrArrayOfString_.UnmarshalJSON, json_Unmarshal_strings.
  now rewrite json_Unmarshal_elems_strings.
Qed.

Lemma BoolOrArrayOfString_decodeContent_scalars (content : list Node) (multi : slice string) :
  Forall (fun v => Kind v = ScalarNode) content ->
  BoolOrArrayOfString_.decodeContent content multi =
  Done (match content with
        | [] => multi
        | _ => Some (elems multi ++ map scalarText content)
        end).
Proof.
  intros Hall. revert multi.
  induction Hall as [|v rest Hv Hrest IH]; intros multi; [reflexivity|].
  cbn [BoolOrArrayOfString_.decodeContent map].
  unfold Node_Decode_string. rewrite Hv. fold (scalarText v).
  assert (Hstep : (if String.eqb (ShortTag v) nullTag then Done ""
                   else Done (Value v)) = Done (scalarText v))
    by (unfold scalarText; now destruct (String.eqb _ _)).
  rewrite Hstep. cbn [bind]. rewrite IH.
  destruct rest; cbn [map elems append]; [reflexivity|].
  now rewrite <- app_assoc.
Qed.

(** X4. The YAML decoder of the required field fills one of the two
    fields and leaves the other: a sequence of scalars sets the list to
    their texts (a null element gives the empty name, an empty sequence
    a nil list), a boolean sets the flag. *)
Theorem required_yaml_decode :
  forall (previous : BoolOrArrayOfString) (content : list Node),
    (Forall (fun v => Kind v = ScalarNode) content ->
     BoolOrArrayOfString_.UnmarshalYAML previous (sequenceOf content)
     = ({| Strings := match content with
                      | [] => None
                      | _ => Some (map scalarText content)
                      end;
           Bool := Bool previous |}, None))
    /\ BoolOrArrayOfString_.UnmarshalYAML previous (scalarOf boolTag "true")
       = ({| Strings := Strings previous; Bool := true |}, None)
    /\ BoolOrArrayOfString_.UnmarshalYAML previous (scalarOf boolTag "false")
       = ({| Strings := Strings previous; Bool := false |}, None).
Proof.
  intros previous content. split; [| split; reflexivity].
  intros Hscalars. unfold BoolOrArrayOfString_.UnmarshalYAML.
  cbn [sequenceOf ShortTag Tag Content]. rewrite String.eqb_refl.
  rewrite (BoolOrArrayOfString_decodeContent_scalars None Hscalars).
  now destruct content.
Qed.

Lemma required_yaml_decode_witness :
  BoolOrArrayOfString_.UnmarshalYAML BoolOrArrayOfString_zero
    (sequenceOf [scalarOf strTag "a"; scalarOf nullTag "~"])
  = ({| Strings := Some ["a"; ""]; Bool := false |}, None).
Proof.
  apply (proj1 (required_yaml_decode BoolOrArrayOfString_zero
                  [scalarOf strTag "a"; scalarOf nullTag "~"])).
  repeat constructor.
Defined.

(** ** The inference tables *)

(** X5. The type inferred from a tag is a single name, one the type
    validator accepts and that does not count as empty; a tag outside
    the eight known ones is answered with an error that names it. *)
Theorem typeFromTag_gives_valid_type :
  forall tag : string,
    (In tag supportedTags ->
     exists t, typeFromTag tag = Done [t]
               /\ StringOrArrayOfString_.Validate (Some [t]) = None
               /\ StringOrArrayOfString_.IsEmpty (Some [t]) = false)
    /\ (~ In tag supportedTags -> typeFromTag tag = Fail (UnsupportedTag tag)).
Proof.
  intros tag. split.
  - intros Hin. cbn [supportedTags In] in Hin.
    repeat (destruct Hin as [<-|Hin]; [eexists; repeat split|]); contradiction.
  - intros Hno. unfold typeFromTag.
    repeat match goal with
           | |- context [String.eqb tag ?known] =>
               destruct (String.eqb_spec tag known) as [->|_];
               [exfalso; apply Hno; cbn; tauto|]
           end.
    reflexivity.
Qed.

Lemma typeFromTag_gives_valid_type_witness :
  (exists t, typeFromTag timestampTag = Done [t]
             /\ StringOrArrayOfString_.Validate (Some [t]) = None
             /\ StringOrArrayOfString_.IsEmpty (Some [t]) = false)
  /\ typeFromTag "!!binary" = Fail (UnsupportedTag "!!binary").
Proof.
  split.
  - apply (proj1 (typeFromTag_gives_valid_type timestampTag)). cbn. tauto.
  - apply (proj2 (typeFromTag_gives_valid_type "!!binary")). cbn.
    intuition discriminate.
Defined.

(** X6. A helm-docs type name is translated to a type name the type
    validator accepts, or refused: never to an unknown name. *)
Theorem helmDocsType_gives_valid_type :
  forall helmDocsType translated : string,
    helmDocsTypeToSchemaType helmDocsType = Done translated ->
    In helmDocsType ["int"; "bool"; "float"; "list"; "map"; "string"; "object"]
    /\ StringOrArrayOfString_.Validate (Some [translated]) = None
    /\ StringOrArrayOfString_.IsEmpty (Some [translated]) = false.
Proof.
  intros helmDocsType translated. unfold helmDocsTypeToSchemaType.
  repeat match goal with
         | |- context [if String.eqb helmDocsType ?known then _ else _] =>
             destruct (String.eqb_spec helmDocsType known) as [->|_];
             [intros [= <-]; cbn; repeat split; tauto|]
         end.
  destruct (String.eqb_spec helmDocsType "string") as [->|_];
    [intros [= <-]; cbn; repeat split; tauto|].
  destruct (String.eqb_spec helmDocsType "object") as [->|_];
    [intros [= <-]; cbn; repeat split; tauto | discriminate].
Qed.

Lemma helmDocsType_gives_valid_type_witness :
  StringOrArrayOfString_.Validate (Some ["array"]) = None
  /\ StringOrArrayOfString_.IsEmpty (Some ["array"]) = false.
Proof.
  exact (proj2 (@helmDocsType_gives_valid_type "list" "array" eq_refl)).
Defined.

(** ** The suppression switches *)

Lemma skipField_fold (flag : list string)
      (config : Skip.SkipAutoGenerationConfig) (invalid : slice string) :
  let st := fold_left skipField flag (config, invalid) in
  Skip.Title (fst st) = Skip.Title config || Contains flag "title"
  /\ Skip.Description (fst st) = Skip.Description config || Contains flag "description"
  /\ Skip.Required (fst st) = Skip.Required config || Contains flag "required"
  /\ Skip.Default (fst st) = Skip.Default config || Contains flag "default"
  /\ Skip.AdditionalProperties (fst st)
     = Skip.AdditionalProperties config || Contains flag "additionalProperties"
  /\ elems (snd st)
     = elems invalid ++ filter (fun f => negb (Contains possibleSkipFields f)) flag.
Proof.
  revert config invalid.
  induction flag as [|f rest IH]; intros config invalid; cbn [fold_left].
  - cbn. rewrite !orb_false_r, app_nil_r. repeat split.
  - specialize (IH (fst (skipField (config, invalid) f))
                   (snd (skipField (config, invalid) f))).
    rewrite <- surjective_pairing in IH. cbn zeta in IH.
    destruct IH as (Ht & Hd & Hr & Hdf & Hap & Hinv).
    rewrite Ht, Hd, Hr, Hdf, Hap, Hinv. rewrite !Contains_cons.
    cbn [skipField fst snd Skip.Title Skip.Description Skip.Required Skip.Default
         Skip.AdditionalProperties filter].
    rewrite (String.eqb_sym "title" f), (String.eqb_sym "description" f),
      (String.eqb_sym "required" f), (String.eqb_sym "default" f),
      (String.eqb_sym "additionalProperties" f).
    repeat split;
      try (match goal with
           | |- (if ?c then true else ?x) || ?y = ?x || (?c || ?y) =>
               destruct c, x; reflexivity
           end).
    destruct (negb (Contains possibleSkipFields f)); cbn [elems append];
      [now rewrite <- app_assoc | reflexivity].
Qed.

(** X7. [NewSkipAutoGenerationConfig] gives a configuration exactly when
    every name is one of the five switches, and then a switch is on
    exactly when its name is listed, however often and in whatever
    order; otherwise the error lists the unknown names in the order
    given. *)
Theorem NewSkipAutoGenerationConfig_result :
  forall flag : list string,
    let unknown := filter (fun f => negb (Contains possibleSkipFields f)) flag in
    (unknown = [] ->
     exists config,
       NewSkipAutoGenerationConfig flag = Done config
       /\ Skip.Title config = Contains flag "title"
       /\ Skip.Description config = Contains flag "description"
       /\ Skip.Required config = Contains flag "required"
       /\ Skip.Default config = Contains flag "default"
       /\ Skip.AdditionalProperties config = Contains flag "additionalProperties")
    /\ (unknown <> [] ->
        NewSkipAutoGenerationConfig flag = Fail (unsupportedFieldNames unknown))
    /\ (unknown = [] <-> forall f, In f flag -> In f possibleSkipFields).
Proof.
  intros flag unknown. unfold NewSkipAutoGenerationConfig. cbv zeta. unfold len.
  set (st := fold_left skipField flag _).
  pose proof (skipField_fold flag
                {| Skip.Title := false; Skip.Description := false;
                   Skip.Required := false; Skip.Default := false;
                   Skip.AdditionalProperties := false |} None) as Hfold.
  cbv zeta in Hfold. change (fold_left skipField flag _) with st in Hfold.
  destruct Hfold as (Ht & Hd & Hr & Hdf & Hap & Hinv).
  cbn [Skip.Title Skip.Description Skip.Required Skip.Default
       Skip.AdditionalProperties orb] in Ht, Hd, Hr, Hdf, Hap.
  change (elems (@None (list string))) with (@nil string) in Hinv.
  cbn [app] in Hinv. fold unknown in Hinv. rewrite Hinv.
  split; [| split].
  - intros Hnone. rewrite Hnone. cbn [length Nat.eqb negb]. eexists.
    split; [reflexivity|]. repeat split; assumption.
  - intros Hsome. destruct unknown as [|u rest]; [contradiction|]. reflexivity.
  - unfold unknown. split.
    + intros Hnone f Hin. apply Contains_true_iff.
      destruct (Contains possibleSkipFields f) eqn:Hc; [reflexivity|].
      assert (Hf : In f (filter (fun f => negb (Contains possibleSkipFields f)) flag))
        by (apply filter_In; split; [assumption | now rewrite Hc]).
      rewrite Hnone in Hf. contradiction.
    + intros Hall.
      destruct (filter (fun f => negb (Contains possibleSkipFields f)) flag)
        as [|u rest] eqn:Hfilter; [reflexivity|].
      assert (Hu : In u (filter (fun f => negb (Contains possibleSkipFields f)) flag))
        by (rewrite Hfilter; now left).
      apply filter_In in Hu as [Hin Hc]. apply Hall, Contains_true_iff in Hin.
      rewrite Hin in Hc. discriminate.
Qed.

Lemma NewSkipAutoGenerationConfig_result_witness :
  (exists config,
      NewSkipAutoGenerationConfig ["default"; "title"; "default"] = Done config
      /\ Skip.Title config = true
      /\ Skip.Description config = false
      /\ Skip.Required config = false
      /\ Skip.Default config = true
      /\ Skip.AdditionalProperties config = false)
  /\ NewSkipAutoGenerationConfig ["type"; "title"; "enum"]
     = Fail (unsupportedFieldNames ["type"; "enum"]).
Proof.
  split.
  - exact (proj1 (NewSkipAutoGenerationConfig_result ["default"; "title"; "default"])
                 eq_refl).
  - apply (proj1 (proj2 (NewSkipAutoGenerationConfig_result ["type"; "title"; "enum"]))).
    discriminate.
Defined.

(** ** Switching the required lists off *)

Lemma DisableRequiredProperties_eq (s : Schema) :
  DisableRequiredProperties s =
  mkSchema
    (AdditionalProperties s)
    (Default s)
    (option_map DisableRequiredProperties (Then s))
    (PatternProperties s)
    match Properties s with
    | Some props =>
        Some (map (fun kv => (fst kv, DisableRequiredProperties (snd kv))) props)
    | None => None
    end
    (option_map DisableRequiredProperties (If s))
    (Minimum s) (MultipleOf s) (ExclusiveMaximum s)
    (option_map DisableRequiredProperties (Items s))
    (ExclusiveMinimum s) (Maximum s)
    (option_map DisableRequiredProperties (Else s))
    (Pattern s) (Const s) (Ref s) (Schema_ s) (Id s)
    (Format s) (Description s) (Title s)
    (Type_ s)
    (map DisableRequiredProperties (AnyOf s))
    (map DisableRequiredProperties (AllOf s))
    (map DisableRequiredProperties (OneOf s))
    (option_map DisableRequiredProperties (Not s))
    (Examples s) (Enum s) (HasData s) (Deprecated s)
    (ReadOnly s) (WriteOnly s)
    nothingRequired
    (CustomAnnotations s) (MinLength s) (MaxLength s)
    (MinItems s) (MaxItems s).
Proof.
  destruct s as [ap df th pp props]; destruct props; reflexivity.
Qed.

Ltac disabled_fields t :=
  rewrite (DisableRequiredProperties_eq t); read_fields.

Lemma DisableRequiredProperties_Required (s : Schema) :
  Required (DisableRequiredProperties s) = nothingRequired.
Proof. now disabled_fields s. Qed.

Lemma ofOption_map (f : Schema -> Schema) (o : option Schema) :
  ofOption (option_map f o) = map f (ofOption o).
Proof. now destruct o. Qed.

Lemma disableVisits_DisableRequiredProperties (s : Schema) :
  disableVisits (DisableRequiredProperties s)
  = map DisableRequiredProperties (disableVisits s).
Proof.
  unfold disableVisits at 1. disabled_fields s. unfold disableVisits.
  rewrite !map_app, !ofOption_map.
  destruct (Properties s) as [props|]; [|reflexivity].
  now rewrite !map_map.
Qed.

Lemma disableVisits_FixRequiredProperties (s : Schema) :
  disableVisits (FixRequiredProperties s)
  = map FixRequiredProperties (disableVisits s).
Proof.
  unfold disableVisits at 1. normalizer_fields s.
  unfold disableVisits, fixedProperties.
  rewrite !map_app, !ofOption_map.
  destruct (Properties s) as [props|]; [|reflexivity].
  now rewrite !map_map.
Qed.

(** With every flag off the normalizer has nothing to add. *)
Lemma fold_addRequired_unflagged (props : list (string * Schema)) (r : BoolOrArrayOfString) :
  Forall (fun prop => Bool (Required (snd prop)) = false) props ->
  fold_left addRequired props r = r.
Proof.
  intros Hoff. apply fold_addRequired_fixed.
  apply (Forall_impl _ (P := fun prop => Bool (Required (snd prop)) = false));
    [|assumption].
  intros prop Hfalse Htrue. congruence.
Qed.

Lemma FixRequiredProperties_disabled_Required (s : Schema) :
  Required (FixRequiredProperties (DisableRequiredProperties s)) = nothingRequired.
Proof.
  normalizer_fields (DisableRequiredProperties s).
  unfold fixedRequired, fixedProperties. disabled_fields s.
  destruct (Properties s) as [props|]; [|reflexivity].
  apply fold_addRequired_unflagged. rewrite map_map. apply Forall_forall.
  intros prop Hin. apply in_map_iff in Hin as (kv & <- & _). cbn [fst snd].
  now rewrite FixRequiredProperties_Bool, DisableRequiredProperties_Required.
Qed.

Lemma reachedFrom_disabled (t n : Schema) :
  reachedFrom t n ->
  forall s, t = DisableRequiredProperties s -> Required n = nothingRequired.
Proof.
  induction 1 as [t | t c n Hin _ IH]; intros s ->.
  - apply DisableRequiredProperties_Required.
  - rewrite disableVisits_DisableRequiredProperties in Hin.
    apply in_map_iff in Hin as (c' & <- & _). now apply (IH c').
Qed.

Lemma reachedFrom_disabled_fixed (t n : Schema) :
  reachedFrom t n ->
  forall s, t = FixRequiredProperties (DisableRequiredProperties s) ->
            Required n = nothingRequired.
Proof.
  induction 1 as [t | t c n Hin _ IH]; intros s ->.
  - apply FixRequiredProperties_disabled_Required.
  - rewrite disableVisits_FixRequiredProperties,
      disableVisits_DisableRequiredProperties in Hin.
    apply in_map_iff in Hin as (c1 & <- & Hin).
    apply in_map_iff in Hin as (c' & <- & _). now apply (IH c').
Qed.

(** X8. After [DisableRequiredProperties] every node it reaches, through
    properties, items, the alternatives, conditionals and negation, has
    an empty required list and the flag off; a run of
    [FixRequiredProperties] after it leaves them so. *)
Theorem DisableRequiredProperties_clears_reached :
  forall s n : Schema,
    (reachedFrom (DisableRequiredProperties s) n -> Required n = nothingRequired)
    /\ (reachedFrom (FixRequiredProperties (DisableRequiredProperties s)) n ->
        Required n = nothingRequired).
Proof.
  intros s n. split; intros Hreached.
  - exact (reachedFrom_disabled Hreached s eq_refl).
  - exact (reachedFrom_disabled_fixed Hreached s eq_refl).
Qed.

Lemma DisableRequiredProperties_clears_reached_witness :
  Required (DisableRequiredProperties flaggedProperty) = nothingRequired
  /\ Required (FixRequiredProperties (DisableRequiredProperties flaggedProperty))
     = nothingRequired.
Proof.
  split.
  - apply (proj1 (DisableRequiredProperties_clears_reached withFlaggedProperty _)).
    apply reached_below with (c := DisableRequiredProperties flaggedProperty);
      [left; reflexivity | apply reached_here].
  - apply (proj2 (DisableRequiredProperties_clears_reached withFlaggedProperty _)).
    apply reached_below
      with (c := FixRequiredProperties (DisableRequiredProperties flaggedProperty));
      [left; reflexivity | apply reached_here].
Defined.

Section TwoPasses.

(** Two passes over the nodes below a node, and the pass they amount to
    on a set of nodes. *)
Variables first second both : Schema -> Schema.
Variable stable : Schema -> Prop.
Hypothesis stable_both : forall c, stable c -> second (first c) = both c.

Lemma option_passes (o : option Schema) :
  (forall c, o = Some c -> stable c) ->
  option_map second (option_map first o) = option_map both o.
Proof.
  destruct o as [c|]; intros H; cbn [option_map]; [|reflexivity].
  now rewrite stable_both by auto.
Qed.

Lemma list_passes (l : list Schema) :
  (forall c, In c l -> stable c) ->
  map second (map first l) = map both l.
Proof.
  intros H. rewrite map_map. apply map_ext_in. intros c Hin.
  apply stable_both. auto.
Qed.

Lemma properties_passes (props : list (string * Schema)) :
  (forall c, In c (map snd props) -> stable c) ->
  map (fun kv => (fst kv, second (snd kv)))
      (map (fun kv => (fst kv, first (snd kv))) props)
  = map (fun kv => (fst kv, both (snd kv))) props.
Proof.
  intros H. rewrite map_map. apply map_ext_in. intros kv Hin. cbn [fst snd].
  rewrite stable_both; [reflexivity|]. apply H. now apply in_map.
Qed.

End TwoPasses.

(** X9. [DisableRequiredProperties] applied twice gives what it gives
    applied once. *)
Theorem DisableRequiredProperties_idempotent :
  forall s : Schema,
    DisableRequiredProperties (DisableRequiredProperties s)
    = DisableRequiredProperties s.
Proof.
  apply (Schema_induction
           (fun s => DisableRequiredProperties (DisableRequiredProperties s)
                     = DisableRequiredProperties s)).
  intros s IH.
  set (stable := fun c => In c (children s)).
  pose proof (option_passes DisableRequiredProperties DisableRequiredProperties
                DisableRequiredProperties stable IH) as Hopt.
  pose proof (list_passes DisableRequiredProperties DisableRequiredProperties
                DisableRequiredProperties stable IH) as Hlist.
  apply Schema_ext; disabled_fields (DisableRequiredProperties s);
    disabled_fields s; try reflexivity.
  - apply Hopt. intros c Hc. apply in_children_option. tauto.
  - destruct (Properties s) as [props|] eqn:Hp; [|reflexivity].
    f_equal. apply (properties_passes _ _ _ stable IH).
    intros c Hin. eapply in_children_Properties; eassumption.
  - apply Hopt. intros c Hc. apply in_children_option. tauto.
  - apply Hopt. intros c Hc. apply in_children_option. tauto.
  - apply Hopt. intros c Hc. apply in_children_option. tauto.
  - apply Hlist. intros c Hc. apply in_children_list. tauto.
  - apply Hlist. intros c Hc. apply in_children_list. tauto.
  - apply Hlist. intros c Hc. apply in_children_list. tauto.
  - apply Hopt. intros c Hc. apply in_children_option. tauto.
Qed.

(** X10. The two passes over a finished tree commute: switching the
    required lists off and then normalizing gives the node that
    normalizing and then switching off gives. *)
Theorem DisableRequiredProperties_FixRequiredProperties_commute :
  forall s : Schema,
    DisableRequiredProperties (FixRequiredProperties s)
    = FixRequiredProperties (DisableRequiredProperties s).
Proof.
  apply (Schema_induction
           (fun s => DisableRequiredProperties (FixRequiredProperties s)
                     = FixRequiredProperties (DisableRequiredProperties s))).
  intros s IH.
  set (stable := fun c => In c (children s)).
  set (both := fun c => FixRequiredProperties (DisableRequiredProperties c)).
  pose proof (option_passes FixRequiredProperties DisableRequiredProperties
                both stable IH) as Hopt.
  pose proof (list_passes FixRequiredProperties DisableRequiredProperties
                both stable IH) as Hlist.
  pose proof (option_passes DisableRequiredProperties FixRequiredProperties
                both (fun _ => True) (fun c _ => eq_refl)) as Hopt'.
  pose proof (list_passes DisableRequiredProperties FixRequiredProperties
                both (fun _ => True) (fun c _ => eq_refl)) as Hlist'.
  apply Schema_ext;
    [ .. | rewrite FixRequiredProperties_disabled_Required;
           apply DisableRequiredProperties_Required | | | | | ];
    disabled_fields (FixRequiredProperties s);
    normalizer_fields (DisableRequiredProperties s);
    normalizer_fields s;
    unfold fixedAdditionalProperties, fixedType, fixedProperties;
    disabled_fields s; try reflexivity.
  - rewrite Hopt, Hopt' by (auto; intros c Hc; apply in_children_option; tauto).
    reflexivity.
  - destruct (Properties s) as [props|] eqn:Hp; [|reflexivity].
    f_equal.
    rewrite (properties_passes _ _ both stable IH)
      by (intros c Hin; eapply in_children_Properties; eassumption).
    now rewrite (properties_passes DisableRequiredProperties FixRequiredProperties
                   both (fun _ => True) (fun c _ => eq_refl)).
  - rewrite Hopt, Hopt' by (auto; intros c Hc; apply in_children_option; tauto).
    reflexivity.
  - rewrite Hopt, Hopt' by (auto; intros c Hc; apply in_children_option; tauto).
    reflexivity.
  - rewrite Hopt, Hopt' by (auto; intros c Hc; apply in_children_option; tauto).
    reflexivity.
  - now destruct (Properties s).
  - rewrite Hlist, Hlist' by (auto; intros c Hc; apply in_children_list; tauto).
    reflexivity.
  - rewrite Hlist, Hlist' by (auto; intros c Hc; apply in_children_list; tauto).
    reflexivity.
  - rewrite Hlist, Hlist' by (auto; intros c Hc; apply in_children_list; tauto).
    reflexivity.
  - rewrite Hopt, Hopt' by (auto; intros c Hc; apply in_children_option; tauto).
    reflexivity.
Qed.

(** ** What the normalizer adds to a required list *)

Lemma fold_addRequired_appends (props : list (string * Schema)) (r : BoolOrArrayOfString) :
  exists added,
    elems (Strings (fold_left addRequired props r)) = elems (Strings r) ++ added
    /\ NoDup added
    /\ forall n, In n added <->
                 ~ In n (elems (Strings r))
                 /\ exists p, In (n, p) props /\ Bool (Required p) = true.
Proof.
  revert r. induction props as [|[k v] rest IH]; intros r; cbn [fold_left].
  - exists []. rewrite app_nil_r. split; [reflexivity|]. split; [constructor|].
    intros n. cbn [In]. split; [tauto | intros [_ [p [[] _]]]].
  - destruct (IH (addRequired r (k, v))) as (added & Heq & Hnodup & Hin).
    unfold addRequired in Heq, Hin |- *. cbn [fst snd] in *.
    destruct (Bool (Required v)) eqn:Hflag; cbn [andb] in *.
    + destruct (Contains (elems (Strings r)) k) eqn:Hc; cbn [negb] in *.
      * exists added. split; [assumption|]. split; [assumption|].
        intros n. rewrite Hin. split.
        -- intros [Hnot (p & Hp & Hb)]. split; [assumption|].
           exists p. split; [now right | assumption].
        -- intros [Hnot (p & [Hp|Hp] & Hb)].
           ++ inversion Hp; subst. apply Contains_true_iff in Hc. contradiction.
           ++ split; [assumption|]. now exists p.
      * cbn [Strings] in *. rewrite elems_append in Heq, Hin.
        apply Contains_false_iff in Hc.
        exists (k :: added). split; [now rewrite Heq, <- app_assoc|].
        split.
        -- constructor; [|assumption]. intros Hk. apply Hin in Hk as [Hnot _].
           apply Hnot, in_or_app. right. now left.
        -- intros n. cbn [In]. rewrite Hin, in_app_iff. cbn [In]. split.
           ++ intros [<-|[Hnot (p & Hp & Hb)]].
              ** split; [assumption|]. exists v. split; [now left | assumption].
              ** split; [tauto|]. exists p. split; [now right | assumption].
           ++ intros [Hnot (p & Hp & Hb)].
              destruct (string_dec k n) as [->|Hne]; [now left|]. right.
              split; [tauto|]. exists p. split; [|assumption].
              destruct Hp as [Hp|Hp]; [inversion Hp; congruence | assumption].
    + exists added. split; [assumption|]. split; [assumption|].
      intros n. rewrite Hin. split.
      * intros [Hnot (p & Hp & Hb)]. split; [assumption|].
        exists p. split; [now right | assumption].
      * intros [Hnot (p & [Hp|Hp] & Hb)].
        -- inversion Hp; subst. congruence.
        -- split; [assumption|]. now exists p.
Qed.

(** X11. What [FixRequiredProperties] does to the required list of a
    node: the names it had stay in front in their order, the names
    added behind them are, each once, those of the properties that
    carry the flag and were not listed; the flag of the node is not
    touched, and a node without a property map keeps its list. *)
Theorem FixRequiredProperties_required_list :
  forall s : Schema,
    (exists added,
        requiredNames (FixRequiredProperties s) = requiredNames s ++ added
        /\ NoDup added
        /\ forall n, In n added <->
                     ~ In n (requiredNames s)
                     /\ exists props p, Properties s = Some props
                                        /\ In (n, p) props
                                        /\ Bool (Required p) = true)
    /\ Bool (Required (FixRequiredProperties s)) = Bool (Required s)
    /\ (Properties s = None -> Required (FixRequiredProperties s) = Required s).
Proof.
  intros s. split; [| split].
  - unfold requiredNames. normalizer_fields s.
    unfold fixedRequired, fixedProperties.
    destruct (Properties s) as [props|].
    + destruct (fold_addRequired_appends
                  (map (fun kv => (fst kv, FixRequiredProperties (snd kv))) props)
                  (Required s)) as (added & Heq & Hnodup & Hin).
      exists added. split; [assumption|]. split; [assumption|].
      intros n. rewrite Hin. split.
      * intros [Hnot (p & Hp & Hb)]. split; [assumption|].
        apply in_map_iff in Hp as ([k v] & Hkv & Hp). cbn [fst snd] in Hkv.
        inversion Hkv; subst. rewrite FixRequiredProperties_Bool in Hb.
        exists props, v. auto.
      * intros [Hnot (props' & p & Hsome & Hp & Hb)]. split; [assumption|].
        inversion Hsome; subst props'.
        exists (FixRequiredProperties p). split.
        -- apply in_map_iff. exists (n, p). auto.
        -- now rewrite FixRequiredProperties_Bool.
    + exists []. rewrite app_nil_r. split; [reflexivity|]. split; [constructor|].
      intros n. cbn [In]. split; [tauto|].
      intros [_ (props & p & Hsome & _)]. discriminate.
  - apply FixRequiredProperties_Bool.
  - intros Hnone. normalizer_fields s. unfold fixedRequired, fixedProperties.
    now rewrite Hnone.
Qed.

Lemma FixRequiredProperties_required_list_witness :
  Required (FixRequiredProperties flaggedProperty) = Required flaggedProperty.
Proof.
  apply (proj2 (proj2 (FixRequiredProperties_required_list flaggedProperty))).
  reflexivity.
Defined.

(** ** The extension entries in the encoding *)





(** ** What a passed validation means *)

Lemma reject_None (cond : bool) (e : error) (rest : option error) :
  (if cond then Some e else rest) = None <-> cond = false /\ rest = None.
Proof.
  destruct cond; split;
    [discriminate | intros [? _]; discriminate | auto | tauto].
Qed.

Lemma nested_None (nested rest : option error) :
  match nested with Some e => Some e | None => rest end = None
  <-> nested = None /\ rest = None.
Proof.
  destruct nested; split;
    [discriminate | intros [? _]; discriminate | auto | tauto].
Qed.

Lemma bothGt_false (a b : option Z) :
  bothGt a b = false <-> forall x y, a = Some x -> b = Some y -> (x <= y)%Z.
Proof.
  destruct a as [x|], b as [y|]; cbn [bothGt];
    try (split; [intros _ ? ? ? ?; discriminate | reflexivity]).
  rewrite Z.gtb_ltb, Z.ltb_ge. split.
  - intros Hle ? ? [= <-] [= <-]. exact Hle.
  - intros H. now apply H.
Qed.

(** Decides a check from the part of [wellFormed] that speaks of it. *)
Ltac by_cases :=
  repeat match goal with
         | |- context [String.eqb ?a ?b] => destruct (String.eqb_spec a b)
         | |- context [isSome ?o] => destruct o; cbn [isSome]
         end;
  repeat match goal with
         | b : bool |- _ => destruct b
         end;
  cbn [negb andb orb]; intuition congruence.

Lemma invariantChecks_None (itemsError : option error) (s : Schema) :
  invariantChecks itemsError s = None <-> itemsError = None /\ wellFormed s.
Proof.
  unfold invariantChecks, wellFormed, typed, hasType. cbv zeta.
  destruct (StringOrArrayOfString_.Validate (Type_ s)) as [e|];
    [split; [discriminate | intros [_ [H _]]; discriminate]|].
  rewrite !reject_None, nested_None, !reject_None, !bothGt_false.
  set (empty := StringOrArrayOfString_.IsEmpty (Type_ s)).
  set (isString := StringOrArrayOfString_.Matches (Type_ s) "string").
  set (isArray := StringOrArrayOfString_.Matches (Type_ s) "array").
  set (isNumber := StringOrArrayOfString_.Matches (Type_ s) "number").
  set (isInteger := StringOrArrayOfString_.Matches (Type_ s) "integer").
  assert (Hsupported :
            existsb (String.eqb (Format s)) supportedFormats = true
            <-> In (Format s) supportedFormats).
  { rewrite existsb_exists. split.
    - intros (x & Hin & Heq). apply String.eqb_eq in Heq. now subst.
    - intros Hin. exists (Format s). split; [assumption | apply String.eqb_refl]. }
  set (supported := existsb (String.eqb (Format s)) supportedFormats) in *.
  assert (Hmultiple :
            match MultipleOf s with Some m => (m <=? 0)%Z | None => false end = false
            <-> forall m, MultipleOf s = Some m -> (0 < m)%Z).
  { destruct (MultipleOf s) as [m|].
    - rewrite Z.leb_gt. split; [intros Hlt ? [= <-]; exact Hlt | auto].
    - split; [intros _ ? ?; discriminate | reflexivity]. }
  rewrite Hmultiple. clear Hmultiple.
  clearbody empty isString isArray isNumber isInteger supported.
  split.
  - intros (C1 & C2 & C3 & C4 & Hie & C5 & C6 & C7 & C8 & C9 & C10 & C11 & C12
            & C13 & C14 & C15 & C16 & C17 & C18 & _).
    split; [assumption|]. split; [reflexivity|].
    repeat match goal with |- _ /\ _ => split end.
    + clear - C1. revert C1. by_cases.
    + clear - C2. revert C2. by_cases.
    + assumption.
    + clear - C4. revert C4. by_cases.
    + clear - C5. revert C5. by_cases.
    + clear - C6. revert C6. by_cases.
    + assumption.
    + clear - C8. revert C8. by_cases.
    + clear - C9. revert C9. by_cases.
    + clear - C10 Hsupported. revert C10 Hsupported. by_cases.
    + clear - C11 C12 C13 C14 C15. revert C11 C12 C13 C14 C15. by_cases.
    + assumption.
    + clear - C17. revert C17. by_cases.
    + clear - C18. revert C18. by_cases.
  - intros (Hie & _ & P1 & P2 & P3 & P4 & P5 & P6 & P7 & P8 & P9 & P10 & P11
            & P12 & P13 & P14).
    repeat match goal with |- _ /\ _ => split end;
      try assumption; try reflexivity.
    + clear - P1. revert P1. by_cases.
    + clear - P2. revert P2. by_cases.
    + clear - P4. revert P4. by_cases.
    + clear - P5. revert P5. by_cases.
    + clear - P6. revert P6. by_cases.
    + clear - P8. revert P8. by_cases.
    + clear - P9. revert P9. by_cases.
    + clear - P10 Hsupported. revert P10 Hsupported. by_cases.
    + clear - P11. revert P11. by_cases.
    + clear - P11. revert P11. by_cases.
    + clear - P11. revert P11. by_cases.
    + clear - P11. revert P11. by_cases.
    + clear - P11. revert P11. by_cases.
    + clear - P13. revert P13. by_cases.
    + clear - P14. revert P14. by_cases.
Qed.

(** X13. [Validate] returns nil exactly when, for the node and for the
    items below it as far as they go, the encoding exists, the external
    compiler loads it and the node passes every check; nodes under
    other keywords are not looked at. *)
Theorem Validate_passes_iff :
  forall (AddResource : json -> option error) (s : Schema),
    Validate AddResource s = None
    <-> forall n, itemsChain s n -> accepted AddResource n /\ wellFormed n.
Proof.
  intros AddResource.
  apply (Schema_induction
           (fun s => Validate AddResource s = None
                     <-> forall n, itemsChain s n ->
                                   accepted AddResource n /\ wellFormed n)).
  intros s IH. rewrite Validate_eq. unfold accepted.
  assert (Hchild : forall items, Items s = Some items -> In items (children s))
    by (intros items Hsome; apply in_children_option; tauto).
  split.
  - intros Hpass n Hchain.
    destruct (ToJson s) as [jsonStr|e|e|] eqn:Hjson; try discriminate.
    destruct (AddResource jsonStr) eqn:Hadd; [discriminate|].
    apply invariantChecks_None in Hpass as [Hitems Hwell].
    destruct Hchain as [|items n Hsome Hchain].
    + split; [|assumption]. exists jsonStr. now rewrite Hjson.
    + rewrite Hsome in Hitems.
      apply (proj1 (IH items (Hchild items Hsome)) Hitems n Hchain).
  - intros Hall.
    destruct (Hall s (chain_here s)) as [(jsonStr & -> & ->) Hwell].
    apply invariantChecks_None. split; [|assumption].
    destruct (Items s) as [items|] eqn:Hsome; [|reflexivity].
    apply (IH items (Hchild items eq_refl)).
    intros n Hchain. apply Hall. now apply chain_items with (items := items).
Qed.

Lemma Validate_passes_iff_witness :
  wellFormed stringWithProperty.
Proof.
  apply (proj1 (Validate_passes_iff loadsOnly stringWithProperty) eq_refl).
  apply chain_here.
Defined.

(** ** Where the lines of a comment go *)

Lemma scanLine_accounts (st : scanState) (line : string) :
  let st' := scanLine st line in
  length (description st') + length (rawSchema st')
  + (if HasPrefix line SchemaPrefix then 1 else 0)
  = S (length (description st) + length (rawSchema st))
  /\ (exists d, description st' = description st ++ d)
  /\ (exists r, rawSchema st' = rawSchema st ++ r
                /\ hasData st' = hasData st || negb (length r =? 0)%nat).
Proof.
  unfold scanLine.
  destruct (HasPrefix line SchemaPrefix);
    [|destruct (insideSchemaBlock st)];
    cbn [description rawSchema hasData]; rewrite ?length_app; cbn [length].
  - split; [lia|]. split; [exists [] | exists []];
      rewrite ?app_nil_r, ?orb_false_r; auto.
  - split; [lia|]. split; [exists []; now rewrite app_nil_r|].
    eexists. split; [reflexivity|]. cbn. now rewrite orb_true_r.
  - split; [lia|]. split; [eexists; reflexivity|].
    exists []. rewrite app_nil_r, orb_false_r. auto.
Qed.

Lemma scan_no_delimiters (lines : list string) (st : scanState) :
  delimiters lines = [] ->
  insideSchemaBlock st = false ->
  fold_left scanLine lines st =
  {| description := description st ++ map stripComment lines;
     rawSchema := rawSchema st;
     insideSchemaBlock := false;
     hasData := hasData st |}.
Proof.
  revert st. induction lines as [|line rest IH]; intros st Hnone Hout;
    cbn [fold_left map].
  - rewrite app_nil_r. destruct st; cbn in *; now subst.
  - unfold delimiters in Hnone. cbn [filter] in Hnone.
    destruct (HasPrefix line SchemaPrefix) eqn:Hline; [discriminate|].
    rewrite IH; [| assumption | unfold scanLine; now rewrite Hline, Hout].
    unfold scanLine. rewrite Hline, Hout. cbn [description rawSchema hasData].
    now rewrite <- app_assoc.
Qed.

(** X14. Every line of a comment goes to exactly one place: it is a
    delimiter line, or it is added to the description, or to the
    annotation text; what was collected before stays in front; and the
    data mark is set by the lines added to the annotation text, not by
    the delimiters, so that a block without a line in it leaves the
    mark as it was. *)
Theorem scan_accounts_for_lines :
  forall (lines : list string) (st : scanState),
    let st' := fold_left scanLine lines st in
    length (description st') + length (rawSchema st') + length (delimiters lines)
    = length (description st) + length (rawSchema st) + length lines
    /\ (exists d, description st' = description st ++ d)
    /\ (exists r, rawSchema st' = rawSchema st ++ r
                  /\ hasData st' = hasData st || negb (length r =? 0)%nat).
Proof.
  induction lines as [|line rest IH]; intros st; cbn [fold_left].
  - cbn. split; [lia|]. split; exists []; rewrite ?app_nil_r, ?orb_false_r; auto.
  - destruct (scanLine_accounts st line) as (Hcount & (d & Hd) & (r & Hr & Hdata)).
    destruct (IH (scanLine st line)) as (Hcount' & (d' & Hd') & (r' & Hr' & Hdata')).
    cbv zeta in *. split; [| split].
    + unfold delimiters in *. cbn [filter length].
      destruct (HasPrefix line SchemaPrefix); cbn [length]; lia.
    + exists (d ++ d'). now rewrite Hd', Hd, app_assoc.
    + exists (r ++ r'). split; [now rewrite Hr', Hr, app_assoc|].
      rewrite Hdata', Hdata, length_app.
      destruct (hasData st), r, r'; reflexivity.
Qed.

Section Annotations.

Variable yaml_Unmarshal : string -> Schema -> outcome Schema.

(** X15. [GetSchemaFromComment] on a comment with an odd number of
    delimiter lines fails with the unclosed-block error whatever the
    decoder would say; on a comment without a delimiter line it decodes
    the empty text into an unmarked node and the description is every
    line, stripped, joined by line feeds. *)
Theorem GetSchemaFromComment_by_delimiters :
  forall comment : string,
    let lines := scanLines comment "" in
    (Nat.odd (length (delimiters lines)) = true ->
     GetSchemaFromComment yaml_Unmarshal comment
     = Fail (MalformedAnnotation "unclosed schema block found in comment"))
    /\ (delimiters lines = [] ->
        GetSchemaFromComment yaml_Unmarshal comment
        = (result <- yaml_Unmarshal "" Schema_zero ;;
           Done (result, Join (map stripComment lines) NL))).
Proof.
  intros comment lines. unfold GetSchemaFromComment, scanComment. fold lines.
  cbv zeta. split.
  - intros Hodd. rewrite scan_flag, Hodd. reflexivity.
  - intros Hnone. rewrite (scan_no_delimiters lines scanStart Hnone eq_refl).
    reflexivity.
Qed.

End Annotations.

Lemma scan_accounts_for_lines_witness :
  hasData (scanComment (Join ["# @schema"; "# @schema"; "# text"] NL)) = false.
Proof.
  destruct (scan_accounts_for_lines
              (scanLines (Join ["# @schema"; "# @schema"; "# text"] NL) "")
              scanStart) as (_ & _ & (r & Hr & Hdata)).
  unfold scanComment. rewrite Hdata.
  assert (Hnil : r = []) by (vm_compute in Hr; congruence).
  now rewrite Hnil.
Defined.

Lemma GetSchemaFromComment_by_delimiters_witness :
  GetSchemaFromComment sampleDecoder (Join ["# @schema"; "# type: string"] NL)
  = Fail (MalformedAnnotation "unclosed schema block found in comment")
  /\ GetSchemaFromComment sampleDecoder (Join ["# one"; "#two"] NL)
     = Done (Schema_zero, Join ["one"; "two"] NL).
Proof.
  split.
  - apply (proj1 (GetSchemaFromComment_by_delimiters
                    sampleDecoder (Join ["# @schema"; "# type: string"] NL))).
    reflexivity.
  - rewrite (proj2 (GetSchemaFromComment_by_delimiters
                      sampleDecoder (Join ["# one"; "#two"] NL)) eq_refl).
    reflexivity.
Defined.

(** ** Extension keys of an annotation *)

Lemma pair_induction (P : list Node -> Prop) :
  P [] -> (forall x, P [x]) ->
  (forall k v rest, P rest -> P (k :: v :: rest)) ->
  forall content, P content.
Proof.
  intros Hnil Hone Hstep content.
  enough (P content /\ forall x, P (x :: content)) by tauto.
  induction content as [|y rest [IH IH']]; split; auto.
Qed.

Lemma jset_keys (key : string) (v : json) (members : list (string * json)) :
  forall k, In k (map fst (jset key v members)) <-> k = key \/ In k (map fst members).
Proof.
  intros k. induction members as [|[k' v'] rest IH]; cbn [jset map fst In].
  - intuition.
  - destruct (String.eqb_spec k' key) as [->|Hne]; cbn [map fst In].
    + intuition.
    + rewrite IH. intuition.
Qed.

Lemma jset_NoDup (key : string) (v : json) (members : list (string * json)) :
  NoDup (map fst members) -> NoDup (map fst (jset key v members)).
Proof.
  induction members as [|[k' v'] rest IH]; cbn [jset map fst]; intros Hnodup.
  - repeat constructor. intros [].
  - apply NoDup_cons_iff in Hnodup as [Hfresh Hnodup].
    destruct (String.eqb_spec k' key) as [->|Hne]; cbn [map fst].
    + now constructor.
    + constructor; [|auto]. rewrite jset_keys. intros [Heq|Hin]; congruence.
Qed.

Lemma jset_members (key : string) (v : json) (members : list (string * json)) :
  forall k j, In (k, j) (jset key v members) -> (k, j) = (key, v) \/ In (k, j) members.
Proof.
  intros k j. induction members as [|[k' v'] rest IH]; cbn [jset In].
  - intuition.
  - destruct (String.eqb_spec k' key) as [->|Hne]; cbn [In]; intuition.
Qed.

(** No tag of the struct begins with the extension prefix. *)
Lemma getJsonKeys_no_extension (key : string) :
  Contains getJsonKeys key = true -> HasPrefix key CustomAnnotationPrefix = false.
Proof.
  intros Hknown. apply Contains_true_iff in Hknown.
  unfold getJsonKeys in Hknown. cbn [In] in Hknown.
  repeat (destruct Hknown as [<-|Hknown]; [reflexivity|]). contradiction.
Qed.

Section DecodingProperties.

Variable Node_Decode_fields : Node -> Schema -> outcome Schema.
Variable Node_Decode_any : Node -> outcome json.

Lemma captureCustomAnnotations_keys (content : list Node) :
  forall custom custom',
    captureCustomAnnotations Node_Decode_any content custom = Done custom' ->
    (NoDup (map fst custom) -> NoDup (map fst custom'))
    /\ (forall key,
           In key (map fst custom') <->
           In key (map fst custom)
           \/ (HasPrefix key CustomAnnotationPrefix = true
               /\ exists k v, In (k, v) (pairsOf content) /\ Value k = key))
    /\ (forall key j,
           In (key, j) custom' ->
           In (key, j) custom
           \/ exists k v, In (k, v) (pairsOf content) /\ Value k = key
                          /\ Node_Decode_any v = Done j).
Proof.
  induction content as [| x | k v rest IH] using pair_induction;
    intros custom custom'.
  - cbn. intros [= <-]. split; [auto|]. split; [|auto].
    intros key. split; [auto | intros [H|(_ & ? & ? & [] & _)]; exact H].
  - cbn. intros [= <-]. split; [auto|]. split; [|auto].
    intros key. split; [auto | intros [H|(_ & ? & ? & [] & _)]; exact H].
  - cbn [captureCustomAnnotations pairsOf].
    destruct (Contains getJsonKeys (Value k)) eqn:Hknown;
      [| destruct (HasPrefix (Value k) CustomAnnotationPrefix) eqn:Hprefix;
         cbn [negb] ].
    + apply getJsonKeys_no_extension in Hknown.
      intros Hrest. destruct (IH _ _ Hrest) as (Hnodup & Hkeys & Hvalues).
      split; [assumption|]. split.
      * intros key. rewrite Hkeys. split.
        -- intros [H|(Hp & k' & v' & Hin & Hk)]; [now left|].
           right. split; [assumption|]. exists k', v'. split; [now right | assumption].
        -- intros [H|(Hp & k' & v' & [Hin|Hin] & Hk)]; [now left | |].
           ++ inversion Hin; subst. congruence.
           ++ right. split; [assumption|]. now exists k', v'.
      * intros key j Hin. destruct (Hvalues key j Hin) as [H|(k' & v' & Hp & Hk)];
          [now left|].
        right. exists k', v'. split; [now right | assumption].
    + destruct (Node_Decode_any v) as [value|e|e|] eqn:Hvalue; cbn [bind];
        try discriminate.
      intros Hrest. destruct (IH _ _ Hrest) as (Hnodup & Hkeys & Hvalues).
      split; [intros H; now apply Hnodup, jset_NoDup|]. split.
      * intros key. rewrite Hkeys, jset_keys. split.
        -- intros [[->|H]|(Hp & k' & v' & Hin & Hk)].
           ++ right. split; [assumption|]. exists k, v. split; [now left | reflexivity].
           ++ now left.
           ++ right. split; [assumption|]. exists k', v'. split; [now right | assumption].
        -- intros [H|(Hp & k' & v' & [Hin|Hin] & Hk)].
           ++ left. now right.
           ++ inversion Hin; subst. left. now left.
           ++ right. split; [assumption|]. now exists k', v'.
      * intros key j Hin. destruct (Hvalues key j Hin) as [H|(k' & v' & Hp & Hk)].
        -- apply jset_members in H as [Heq|H]; [|now left].
           inversion Heq; subst. right. exists k, v. split; [now left | auto].
        -- right. exists k', v'. split; [now right | assumption].
    + intros Hrest. destruct (IH _ _ Hrest) as (Hnodup & Hkeys & Hvalues).
      split; [assumption|]. split.
      * intros key. rewrite Hkeys. split.
        -- intros [H|(Hp & k' & v' & Hin & Hk)]; [now left|].
           right. split; [assumption|]. exists k', v'. split; [now right | assumption].
        -- intros [H|(Hp & k' & v' & [Hin|Hin] & Hk)]; [now left | |].
           ++ inversion Hin; subst. congruence.
           ++ right. split; [assumption|]. now exists k', v'.
      * intros key j Hin. destruct (Hvalues key j Hin) as [H|(k' & v' & Hp & Hk)];
          [now left|].
        right. exists k', v'. split; [now right | assumption].
Qed.

(** X16. What [Schema.UnmarshalYAML] leaves in the extension map when it
    succeeds: one entry for each key of the node that begins with the
    extension prefix and no other (the test against the struct tags
    never decides, no tag begins with the prefix; entries the receiver
    had are dropped), each with the decoded value of a node under that
    key; the declared fields are those of the decoded alias.  When it
    fails the receiver is as it was. *)
Theorem Schema_UnmarshalYAML_extensions :
  forall (s : Schema) (node : Node),
    let result := Schema_UnmarshalYAML Node_Decode_fields Node_Decode_any s node in
    (snd result = None ->
     NoDup (map fst (CustomAnnotations (fst result)))
     /\ (forall key,
            In key (map fst (CustomAnnotations (fst result))) <->
            HasPrefix key CustomAnnotationPrefix = true
            /\ exists k v, In (k, v) (pairsOf (Content node)) /\ Value k = key)
     /\ (forall key j,
            In (key, j) (CustomAnnotations (fst result)) ->
            exists k v, In (k, v) (pairsOf (Content node)) /\ Value k = key
                        /\ Node_Decode_any v = Done j)
     /\ exists alias,
         Node_Decode_fields node s = Done alias
         /\ fst result = set_CustomAnnotations (CustomAnnotations (fst result)) alias)
    /\ (snd result <> None -> fst result = s).
Proof.
  intros s node. unfold Schema_UnmarshalYAML. cbv zeta.
  destruct (Node_Decode_fields node s) as [alias|e|e|];
    try (split; [discriminate | reflexivity]).
  destruct (captureCustomAnnotations Node_Decode_any (Content node) [])
    as [custom|e|e|] eqn:Hcapture;
    try (split; [discriminate | reflexivity]).
  cbn [fst snd]. split; [intros _ | congruence].
  destruct (captureCustomAnnotations_keys _ _ Hcapture) as (Hnodup & Hkeys & Hvalues).
  assert (Hcustom : CustomAnnotations (set_CustomAnnotations custom alias) = custom)
    by reflexivity.
  rewrite Hcustom. split; [apply Hnodup; constructor|]. split; [|split].
  - intros key. rewrite Hkeys. cbn [map In]. tauto.
  - intros key j Hin. destruct (Hvalues key j Hin) as [[]|H]. exact H.
  - exists alias. split; reflexivity.
Qed.

End DecodingProperties.

Lemma Schema_UnmarshalYAML_extensions_witness :
  NoDup (map fst (CustomAnnotations
                    (fst (Schema_UnmarshalYAML
                            (fun _ s => Done s) (fun v => Done (JString (Value v)))
                            Schema_zero
                            (mappingOf [scalarOf strTag "x-note"; scalarOf strTag "n";
                                        scalarOf strTag "title"; scalarOf strTag "t"]))))).
Proof.
  exact (proj1 (proj1 (Schema_UnmarshalYAML_extensions
                         (fun _ s => Done s) (fun v => Done (JString (Value v)))
                         Schema_zero
                         (mappingOf [scalarOf strTag "x-note"; scalarOf strTag "n";
                                     scalarOf strTag "title"; scalarOf strTag "t"]))
                      eq_refl)).
Defined.

(** ** The steps of the synthesis of one key *)

(** Takes the boolean tests among the hypotheses apart. *)
Ltac bool_facts :=
  repeat match goal with
         | H : _ && _ = true |- _ => apply andb_true_iff in H; destruct H
         | H : _ && _ = false |- _ => apply andb_false_iff in H; destruct H
         | H : _ || _ = true |- _ => apply orb_true_iff in H; destruct H
         | H : _ || _ = false |- _ => apply orb_false_iff in H; destruct H
         | H : negb _ = true |- _ => apply negb_true_iff in H
         | H : negb _ = false |- _ => apply negb_false_iff in H
         | H : String.eqb _ _ = true |- _ => apply String.eqb_eq in H
         | H : String.eqb _ _ = false |- _ => apply String.eqb_neq in H
         end.

Section Casting.

Variable Atoi : string -> option Z.
Variable ParseFloat : string -> option float64.

(** X17. The default [castNodeValueByType] gives for a scalar is the
    text itself, or its value under one of the types of the node that
    the text fits: a boolean only for "true" and "false", an integer or
    a number only when the parser accepts the text; a node with none of
    these three types always gets the text. *)
Theorem castNodeValueByType_result :
  forall (rawValue : string) (fieldType : StringOrArrayOfString),
    let value := castNodeValueByType Atoi ParseFloat rawValue fieldType in
    (value = JString rawValue
     \/ (In "boolean" (elems fieldType)
         /\ (rawValue = "true" /\ value = JBool true
             \/ rawValue = "false" /\ value = JBool false))
     \/ (In "integer" (elems fieldType)
         /\ exists v, Atoi rawValue = Some v /\ value = JInt v)
     \/ (In "number" (elems fieldType)
         /\ exists v, ParseFloat rawValue = Some v /\ value = JFloat v))
    /\ ((forall t, In t (elems fieldType) ->
                   t <> "boolean" /\ t <> "integer" /\ t <> "number") ->
        value = JString rawValue).
Proof.
  intros rawValue fieldType. unfold castNodeValueByType. cbv zeta.
  induction (elems fieldType) as [|t rest [IHshape IHnone]]; cbn [In].
  - split; [now left | reflexivity].
  - assert (Hlater :
              forall value,
                (value = JString rawValue
                 \/ (In "boolean" rest
                     /\ (rawValue = "true" /\ value = JBool true
                         \/ rawValue = "false" /\ value = JBool false))
                 \/ (In "integer" rest
                     /\ exists v, Atoi rawValue = Some v /\ value = JInt v)
                 \/ (In "number" rest
                     /\ exists v, ParseFloat rawValue = Some v /\ value = JFloat v)) ->
                value = JString rawValue
                \/ ((t = "boolean" \/ In "boolean" rest)
                    /\ (rawValue = "true" /\ value = JBool true
                        \/ rawValue = "false" /\ value = JBool false))
                \/ ((t = "integer" \/ In "integer" rest)
                    /\ exists v, Atoi rawValue = Some v /\ value = JInt v)
                \/ ((t = "number" \/ In "number" rest)
                    /\ exists v, ParseFloat rawValue = Some v /\ value = JFloat v))
      by (intros value; tauto).
    split.
    + destruct (String.eqb_spec t "boolean") as [->|Hbool].
      { destruct (String.eqb_spec rawValue "true") as [->|Htrue];
          [right; left; split; [now left | now left]|].
        destruct (String.eqb_spec rawValue "false") as [->|Hfalse];
          [right; left; split; [now left | now right]|].
        apply Hlater, IHshape. }
      destruct (String.eqb_spec t "integer") as [->|Hint].
      { destruct (Atoi rawValue) as [v|] eqn:Hv; [|apply Hlater, IHshape].
        right; right; left. split; [now left | now exists v]. }
      destruct (String.eqb_spec t "number") as [->|Hnum].
      { destruct (ParseFloat rawValue) as [v|] eqn:Hv; [|apply Hlater, IHshape].
        right; right; right. split; [now left | now exists v]. }
      apply Hlater, IHshape.
    + intros Hnone. destruct (Hnone t (or_introl eq_refl)) as (Hb & Hi & Hn).
      apply String.eqb_neq in Hb, Hi, Hn. rewrite Hb, Hi, Hn.
      apply IHnone. intros t' Hin. apply Hnone. now right.
Qed.

End Casting.

Section SynthesisSteps.

Variable yaml_Unmarshal : string -> Schema -> outcome Schema.
Variable json_Unmarshal : string -> outcome json.
Variable json_Unmarshal_Schema : json -> outcome Schema.
Variable AddResource : json -> option error.
Variable leadingCommentsRemover : string -> string.
Variable helmDocsTagsRemover : string -> string.
Variable prefixRemover : string -> string.
Variable helm_ParseComment : list string -> helm.ChartValueDescription.
Variable relativeTo : string -> string -> string.
Variable fileExists : string -> bool.
Variable readFile : string -> outcome string.
Variable jsonpointer_Get : json -> string -> outcome json.
Variable Atoi : string -> option Z.
Variable ParseFloat : string -> option float64.
Variable valuesPath : string.
Variable keepFullComment : bool.
Variable helmDocsCompatibilityMode : bool.
Variable dontRemoveHelmDocsPrefix : bool.
Variable skipAutoGeneration : Skip.SkipAutoGenerationConfig.

Local Abbreviation synthesize :=
  (YamlToSchema yaml_Unmarshal json_Unmarshal json_Unmarshal_Schema AddResource
     leadingCommentsRemover helmDocsTagsRemover prefixRemover helm_ParseComment
     relativeTo fileExists readFile jsonpointer_Get Atoi ParseFloat valuesPath
     keepFullComment helmDocsCompatibilityMode dontRemoveHelmDocsPrefix
     skipAutoGeneration).

Local Abbreviation entries :=
  (mappingEntries yaml_Unmarshal json_Unmarshal json_Unmarshal_Schema AddResource
     leadingCommentsRemover helmDocsTagsRemover prefixRemover helm_ParseComment
     relativeTo fileExists readFile jsonpointer_Get Atoi ParseFloat valuesPath
     keepFullComment helmDocsCompatibilityMode dontRemoveHelmDocsPrefix
     skipAutoGeneration).

Local Abbreviation entry :=
  (mappingEntry yaml_Unmarshal json_Unmarshal json_Unmarshal_Schema AddResource
     leadingCommentsRemover helmDocsTagsRemover prefixRemover helm_ParseComment
     relativeTo fileExists readFile jsonpointer_Get Atoi ParseFloat valuesPath
     keepFullComment helmDocsCompatibilityMode dontRemoveHelmDocsPrefix
     skipAutoGeneration).

Local Abbreviation resolve :=
  (resolveRef json_Unmarshal json_Unmarshal_Schema relativeTo fileExists readFile
     jsonpointer_Get valuesPath).

Local Abbreviation cast := (castNodeValueByType Atoi ParseFloat).
Local Abbreviation defaults := (fillDefaults Atoi ParseFloat skipAutoGeneration).

Local Abbreviation itemCalls :=
  (itemsOf yaml_Unmarshal json_Unmarshal json_Unmarshal_Schema AddResource
     leadingCommentsRemover helmDocsTagsRemover prefixRemover helm_ParseComment
     relativeTo fileExists readFile jsonpointer_Get Atoi ParseFloat valuesPath
     keepFullComment helmDocsCompatibilityMode dontRemoveHelmDocsPrefix
     skipAutoGeneration).


(** X19. A reference into the document itself is left alone.  When the
    file of a reference is found, what the annotation said is replaced
    by what the file gives: the result depends on the annotation only
    through its reference and is marked as data; nothing that goes wrong
    from there on comes back as an error value, the process ends. *)
Theorem resolveRef_replaces_annotation :
  forall s : Schema,
    (HasPrefix (Ref s) "#" = true -> resolve s = Done s)
    /\ (forall relFilePath,
           Ref s <> "" ->
           HasPrefix (Ref s) "#" = false ->
           IsRelativeFile relativeTo fileExists valuesPath
                          (hd "" (Split (Ref s) "#"%char)) = Done relFilePath ->
           (forall s', Ref s' = Ref s -> resolve s' = resolve s)
           /\ (forall r, resolve s = Done r -> HasData r = true)
           /\ (forall e, resolve s <> Fail e)).
Proof.
  intros s. split.
  - intros Hlocal. unfold resolveRef. rewrite Hlocal. now destruct (negb _).
  - intros relFilePath Href Hlocal Hfile. apply String.eqb_neq in Href.
    split; [| split].
    + intros s' Hsame. unfold resolveRef. rewrite Hsame, Href, Hlocal, Hfile.
      reflexivity.
    + intros r. unfold resolveRef. rewrite Href, Hlocal, Hfile. cbn [negb].
      intros H. apply bind_Done in H as (byteValue & _ & H).
      apply bind_Done in H as (relSchema & _ & [= <-]). reflexivity.
    + intros e. unfold resolveRef. rewrite Href, Hlocal, Hfile. cbn [negb].
      destruct (readFile relFilePath) as [byteValue|e'|e'|]; cbn [orFatal bind];
        try discriminate.
      destruct (Split (Ref s) "#"%char) as [|file [|pointer more]].
      * destruct (json_Unmarshal byteValue) as [doc|?|?|]; cbn [orFatal bind];
          try discriminate.
        destruct (json_Unmarshal_Schema doc); cbn [orFatal bind]; discriminate.
      * destruct (json_Unmarshal byteValue) as [doc|?|?|]; cbn [orFatal bind];
          try discriminate.
        destruct (json_Unmarshal_Schema doc); cbn [orFatal bind]; discriminate.
      * destruct (jsonpointer_Get _ pointer) as [raw|?|?|]; cbn [orFatal bind];
          try discriminate.
        destruct (json_ok raw); cbn [bind]; [|discriminate].
        destruct (json_Unmarshal_Schema raw); cbn [orFatal bind]; discriminate.
Qed.

Lemma addToParent_names (keyNode : Node) (s : Schema) (parent : slice string) :
  forall name,
    In name (elems (addToParent skipAutoGeneration keyNode s parent)) <->
    In name (elems parent)
    \/ (name = Value keyNode
        /\ (Bool (Required s) = true
            \/ (len (Strings (Required s)) = 0
                /\ Skip.Required skipAutoGeneration = false
                /\ HasData s = false))).
Proof.
  intros name. unfold addToParent.
  destruct (Bool (Required s)
            || (len (Strings (Required s)) =? 0)%nat
               && negb (Skip.Required skipAutoGeneration) && negb (HasData s))
    eqn:Hwanted.
  - assert (Hwhy : Bool (Required s) = true
                   \/ (len (Strings (Required s)) = 0
                       /\ Skip.Required skipAutoGeneration = false
                       /\ HasData s = false)).
    { bool_facts; [now left | right]. apply Nat.eqb_eq in H. auto. }
    destruct (Contains (elems parent) (Value keyNode)) eqn:Hc; cbn [negb].
    + apply Contains_true_iff in Hc. split; [now left|].
      intros [H|[-> _]]; assumption.
    + rewrite elems_append, in_app_iff. cbn [In]. split.
      * intros [H|[<-|[]]]; [now left | right; auto].
      * intros [H|[-> _]]; auto.
  - split; [now left|]. intros [H|[_ Hwhy]]; [assumption|]. exfalso.
    bool_facts; destruct Hwhy as [Hflag|(Hlen & Hskip & Hdata)]; try congruence.
    apply Nat.eqb_neq in H0. contradiction.
Qed.


Lemma mappingEntry_stores (keyNode target : Node) (synthValue : synthesis)
      (items : list (Node * synthesis)) (st st' : Schema * slice string) :
  entry keyNode target synthValue items st = Done st' ->
  exists stored, fst st' = setProperty (Value keyNode) stored (fst st).
Proof.
  unfold mappingEntry. intros H.
  apply bind_Done in H as (parsed & _ & H).
  apply bind_Done in H as (resolved & _ & H).
  apply bind_Done in H as (checked & _ & H).
  destruct (String.eqb (Ref checked) "").
  - apply bind_Done in H as (descended & _ & [= <-]). now exists descended.
  - injection H as <-. now exists checked.
Qed.

Lemma mappingEntry_lists (keyNode target : Node) (synthValue : synthesis)
      (items : list (Node * synthesis)) (st st' : Schema * slice string) :
  entry keyNode target synthValue items st = Done st' ->
  forall name, In name (elems (snd st')) ->
               In name (elems (snd st)) \/ name = Value keyNode.
Proof.
  intros H name.
  apply mappingEntry_parent in H as (ann & resolved & checked & _ & _ & _ & ->).
  destruct (String.eqb (Ref checked) ""); [|now left].
  rewrite addToParent_names. tauto.
Qed.

Lemma assign_keys {A : Type} (key : string) (v : A) (m : list (string * A)) :
  forall k, In k (map fst (assign key v m)) <-> k = key \/ In k (map fst m).
Proof.
  intros k. induction m as [|[k' v'] rest IH]; cbn [assign map fst In].
  - intuition.
  - destruct (String.eqb_spec k' key) as [->|Hne]; cbn [map fst In].
    + intuition.
    + rewrite IH. intuition.
Qed.

Lemma assign_NoDup {A : Type} (key : string) (v : A) (m : list (string * A)) :
  NoDup (map fst m) -> NoDup (map fst (assign key v m)).
Proof.
  induction m as [|[k' v'] rest IH]; cbn [assign map fst]; intros Hnodup.
  - repeat constructor. intros [].
  - apply NoDup_cons_iff in Hnodup as [Hfresh Hnodup].
    destruct (String.eqb_spec k' key) as [->|Hne]; cbn [map fst].
    + now constructor.
    + constructor; [|auto]. rewrite assign_keys. intros [Heq|Hin]; congruence.
Qed.

Lemma set_Properties_same (s : Schema) : s = set_Properties (Properties s) s.
Proof. now destruct s. Qed.

Lemma mappingEntries_shape (content : list Node) :
  forall st st',
    entries content st = Done st' ->
    fst st' = set_Properties (Properties (fst st')) (fst st)
    /\ (NoDup (propertyNames (fst st)) -> NoDup (propertyNames (fst st')))
    /\ (forall name,
           In name (propertyNames (fst st')) <->
           In name (propertyNames (fst st))
           \/ exists k v, In (k, v) (pairsOf content) /\ Value k = name)
    /\ (forall name,
           In name (elems (snd st')) ->
           In name (elems (snd st))
           \/ exists k v, In (k, v) (pairsOf content) /\ Value k = name)
    /\ Nat.even (length content) = true.
Proof.
  induction content as [| x | keyNode valueNode rest IH] using pair_induction;
    intros st st' H.
  - injection H as <-. split; [apply set_Properties_same|].
    split; [auto|]. split; [|split; [auto | reflexivity]].
    intros name. split; [auto | intros [Hin|(? & ? & [] & _)]; exact Hin].
  - discriminate.
  - rewrite mappingEntries_step in H.
    destruct (aliasTarget valueNode) as [target|]; [|discriminate].
    apply bind_Done in H as (mid & Hentry & Hrest).
    destruct (IH _ _ Hrest) as (Hsame & Hnodup & Hnames & Hparent & Heven).
    destruct (mappingEntry_stores _ _ _ _ _ Hentry) as (stored & Hmid).
    pose proof (mappingEntry_lists _ _ _ _ _ Hentry) as Hlist.
    assert (Hmidnames : forall name,
               In name (propertyNames (fst mid)) <->
               name = Value keyNode \/ In name (propertyNames (fst st))).
    { intros name. rewrite Hmid. unfold propertyNames at 1, setProperty.
      read_fields. rewrite assign_keys. unfold propertyNames.
      now destruct (Properties (fst st)). }
    split; [| split; [| split; [| split]]].
    + etransitivity; [exact Hsame|]. rewrite Hmid. reflexivity.
    + intros Hst. apply Hnodup. rewrite Hmid. unfold propertyNames, setProperty.
      read_fields. apply assign_NoDup. unfold propertyNames in Hst.
      destruct (Properties (fst st)); [assumption | constructor].
    + intros name. rewrite Hnames, Hmidnames. cbn [pairsOf In]. split.
      * intros [[->|Hin]|(k & v & Hin & Hk)].
        -- right. exists keyNode, valueNode. split; [now left | reflexivity].
        -- now left.
        -- right. exists k, v. split; [now right | assumption].
      * intros [Hin|(k & v & [Heq|Hin] & Hk)].
        -- left. now right.
        -- inversion Heq; subst. left. now left.
        -- right. now exists k, v.
    + intros name Hin. cbn [pairsOf In].
      destruct (Hparent name Hin) as [Hmidin|(k & v & Hkv & Hk)].
      * destruct (Hlist name Hmidin) as [Hst| ->]; [now left|].
        right. exists keyNode, valueNode. split; [now left | reflexivity].
      * right. exists k, v. split; [now right | assumption].
    + cbn [length]. exact Heven.
Qed.

(** X21. The schema of a mapping: the object node with one property for
    each key, under the value of the key, no name twice; the names
    added to the list of the parent are names of keys; and the mapping
    had a value for every key. *)
Theorem YamlToSchema_mapping_shape :
  forall (node : Node) (parent parent' : slice string) (result : Schema),
    Kind node = MappingNode ->
    synthesize node parent = Done (result, parent') ->
    result = set_Properties (Properties result) (NewSchema "object")
    /\ NoDup (propertyNames result)
    /\ (forall name,
           In name (propertyNames result) <->
           exists k v, In (k, v) (pairsOf (Content node)) /\ Value k = name)
    /\ (forall name,
           In name (elems parent') ->
           In name (elems parent) \/ In name (propertyNames result))
    /\ Nat.even (length (Content node)) = true.
Proof.
  intros node parent parent' result Hkind Hsynth.
  rewrite YamlToSchema_mapping in Hsynth by assumption.
  destruct (mappingEntries_shape _ _ Hsynth)
    as (Hsame & Hnodup & Hnames & Hparent & Heven).
  cbn [fst snd] in *. split; [assumption|].
  split; [apply Hnodup; constructor|].
  assert (Hkeys : forall name,
             In name (propertyNames result) <->
             exists k v, In (k, v) (pairsOf (Content node)) /\ Value k = name).
  { intros name. rewrite Hnames. cbn. tauto. }
  split; [assumption|]. split; [|assumption].
  intros name Hin. rewrite Hkeys. apply Hparent, Hin.
Qed.

(** X22. The schema of a document is the object node with the draft
    identifier, the properties of its one child and, as its required
    list, the list the child filled, starting empty; the list of the
    caller is not touched.  A document without exactly one child ends
    the process.  A scalar, a sequence or an alias on its own gives the
    bare object node. *)
Theorem YamlToSchema_document_and_leaves :
  forall (node : Node) (parent : slice string),
    (Kind node = DocumentNode ->
     forall result parent',
       synthesize node parent = Done (result, parent') ->
       parent' = parent
       /\ exists child r,
           Content node = [child]
           /\ synthesize child (Some []) = Done r
           /\ Properties result = Properties (fst r)
           /\ Required result = {| Strings := snd r; Bool := false |}
           /\ Type_ result = Some ["object"]
           /\ Schema_ result = "http://json-schema.org/draft-07/schema#"
           /\ AdditionalProperties result
              = if Skip.AdditionalProperties skipAutoGeneration
                then SOB_nil else SOB_boolptr false)
    /\ (Kind node = DocumentNode -> length (Content node) <> 1 ->
        synthesize node parent = Fatal (ExternalError "Strange yaml document found"))
    /\ (Kind node = ScalarNode \/ Kind node = SequenceNode \/ Kind node = AliasNode ->
        synthesize node parent = Done (NewSchema "object", parent)).
Proof.
  intros [kind tag value hc content al] parent. cbn [Kind Content].
  split; [| split].
  - intros -> result parent'. cbn [YamlToSchema Kind Content].
    destruct content as [|child [|more rest]]; try discriminate.
    intros H. apply bind_Done in H as (r & Hchild & [= <- <-]).
    split; [reflexivity|]. exists child, r.
    split; [reflexivity|]. split; [exact Hchild|].
    destruct (Skip.AdditionalProperties skipAutoGeneration); repeat split.
  - intros -> Hlen. cbn [YamlToSchema Kind Content].
    destruct content as [|child [|more rest]]; try reflexivity.
    cbn in Hlen. congruence.
  - intros [->|[->| ->]]; reflexivity.
Qed.



End SynthesisSteps.

Lemma castNodeValueByType_result_witness :
  castNodeValueByType sampleAtoi (fun _ => None) "1" (Some ["string"]) = JString "1".
Proof.
  apply (proj2 (@castNodeValueByType_result sampleAtoi (fun _ => None)
                  "1" (Some ["string"]))).
  intros t [<-|[]]. repeat split; discriminate.
Defined.


Lemma resolveRef_replaces_annotation_witness :
  resolveRef (fun _ => Fail UnsupportedValue) (fun _ => Fail UnsupportedValue)
             (fun _ rel => rel) (fun _ => false) (fun _ => Fail UnsupportedValue)
             (fun _ _ => Fail UnsupportedValue) "values.yaml"
             (set_Ref "#/definitions/a" Schema_zero)
  = Done (set_Ref "#/definitions/a" Schema_zero).
Proof.
  apply (proj1 (@resolveRef_replaces_annotation
                  (fun _ => Fail UnsupportedValue) (fun _ => Fail UnsupportedValue)
                  (fun _ rel => rel) (fun _ => false) (fun _ => Fail UnsupportedValue)
                  (fun _ _ => Fail UnsupportedValue) "values.yaml"
                  (set_Ref "#/definitions/a" Schema_zero))).
  reflexivity.
Defined.


Lemma YamlToSchema_mapping_shape_witness :
  exists result parent',
    sampleSynthesis (mappingOf [commented "a" ""; scalarOf strTag "v";
                                commented "b" ""; scalarOf intTag "1"]) None
    = Done (result, parent')
    /\ NoDup (propertyNames result).
Proof.
  eexists. eexists. split; [reflexivity|].
  refine (proj1 (proj2 (@YamlToSchema_mapping_shape
            sampleDecoder (fun _ => Fail UnsupportedValue)
            (fun _ => Fail UnsupportedValue) loadsOnly
            (fun c => c) (fun c => c) (fun c => c) noHelmDocs
            (fun _ rel => rel) (fun _ => false) (fun _ => Fail UnsupportedValue)
            (fun _ _ => Fail UnsupportedValue) sampleAtoi (fun _ => None)
            "values.yaml" true false true skipNothing
            (mappingOf [commented "a" ""; scalarOf strTag "v";
                        commented "b" ""; scalarOf intTag "1"])
            None _ _ eq_refl eq_refl))).
Defined.

Lemma YamlToSchema_document_and_leaves_witness :
  sampleSynthesis (scalarOf strTag "v") (Some ["p"])
  = Done (NewSchema "object", Some ["p"]).
Proof.
  apply (proj2 (proj2 (@YamlToSchema_document_and_leaves
            sampleDecoder (fun _ => Fail UnsupportedValue)
            (fun _ => Fail UnsupportedValue) loadsOnly
            (fun c => c) (fun c => c) (fun c => c) noHelmDocs
            (fun _ rel => rel) (fun _ => false) (fun _ => Fail UnsupportedValue)
            (fun _ _ => Fail UnsupportedValue) sampleAtoi (fun _ => None)
            "values.yaml" true false true skipNothing
            (scalarOf strTag "v") (Some ["p"])))).
  left. reflexivity.
Defined.


(** ** Annotation data and the inferred type *)

Section Checking.

Variable AddResource : json -> option error.
Variable helm_ParseComment : list string -> helm.ChartValueDescription.

Lemma typeFromTag_recognized (tag : string) (nodeType : list string) :
  typeFromTag tag = Done nodeType ->
  In tag supportedTags
  /\ exists t, nodeType = [t] /\ StringOrArrayOfString_.Validate (Some [t]) = None.
Proof.
  unfold typeFromTag, supportedTags.
  repeat match goal with
         | |- context [String.eqb tag ?known] =>
             destruct (String.eqb_spec tag known) as [->|_];
             [intros [= <-]; split; [cbn; tauto | eexists; split; reflexivity]|]
         end.
  discriminate.
Qed.

(** X24. A schema that leaves [validateOrInfer] has only type names the
    validator knows: one with annotation data is returned as it is once
    [Validate] has passed it, and its type is not inferred; one without
    gets the single type of the tag of the value, in place of whatever
    type it had.  A failure ends the process, it is never an error
    value. *)
Theorem validateOrInfer_result :
  forall (valueNode : Node) (s : Schema),
    (forall checked,
        validateOrInfer AddResource valueNode s = Done checked ->
        StringOrArrayOfString_.Validate (Type_ checked) = None
        /\ HasData checked = HasData s
        /\ (HasData s = true -> checked = s /\ Validate AddResource s = None)
        /\ (HasData s = false ->
            In (Tag valueNode) supportedTags
            /\ exists t, typeFromTag (Tag valueNode) = Done [t]
                         /\ checked = set_Type_ (Some [t]) s))
    /\ (forall e, validateOrInfer AddResource valueNode s <> Fail e).
Proof.
  intros valueNode s. unfold validateOrInfer. split.
  - intros checked. destruct (HasData s) eqn:Hdata.
    + destruct (Validate AddResource s) eqn:Hvalid; [discriminate|].
      intros [= <-]. split; [| split; [assumption | split; [auto | discriminate]]].
      rewrite Validate_eq in Hvalid.
      destruct (ToJson s) as [jsonStr| | |]; try discriminate.
      destruct (AddResource jsonStr); [discriminate|].
      apply invariantChecks_None in Hvalid as [_ Hwell]. exact (proj1 Hwell).
    + intros H. apply bind_Done in H as (nodeType & Htype & [= <-]).
      apply orFatal_Done in Htype.
      destruct (typeFromTag_recognized _ Htype) as (Hin & t & -> & Hvalid).
      split; [exact Hvalid|]. split; [exact Hdata|].
      split; [discriminate|]. intros _. split; [exact Hin|]. now exists t.
  - intros e. destruct (HasData s).
    + destruct (Validate AddResource s); discriminate.
    + destruct (typeFromTag (Tag valueNode)); cbn [orFatal bind]; discriminate.
Qed.

(** X25. The compatibility block: when helm-docs finds nothing in the
    comment the annotation is as it was; a default or a description it
    finds replaces the one of the annotation and marks the node as
    having data, so that no type is inferred for it afterwards; a type
    it finds is set when the table translates it and ignored when it
    does not.  The required list and flag and the reference stay. *)
Theorem applyHelmDocs_overrides :
  forall (keyNode : Node) (s : Schema),
    let found := helm_ParseComment (Split (HeadComment keyNode) LF) in
    let overridden := applyHelmDocs helm_ParseComment keyNode s in
    (helm.Default found = "" -> helm.Description found = "" ->
     helm.ValueType found = "" -> overridden = s)
    /\ (helm.Default found <> "" ->
        Default overridden = Some (JString (helm.Default found)))
    /\ (helm.Description found <> "" ->
        Description overridden = helm.Description found)
    /\ (forall t, helm.ValueType found <> "" ->
                  helmDocsTypeToSchemaType (helm.ValueType found) = Done t ->
                  Type_ overridden = Some [t] /\ HasData overridden = true)
    /\ (forall e, helmDocsTypeToSchemaType (helm.ValueType found) = Fail e ->
                  Type_ overridden = Type_ s)
    /\ (helm.Default found <> "" \/ helm.Description found <> "" ->
        HasData overridden = true
        /\ forall valueNode checked,
            validateOrInfer AddResource valueNode overridden = Done checked ->
            checked = overridden)
    /\ Required overridden = Required s
    /\ Ref overridden = Ref s.
Proof.
  intros keyNode s found overridden. subst overridden. unfold applyHelmDocs.
  cbv zeta. fold found.
  assert (Hchecked : forall t : Schema,
             HasData t = true ->
             forall valueNode checked,
               validateOrInfer AddResource valueNode t = Done checked ->
               checked = t).
  { intros t Hdata valueNode checked. unfold validateOrInfer. rewrite Hdata.
    destruct (Validate AddResource t); [discriminate | now intros [= <-]]. }
  destruct (String.eqb_spec (helm.Default found) "") as [Hdf|Hdf];
    destruct (String.eqb_spec (helm.Description found) "") as [Hde|Hde];
    destruct (String.eqb_spec (helm.ValueType found) "") as [Hty|Hty];
    cbn [negb];
    try (destruct (helmDocsTypeToSchemaType (helm.ValueType found)) as [t'|e'|e'|]);
    unfold Set_; read_fields;
    cbn [set_Default set_Description set_HasData set_Type_
         Default Description Type_ HasData Required Ref];
    repeat match goal with |- _ /\ _ => split end;
    try reflexivity; try congruence; try tauto;
    try (intros; congruence);
    try (intros [?|?]; congruence);
    try (intros; split; [reflexivity | apply Hchecked; reflexivity]).
  all: intros;
    match goal with H : Done _ = Done _ |- _ => injection H as <- end;
    split; reflexivity.
Qed.

End Checking.


Lemma validateOrInfer_result_witness :
  Validate loadsOnly stringWithProperty = None.
Proof.
  exact (proj2 (proj1 (proj2 (proj2
           (proj1 (@validateOrInfer_result loadsOnly (scalarOf strTag "v")
                     stringWithProperty)
                  stringWithProperty eq_refl))) eq_refl)).
Defined.

Lemma applyHelmDocs_overrides_witness :
  applyHelmDocs noHelmDocs (commented "k" "# text") Schema_zero = Schema_zero.
Proof.
  apply (proj1 (@applyHelmDocs_overrides loadsOnly noHelmDocs
                  (commented "k" "# text") Schema_zero));
    reflexivity.
Defined.

(** ** The required list of a synthesized document *)

Section WholeDocument.

Variable yaml_Unmarshal : string -> Schema -> outcome Schema.
Variable json_Unmarshal : string -> outcome json.
Variable json_Unmarshal_Schema : json -> outcome Schema.
Variable AddResource : json -> option error.
Variable leadingCommentsRemover : string -> string.
Variable helmDocsTagsRemover : string -> string.
Variable prefixRemover : string -> string.
Variable helm_ParseComment : list string -> helm.ChartValueDescription.
Variable relativeTo : string -> string -> string.
Variable fileExists : string -> bool.
Variable readFile : string -> outcome string.
Variable jsonpointer_Get : json -> string -> outcome json.
Variable Atoi : string -> option Z.
Variable ParseFloat : string -> option float64.
Variable valuesPath : string.
Variable keepFullComment : bool.
Variable helmDocsCompatibilityMode : bool.
Variable dontRemoveHelmDocsPrefix : bool.
Variable skipAutoGeneration : Skip.SkipAutoGenerationConfig.

Local Abbreviation synthesize :=
  (YamlToSchema yaml_Unmarshal json_Unmarshal json_Unmarshal_Schema AddResource
     leadingCommentsRemover helmDocsTagsRemover prefixRemover helm_ParseComment
     relativeTo fileExists readFile jsonpointer_Get Atoi ParseFloat valuesPath
     keepFullComment helmDocsCompatibilityMode dontRemoveHelmDocsPrefix
     skipAutoGeneration).

Lemma YamlToSchema_from_empty (node : Node) (r : Schema * slice string) :
  synthesize node (Some []) = Done r ->
  NoDup (elems (snd r))
  /\ forall name, In name (elems (snd r)) -> In name (propertyNames (fst r)).
Proof.
  intros H. destruct (Kind node) eqn:Hkind.
  - destruct r as [result parent'].
    destruct node as [kind tag value hc content al]. cbn [Kind] in Hkind. subst kind.
    cbn [YamlToSchema Kind Content] in H.
    destruct content as [|child [|more rest]]; try discriminate.
    apply bind_Done in H as (r & _ & [= _ <-]).
    cbn [snd elems]. split; [constructor | intros name []].
  - destruct node as [kind tag value hc content al]. cbn [Kind] in Hkind. subst kind.
    injection H as <-. cbn [snd elems]. split; [constructor | intros name []].
  - rewrite YamlToSchema_mapping in H by assumption.
    pose proof H as Hgrown. apply mappingEntries_grown in Hgrown.
    apply mappingEntries_shape in H as (_ & _ & Hnames & Hparent & _).
    cbn [fst snd elems] in *. split.
    + apply (NoDup_count_occ string_dec). intros x.
      destruct (Hgrown x) as [_ Hmost]. unfold occurrences in Hmost.
      cbn [elems count_occ] in Hmost. lia.
    + intros name Hin. apply Hnames.
      destruct (Hparent name Hin) as [[]|Hkey]. now right.
  - destruct node as [kind tag value hc content al]. cbn [Kind] in Hkind. subst kind.
    injection H as <-. cbn [snd elems]. split; [constructor | intros name []].
  - destruct node as [kind tag value hc content al]. cbn [Kind] in Hkind. subst kind.
    injection H as <-. cbn [snd elems]. split; [constructor | intros name []].
Qed.

(** X26. In the schema of a document every required name is the name
    of one of its properties, and no name is required twice. *)
Theorem document_required_are_properties :
  forall (node : Node) (parent parent' : slice string) (result : Schema),
    Kind node = DocumentNode ->
    synthesize node parent = Done (result, parent') ->
    NoDup (requiredNames result)
    /\ forall name, In name (requiredNames result) ->
                    In name (propertyNames result).
Proof.
  intros [kind tag value hc content al] parent parent' result Hkind.
  cbn [Kind] in Hkind. subst kind. cbn [YamlToSchema Kind Content].
  destruct content as [|child [|more rest]]; try discriminate.
  intros H. apply bind_Done in H as (r & Hchild & [= <- _]).
  destruct (YamlToSchema_from_empty _ Hchild) as (Hnodup & Hnames).
  unfold requiredNames, propertyNames, setStrings.
  destruct (negb (Skip.AdditionalProperties skipAutoGeneration));
    read_fields;
    cbn [set_AdditionalProperties set_Schema_ Properties Required Strings];
    (split; [exact Hnodup | exact Hnames]).
Qed.

End WholeDocument.

Lemma document_required_are_properties_witness :
  exists result parent',
    sampleSynthesis
      (documentOf (mappingOf [commented "a" ""; scalarOf strTag "v";
                              flaggedKey; scalarOf intTag "1"])) None
    = Done (result, parent')
    /\ NoDup (requiredNames result).
Proof.
  eexists. eexists. split; [reflexivity|].
  refine (proj1 (@document_required_are_properties
            sampleDecoder (fun _ => Fail UnsupportedValue)
            (fun _ => Fail UnsupportedValue) loadsOnly
            (fun c => c) (fun c => c) (fun c => c) noHelmDocs
            (fun _ rel => rel) (fun _ => false) (fun _ => Fail UnsupportedValue)
            (fun _ _ => Fail UnsupportedValue) sampleAtoi (fun _ => None)
            "values.yaml" true false true skipNothing
            (documentOf (mappingOf [commented "a" ""; scalarOf strTag "v";
                                    flaggedKey; scalarOf intTag "1"]))
            None _ _ eq_refl eq_refl)).
Defined.
